(** * narr_data: NARR plotting helpers

    A shallow embedding of [narr_data.py]: the timestamp decoder
    [time_convert] and the two renderers [weather_plot_hgt] and
    [weather_plot_dew].

    The module is glue around three libraries.  Their behaviour is modelled
    only as far as the module drives it:
    - [datetime]: proleptic Gregorian dates between year 1 and year 9999,
      after the reference implementation of CPython's [datetime] module;
    - [netCDF4]: a file is a record of its coordinate variables and its named
      data variables; opening and closing a file are effects on a table of
      handles;
    - [matplotlib]/[cartopy]: every plotting call is recorded on the figure
      it draws on; whether the library accepts or rejects a call is left to
      a parameter of the development, so that the theorems hold whatever the
      library raises. *)

From Stdlib Require Import ZArith List String Ascii Bool Lia Floats DecimalString.
Import ListNotations.

Set Warnings "-inexact-float".
Set Implicit Arguments.

Open Scope Z_scope.

(** ** Exceptions and results *)

(** The Python exceptions that can leave the module. *)
Inductive exn : Type :=
| FileNotFoundError
| IndexError
| ValueError
| OverflowError
| TypeError.

(** Outcome of an expression that may raise. *)
Inductive result (A : Type) : Type :=
| Ok (a : A)
| Raise (e : exn).
Arguments Ok {A} a.
Arguments Raise {A} e.

Class Monad (m : Type -> Type) : Type := {
  ret : forall {A : Type}, A -> m A;
  bind : forall {A B : Type}, m A -> (A -> m B) -> m B
}.

Declare Scope monad_scope.
Delimit Scope monad_scope with monad.
Notation "x <- c1 ;; c2" := (bind c1 (fun x => c2))
  (at level 61, c1 at next level, right associativity) : monad_scope.
Notation "' pat <- c1 ;; c2" := (bind c1 (fun x => match x with pat => c2 end))
  (at level 61, pat pattern, c1 at next level, right associativity) : monad_scope.
Notation "c1 ;; c2" := (bind c1 (fun _ => c2))
  (at level 61, right associativity) : monad_scope.
Open Scope monad_scope.

#[export] Instance result_Monad : Monad result := {
  ret := fun A a => Ok a;
  bind := fun A B c k => match c with Ok a => k a | Raise e => Raise e end
}.

(** A list comprehension whose element expression may raise: elements are
    evaluated from left to right and the first exception ends the loop. *)
Fixpoint comprehension {A B : Type} (f : A -> result B) (l : list A)
  : result (list B) :=
  match l with
  | [] => Ok []
  | a :: l' =>
      b <- f a ;;
      bs <- comprehension f l' ;;
      ret (b :: bs)
  end.

(** ** Python's [int] on a float *)

(** [int(x)] for a binary64 [x]: truncation toward zero; [ValueError] on a
    NaN, [OverflowError] on an infinity. *)
Definition int (x : float) : result Z :=
  match Prim2SF x with
  | S754_zero _ => Ok 0
  | S754_finite s m e =>
      let magnitude := Z.shiftl (Z.pos m) e in
      Ok (if s then - magnitude else magnitude)
  | S754_infinity _ => Raise OverflowError
  | S754_nan => Raise ValueError
  end.

(** ** The [datetime] library *)

Module datetime.

(** A [timedelta] is kept normalised: [0 <= seconds < 86400].  The module
    never produces microseconds. *)
Record timedelta : Type := { days : Z; seconds : Z }.

Record datetime : Type := {
  year : Z; month : Z; day : Z; hour : Z; minute : Z; second : Z
}.

Definition MAXORDINAL : Z := 3652059.

Definition DAYS_IN_MONTH : list Z :=
  [-1; 31; 28; 31; 30; 31; 30; 31; 31; 30; 31; 30; 31].
Definition DAYS_BEFORE_MONTH : list Z :=
  [-1; 0; 31; 59; 90; 120; 151; 181; 212; 243; 273; 304; 334].
Definition DI400Y : Z := 146097.
Definition DI100Y : Z := 36524.
Definition DI4Y : Z := 1461.

Definition table (t : list Z) (i : Z) : Z := nth (Z.to_nat i) t 0.

Definition is_leap (y : Z) : bool :=
  (y mod 4 =? 0) && (negb (y mod 100 =? 0) || (y mod 400 =? 0)).

Definition days_before_year (y : Z) : Z :=
  let y := y - 1 in y * 365 + y / 4 - y / 100 + y / 400.

Definition days_before_month (y m : Z) : Z :=
  table DAYS_BEFORE_MONTH m + (if (2 <? m) && is_leap y then 1 else 0).

Definition ymd2ord (y m d : Z) : Z :=
  days_before_year y + days_before_month y m + d.

(** Ordinal to (year, month, day), with 0001-01-01 as day 1. *)
Definition ord2ymd (n : Z) : Z * Z * Z :=
  let n := n - 1 in
  let n400 := n / DI400Y in
  let n := n mod DI400Y in
  let y := n400 * 400 + 1 in
  let n100 := n / DI100Y in
  let n := n mod DI100Y in
  let n4 := n / DI4Y in
  let n := n mod DI4Y in
  let n1 := n / 365 in
  let n := n mod 365 in
  let y := y + n100 * 100 + n4 * 4 + n1 in
  if (n1 =? 4) || (n100 =? 4) then (y - 1, 12, 31)
  else
    let leapyear := (n1 =? 3) && (negb (n4 =? 24) || (n100 =? 3)) in
    let m := Z.shiftr (n + 50) 5 in
    let preceding :=
      table DAYS_BEFORE_MONTH m + (if (2 <? m) && leapyear then 1 else 0) in
    if n <? preceding then
      let m := m - 1 in
      let preceding :=
        preceding
        - (table DAYS_IN_MONTH m + (if (m =? 2) && leapyear then 1 else 0)) in
      (y, m, n - preceding + 1)
    else (y, m, n - preceding + 1).

(** The [timedelta] constructor: seconds carry into days; more than
    999999999 days either way is an [OverflowError]. *)
Definition mk_timedelta (d s : Z) : result timedelta :=
  let d := d + s / 86400 in
  let s := s mod 86400 in
  if 999999999 <? Z.abs d then Raise OverflowError
  else Ok {| days := d; seconds := s |}.

(** [timedelta(hours=h)]. *)
Definition timedelta_hours (h : Z) : result timedelta :=
  mk_timedelta 0 (h * 3600).

Definition timedelta_add (a b : timedelta) : result timedelta :=
  mk_timedelta (days a + days b) (seconds a + seconds b).

Definition toordinal (t : datetime) : Z :=
  ymd2ord (year t) (month t) (day t).

(** [self + other] for a [datetime] and a [timedelta]. *)
Definition add (self : datetime) (other : timedelta) : result datetime :=
  delta <- mk_timedelta (toordinal self)
             (hour self * 3600 + minute self * 60 + second self) ;;
  delta <- timedelta_add delta other ;;
  let hour := seconds delta / 3600 in
  let rem := seconds delta mod 3600 in
  let minute := rem / 60 in
  let second := rem mod 60 in
  if (0 <? days delta) && (days delta <=? MAXORDINAL) then
    let '(y, m, d) := ord2ymd (days delta) in
    Ok {| year := y; month := m; day := d;
          hour := hour; minute := minute; second := second |}
  else Raise OverflowError.

(** Decimal digits, zero padded to a fixed width. *)
Definition digit (d : Z) : ascii := ascii_of_nat (48 + Z.to_nat (d mod 10)).

Fixpoint zero_padded (width : nat) (n : Z) (tail : string) : string :=
  match width with
  | O => tail
  | S w => zero_padded w (n / 10) (String (digit n) tail)
  end.

(** How the platform's C library prints [%Y]: padded with zeros to four
    digits, or, as glibc does, with the digits the year has.  The two agree
    from year 1000 on. *)
Inductive libc : Type := Padded | Glibc.

Definition year_digits (c : libc) (y : Z) : nat :=
  match c with
  | Padded => 4%nat
  | Glibc =>
      if y <? 10 then 1%nat
      else if y <? 100 then 2%nat
      else if y <? 1000 then 3%nat
      else 4%nat
  end.

(** [self.strftime('%Y-%m-%d %H:%M:%S')]. *)
Definition strftime (c : libc) (t : datetime) : string :=
  zero_padded (year_digits c (year t)) (year t)
    (String "-" (zero_padded 2 (month t)
      (String "-" (zero_padded 2 (day t)
        (String " " (zero_padded 2 (hour t)
          (String ":" (zero_padded 2 (minute t)
            (String ":" (zero_padded 2 (second t) EmptyString)))))))))).

(** Chronological order, as Python compares the field tuples. *)
Definition fields (t : datetime) : list Z :=
  [year t; month t; day t; hour t; minute t; second t].

Fixpoint lexlt (a b : list Z) : bool :=
  match a, b with
  | x :: a', y :: b' => (x <? y) || ((x =? y) && lexlt a' b')
  | [], _ :: _ => true
  | _, [] => false
  end.

Definition before (a b : datetime) : bool := lexlt (fields a) (fields b).

End datetime.

(** ** numpy and netCDF4 values *)

(** A two-dimensional array, indexed [y][x]. *)
Definition grid (A : Type) : Type := list (list A).

(** [a.shape] of a two-dimensional array. *)
Definition shape {A : Type} (a : grid A) : nat * nat :=
  (List.length a, List.length (hd [] a)).

(** What a netCDF file holds, as far as the module reads it: the coordinate
    variables ['time'] (hours since 1800-01-01 00:00:00), ['level'] (whole
    hPa), ['lat'] and ['lon'] (two-dimensional on the NARR grid), and the
    data variables by name.  [V] is the type of a data variable: indexed
    [time][level][y][x] in a pressure-level file, [time][y][x] in a surface
    file. *)
Record netcdf (A V : Type) : Type := {
  nc_time : list float;
  nc_level : list Z;
  nc_lat : grid A;
  nc_lon : grid A;
  nc_variables : list (string * V)
}.

(** An open [Dataset] object: its number in the table of handles and the
    file it reads.  Reading through the object reads the file. *)
Record handle (A V : Type) : Type := {
  hid : nat;
  contents :> netcdf A V
}.

(** [file[name]]: netCDF4 raises [IndexError] for a name the file lacks. *)
Fixpoint getitem {V : Type} (vars : list (string * V)) (name : string)
  : result V :=
  match vars with
  | [] => Raise IndexError
  | (k, v) :: vars' => if String.eqb k name then Ok v else getitem vars' name
  end.

(** [a[i]] for a non-negative [i]. *)
Definition index {X : Type} (a : list X) (i : nat) : result X :=
  match nth_error a i with
  | Some x => Ok x
  | None => Raise IndexError
  end.

(** [a == v] on two strings as numpy compares the elements of its string
    arrays: character by character, the shorter string padded with NULs, so
    that NULs at the end of either string do not count. *)
Definition NUL : ascii := "000"%char.

Fixpoint all_nul (s : string) : bool :=
  match s with
  | EmptyString => true
  | String c s' => Ascii.eqb c NUL && all_nul s'
  end.

Fixpoint np_equal (a b : string) : bool :=
  match a, b with
  | EmptyString, _ => all_nul b
  | _, EmptyString => all_nul a
  | String c a', String d b' => Ascii.eqb c d && np_equal a' b'
  end.

(** [np.where(a == v)[0][0]]: the position of the first element that
    [==] finds equal to [v]; indexing the empty array of positions raises
    [IndexError]. *)
Fixpoint where_first {X : Type} (eqv : X -> bool) (a : list X) : result nat :=
  match a with
  | [] => Raise IndexError
  | x :: a' =>
      if eqv x then Ok O
      else i <- where_first eqv a' ;; ret (S i)
  end.

(** [a[::2]]. *)
Fixpoint every_other {X : Type} (a : list X) : list X :=
  match a with
  | [] => []
  | x :: a' => x :: match a' with [] => [] | _ :: a'' => every_other a'' end
  end.

(** [a[::2, ::2]]. *)
Definition stride2 {A : Type} (a : grid A) : grid A :=
  map (@every_other A) (every_other a).

(** The element type of the data arrays, with the two operations the module
    applies against a Python float. *)
Class Sample (A : Type) : Type := {
  true_divide : A -> float -> A;
  subtract : A -> float -> A
}.

#[export] Instance float64 : Sample float := {
  true_divide := PrimFloat.div;
  subtract := PrimFloat.sub
}.

(** [a / c] and [a - c], element by element. *)
Definition divide {A : Type} `{Sample A} (a : grid A) (c : float) : grid A :=
  map (map (fun x => true_divide x c)) a.

Definition minus {A : Type} `{Sample A} (a : grid A) (c : float) : grid A :=
  map (map (fun x => subtract x c)) a.

(** ** The timestamp decoder *)

Definition start : datetime.datetime :=
  {| datetime.year := 1800; datetime.month := 1; datetime.day := 1;
     datetime.hour := 0; datetime.minute := 0; datetime.second := 0 |}.

Definition time_convert {A V : Type} (c : datetime.libc) (file : netcdf A V)
  : result (list string) :=
  delta <- comprehension
             (fun i => h <- int i ;; datetime.timedelta_hours h)
             (nc_time file) ;;
  offset <- comprehension (fun x => datetime.add start x) delta ;;
  let new_time := map (datetime.strftime c) offset in
  ret new_time.

(** ** matplotlib, cartopy and metpy: the plotting calls *)

(** [np.arange(start, stop, step)], kept as written. *)
Inductive arange : Type :=
| arange_int (start stop step : Z)
| arange_float (start stop step : float).

(** The map layers the renderers add. *)
Inductive feature : Type :=
| BORDERS
| COASTLINE
| OCEAN
| LAND
| LAKES
| RIVERS
| GSHHSFeature (levels : list Z)
| USCOUNTIES_with_scale (scale : string).

Section Plotting.

Context {A : Type}.

(** What [ax.contourf] returns: the contour set with the arrays it drew. *)
Record contour_set : Type := {
  cs_x : grid A;
  cs_y : grid A;
  cs_z : grid A;
  cs_levels : arange;
  cs_cmap : string
}.

(** A plotting call on a figure. *)
Inductive call : Type :=
| set_extent (extent : list float)
| contourf (cs : contour_set)
| barbs (x y u v : grid A) (barbcolor : string) (linewidth : float)
| add_feature (f : feature)
| colorbar (mappable : contour_set) (shrink : float) (ax : nat)
| set_label (label : string).

(** What the program does to the world outside it, in order. *)
Inductive event : Type :=
| Opened (h : nat)
| Closed (h : nat)
| NewFigure (fig : nat)
| Draw (fig : nat) (c : call).

(** The world: for every file handle made so far whether it is still
    open; for every figure made so far the calls drawn on it; pyplot's
    current figure; and the trace of events. *)
Record state : Type := {
  handles : list bool;
  figures : list (list call);
  current : option nat;
  log : list event
}.

(** A Python computation: it may raise, and the world it leaves behind is
    kept either way. *)
Definition M (X : Type) : Type := state -> result X * state.

#[export] Instance M_Monad : Monad M := {
  ret := fun X x s => (Ok x, s);
  bind := fun X Y c k s =>
    match c s with
    | (Ok x, s') => k x s'
    | (Raise e, s') => (Raise e, s')
    end
}.

(** A pure expression inside a computation. *)
Definition lift {X : Type} (r : result X) : M X := fun s => (r, s).

(** *** netCDF4 *)

(** [Dataset(path)] opens the file for reading; a path that names no file
    raises [FileNotFoundError]. *)
Definition Dataset {V : Type} (fs : string -> option (netcdf A V))
  (path : string) : M (handle A V) :=
  fun s =>
    match fs path with
    | None => (Raise FileNotFoundError, s)
    | Some nc =>
        let h := List.length (handles s) in
        (Ok {| hid := h; contents := nc |},
         {| handles := handles s ++ [true];
            figures := figures s;
            current := current s;
            log := log s ++ [Opened h] |})
    end.

Fixpoint set_closed (h : nat) (hs : list bool) : list bool :=
  match hs, h with
  | [], _ => []
  | _ :: hs', O => false :: hs'
  | b :: hs', S h' => b :: set_closed h' hs'
  end.

(** [file.close()]. *)
Definition close {V : Type} (file : handle A V) : M unit :=
  fun s =>
    (Ok tt,
     {| handles := set_closed (hid file) (handles s);
        figures := figures s;
        current := current s;
        log := log s ++ [Closed (hid file)] |}).

(** *** pyplot *)

(** The plotting libraries' verdict on a call: [None] when they accept
    it, the exception they raise otherwise. *)
Variable check : call -> option exn.

Fixpoint add_artist (fig : nat) (c : call) (figs : list (list call))
  : list (list call) :=
  match figs, fig with
  | [], _ => []
  | f :: figs', O => (f ++ [c]) :: figs'
  | f :: figs', S fig' => f :: add_artist fig' c figs'
  end.

(** [plt.subplots(figsize = (8, 8), subplot_kw = dict(projection =
    ccrs.PlateCarree()))]: a new figure with one map axis, which becomes
    the current figure.  The axis is named by its figure. *)
Definition subplots : M nat :=
  fun s =>
    let fig := List.length (figures s) in
    (Ok fig,
     {| handles := handles s;
        figures := figures s ++ [[]];
        current := Some fig;
        log := log s ++ [NewFigure fig] |}).

(** [plt.gcf()]: the current figure, made if there is none. *)
Definition gcf : M nat :=
  fun s =>
    match current s with
    | Some fig => (Ok fig, s)
    | None => subplots s
    end.

(** One plotting call on figure [fig]. *)
Definition draw (fig : nat) (c : call) : M unit :=
  fun s =>
    match check c with
    | Some e =>
        (Raise e,
         {| handles := handles s;
            figures := figures s;
            current := current s;
            log := log s ++ [Draw fig c] |})
    | None =>
        (Ok tt,
         {| handles := handles s;
            figures := add_artist fig c (figures s);
            current := current s;
            log := log s ++ [Draw fig c] |})
    end.

Definition ax_set_extent (ax : nat) (extent : list float) : M unit :=
  draw ax (set_extent extent).

Definition ax_contourf (ax : nat) (x y z : grid A) (levels : arange)
  (cmap : string) : M contour_set :=
  let cs := {| cs_x := x; cs_y := y; cs_z := z;
               cs_levels := levels; cs_cmap := cmap |} in
  draw ax (contourf cs) ;;
  ret cs.

Definition ax_barbs (ax : nat) (x y u v : grid A) (barbcolor : string)
  (linewidth : float) : M unit :=
  draw ax (barbs x y u v barbcolor linewidth).

Definition ax_add_feature (ax : nat) (f : feature) : M unit :=
  draw ax (add_feature f).

(** [plt.colorbar(mappable, shrink = ..., ax = ...)] draws on the current
    figure; the colour bar it returns is named by that figure. *)
Definition plt_colorbar (mappable : contour_set) (shrink : float) (ax : nat)
  : M nat :=
  fig <- gcf ;;
  draw fig (colorbar mappable shrink ax) ;;
  ret fig.

Definition cbar_set_label (cbar : nat) (label : string) : M unit :=
  draw cbar (set_label label).

(** [str(n)] for an integer. *)
Definition str (n : Z) : string := NilZero.string_of_int (Z.to_int n).

(** *** The renderers *)

Context `{Sample A}.
Variable libc : datetime.libc.

(** [file[name][t][l][:][:].data] and [file[name][t][:][:].data]. *)
Definition item4 (file : netcdf A (list (list (grid A)))) (name : string)
  (t l : nat) : result (grid A) :=
  v <- getitem (nc_variables file) name ;;
  v <- index v t ;;
  index v l.

Definition item3 (file : netcdf A (list (grid A))) (name : string)
  (t : nat) : result (grid A) :=
  v <- getitem (nc_variables file) name ;;
  index v t.

Definition weather_plot_hgt
  (fs : string -> option (netcdf A (list (list (grid A)))))
  (uwnd_file vwnd_file hgt_file : string) (level : Z) (date : string)
  (cmap barb_color : string) (extent : option (list float))
  : M (grid A * nat) :=
  uwnd_file <- Dataset fs uwnd_file ;;
  vwnd_file <- Dataset fs vwnd_file ;;
  hgt_file <- Dataset fs hgt_file ;;
  time <- lift (time_convert libc uwnd_file) ;;
  time_where <- lift (where_first (fun x => np_equal x date) time) ;;
  level_where <-
    lift (where_first (Z.eqb level) (nc_level uwnd_file)) ;;
  uwnd <- lift (item4 uwnd_file "uwnd" time_where level_where) ;;
  vwnd <- lift (item4 vwnd_file "vwnd" time_where level_where) ;;
  hgt <- lift (item4 hgt_file "hgt" time_where level_where) ;;
  let lat := nc_lat uwnd_file in
  let lon := nc_lon uwnd_file in
  let uwnd := divide uwnd 0.514 in
  let vwnd := divide vwnd 0.514 in
  close uwnd_file ;;
  close vwnd_file ;;
  close hgt_file ;;
  ax <- subplots ;;
  let height_range := arange_int 5910 6000 5 in
  match extent with
  | Some extent => ax_set_extent ax extent
  | None => ret tt
  end ;;
  hgt_plot <- ax_contourf ax lon lat hgt height_range cmap ;;
  ax_barbs ax (stride2 lon) (stride2 lat) (stride2 uwnd) (stride2 vwnd)
    barb_color 2.0 ;;
  ax_add_feature ax BORDERS ;;
  ax_add_feature ax COASTLINE ;;
  ax_add_feature ax OCEAN ;;
  ax_add_feature ax LAND ;;
  ax_add_feature ax LAKES ;;
  ax_add_feature ax RIVERS ;;
  ax_add_feature ax (GSHHSFeature [1]) ;;
  ax_add_feature ax (USCOUNTIES_with_scale "500k") ;;
  cbar <- plt_colorbar hgt_plot 0.7 ax ;;
  cbar_set_label cbar (str level ++ " mb Geopotential Height (meters)") ;;
  ret (hgt, ax).

Definition weather_plot_dew
  (fs : string -> option (netcdf A (list (grid A))))
  (uwnd_file vwnd_file dew_file : string) (date : string)
  (cmap barb_color : string) (extent : option (list float))
  : M (grid A * nat) :=
  uwnd_file <- Dataset fs uwnd_file ;;
  vwnd_file <- Dataset fs vwnd_file ;;
  dew_file <- Dataset fs dew_file ;;
  time <- lift (time_convert libc uwnd_file) ;;
  time_where <- lift (where_first (fun x => np_equal x date) time) ;;
  uwnd <- lift (item3 uwnd_file "uwnd" time_where) ;;
  vwnd <- lift (item3 vwnd_file "vwnd" time_where) ;;
  dew <- lift (item3 dew_file "dpt" time_where) ;;
  let lat := nc_lat uwnd_file in
  let lon := nc_lon uwnd_file in
  let uwnd := divide uwnd 0.514 in
  let vwnd := divide vwnd 0.514 in
  close uwnd_file ;;
  close vwnd_file ;;
  close dew_file ;;
  ax <- subplots ;;
  match extent with
  | Some extent => ax_set_extent ax extent
  | None => ret tt
  end ;;
  let dew_range := arange_float 18.5 24.0 0.3 in
  dew_plot <- ax_contourf ax lon lat (minus dew 273.15) dew_range cmap ;;
  ax_barbs ax (stride2 lon) (stride2 lat) (stride2 uwnd) (stride2 vwnd)
    barb_color 2.0 ;;
  ax_add_feature ax BORDERS ;;
  ax_add_feature ax COASTLINE ;;
  ax_add_feature ax OCEAN ;;
  ax_add_feature ax LAND ;;
  ax_add_feature ax LAKES ;;
  ax_add_feature ax RIVERS ;;
  ax_add_feature ax (GSHHSFeature [1]) ;;
  ax_add_feature ax (USCOUNTIES_with_scale "500k") ;;
  cbar <- plt_colorbar dew_plot 0.7 ax ;;
  cbar_set_label cbar "2-Meter Dewpoint (Celsius)" ;;
  ret (dew, ax).

End Plotting.

(** ** Vocabulary of the specification *)

Section Runs.

Context {A : Type} `{Sample A}.
Variable check : @call A -> option exn.
Variable libc : datetime.libc.

(** A sequence of plotting calls stops at the first one rejected:
    [outcome] is what the sequence raises, [accepted] the calls drawn,
    [attempted] the calls made. *)
Fixpoint outcome (cs : list (@call A)) : result unit :=
  match cs with
  | [] => Ok tt
  | c :: cs' =>
      match check c with
      | None => outcome cs'
      | Some e => Raise e
      end
  end.

Fixpoint accepted (cs : list (@call A)) : list (@call A) :=
  match cs with
  | [] => []
  | c :: cs' =>
      match check c with
      | None => c :: accepted cs'
      | Some _ => []
      end
  end.

Fixpoint attempted (cs : list (@call A)) : list (@call A) :=
  match cs with
  | [] => []
  | c :: cs' =>
      c :: match check c with
           | None => attempted cs'
           | Some _ => []
           end
  end.

(** The map layers, in the order both renderers add them. *)
Definition layers : list (@call A) :=
  map add_feature
    [BORDERS; COASTLINE; OCEAN; LAND; LAKES; RIVERS; GSHHSFeature [1];
     USCOUNTIES_with_scale "500k"].

Definition extent_calls (extent : option (list float)) : list (@call A) :=
  match extent with
  | Some extent => [set_extent extent]
  | None => []
  end.

(** The plotting calls of a renderer on its axis [ax], given the arrays
    it plots: the scalar field [z] as handed to [contourf] and the winds
    [u], [v] in knots. *)
Definition plot_calls (ax : nat) (lon lat z u v : grid A) (levels : arange)
  (cmap barb_color : string) (extent : option (list float))
  (label : string) : list (@call A) :=
  let cs := {| cs_x := lon; cs_y := lat; cs_z := z;
               cs_levels := levels; cs_cmap := cmap |} in
  extent_calls extent
  ++ [contourf cs;
      barbs (stride2 lon) (stride2 lat) (stride2 u) (stride2 v)
        barb_color 2.0]
  ++ layers
  ++ [colorbar cs 0.7 ax; set_label label].

(** The world after a renderer opened [k] files, and after it opened and
    closed its three files. *)
Definition opened (k : nat) (s : @state A) : @state A :=
  let h := List.length (handles s) in
  {| handles := handles s ++ repeat true k;
     figures := figures s;
     current := current s;
     log := log s ++ map (@Opened A) (seq h k) |}.

Definition closed3 (s : @state A) : @state A :=
  let h := List.length (handles s) in
  {| handles := handles s ++ [false; false; false];
     figures := figures s;
     current := current s;
     log := log s ++ [Opened h; Opened (S h); Opened (S (S h));
                      Closed h; Closed (S h); Closed (S (S h))] |}.

(** The world after a new figure received the calls [cs]. *)
Definition plotted (cs : list (@call A)) (s : @state A) : @state A :=
  let fig := List.length (figures s) in
  {| handles := handles s;
     figures := figures s ++ [accepted cs];
     current := Some fig;
     log := log s ++ NewFigure fig :: map (Draw fig) (attempted cs) |}.

(** The arrays the pressure-level renderer extracts, in the order
    (lon, lat, hgt, uwnd, vwnd), winds in knots. *)
Definition hgt_fields (uwnd_file vwnd_file hgt_file :
                         netcdf A (list (list (grid A))))
  (level : Z) (date : string)
  : result (grid A * grid A * grid A * grid A * grid A) :=
  time <- time_convert libc uwnd_file ;;
  time_where <- where_first (fun x => np_equal x date) time ;;
  level_where <- where_first (Z.eqb level) (nc_level uwnd_file) ;;
  uwnd <- item4 uwnd_file "uwnd" time_where level_where ;;
  vwnd <- item4 vwnd_file "vwnd" time_where level_where ;;
  hgt <- item4 hgt_file "hgt" time_where level_where ;;
  ret (nc_lon uwnd_file, nc_lat uwnd_file, hgt,
       divide uwnd 0.514, divide vwnd 0.514).

(** The arrays the surface renderer extracts, in the order
    (lon, lat, dew, uwnd, vwnd), winds in knots, dewpoint as read. *)
Definition dew_fields (uwnd_file vwnd_file dew_file :
                         netcdf A (list (grid A)))
  (date : string)
  : result (grid A * grid A * grid A * grid A * grid A) :=
  time <- time_convert libc uwnd_file ;;
  time_where <- where_first (fun x => np_equal x date) time ;;
  uwnd <- item3 uwnd_file "uwnd" time_where ;;
  vwnd <- item3 vwnd_file "vwnd" time_where ;;
  dew <- item3 dew_file "dpt" time_where ;;
  ret (nc_lon uwnd_file, nc_lat uwnd_file, dew,
       divide uwnd 0.514, divide vwnd 0.514).

Definition hgt_label (level : Z) : string :=
  str level ++ " mb Geopotential Height (meters)".

Definition dew_label : string := "2-Meter Dewpoint (Celsius)".

(** The slices a renderer reads at the time (and level) it selects from
    the u-wind file: [ru], [rv] the winds in m/s, [rz] the scalar field. *)
Definition hgt_selected (du dv dh : netcdf A (list (list (grid A))))
  (level : Z) (date : string) (ru rv rz : grid A) : Prop :=
  exists time t l,
    time_convert libc du = Ok time
    /\ where_first (fun x => np_equal x date) time = Ok t
    /\ where_first (Z.eqb level) (nc_level du) = Ok l
    /\ item4 du "uwnd" t l = Ok ru
    /\ item4 dv "vwnd" t l = Ok rv
    /\ item4 dh "hgt" t l = Ok rz.

Definition dew_selected (du dv dd : netcdf A (list (grid A)))
  (date : string) (ru rv rz : grid A) : Prop :=
  exists time t,
    time_convert libc du = Ok time
    /\ where_first (fun x => np_equal x date) time = Ok t
    /\ item3 du "uwnd" t = Ok ru
    /\ item3 dv "vwnd" t = Ok rv
    /\ item3 dd "dpt" t = Ok rz.

(** Two file systems that agree on every data variable of the file at
    [path], whatever its coordinate variables hold. *)
Definition same_data {V : Type} (fs1 fs2 : string -> option (netcdf A V))
  (path : string) : Prop :=
  match fs1 path, fs2 path with
  | Some d1, Some d2 => nc_variables d1 = nc_variables d2
  | None, None => True
  | _, _ => False
  end.

(** A plotting library that accepts [contourf] only with coordinate
    arrays of the shape of the field, as matplotlib does. *)
Definition contourf_checks_shapes : Prop :=
  forall cs : @contour_set A,
    check (contourf cs) = None ->
    shape (cs_x cs) = shape (cs_z cs) /\ shape (cs_y cs) = shape (cs_z cs).

(** A plotting library whose verdict on a colour bar does not depend on
    the axis it is attached to. *)
Definition colorbar_any_axis : Prop :=
  forall (m : @contour_set A) shrink a a',
    check (colorbar m shrink a) = check (colorbar m shrink a').

(** The events of a run: what the trace gained. *)
Definition new_events (s s' : @state A) : list (@event A) :=
  skipn (List.length (log s)) (log s').

Definition is_plotting (ev : @event A) : bool :=
  match ev with
  | NewFigure _ | Draw _ _ => true
  | Opened _ | Closed _ => false
  end.

End Runs.

(** *** The decoder, in the words of the specification *)

(** [n] whole hours after 1800-01-01 00:00:00: the day moves by the whole
    days in [n], the hour of the day is what remains. *)
Definition hours_after_epoch (n : Z) : datetime.datetime :=
  let '(y, m, d) := datetime.ord2ymd (datetime.ymd2ord 1800 1 1 + n / 24) in
  {| datetime.year := y; datetime.month := m; datetime.day := d;
     datetime.hour := n mod 24; datetime.minute := 0; datetime.second := 0 |}.

(** The text [YYYY-MM-DD HH:MM:SS] of that moment. *)
Definition stamp (n : Z) : string :=
  datetime.strftime datetime.Padded (hours_after_epoch n).

(** The hour offsets of the years 1000 to 9999, on which every platform
    prints a four-digit year; and the first hour of year 1, the earliest
    moment a [datetime] holds. *)
Definition first_hour : Z := -7012656.
Definition last_hour : Z := 71879711.
Definition earliest_hour : Z := -15769704.

(** The float [x] truncates to the whole number of hours [n], within the
    years 1000 to 9999. *)
Definition whole_hours (x : float) (n : Z) : Prop :=
  int x = Ok n /\ first_hour <= n <= last_hour.

(** The float [x] truncates to the whole number of hours [n], within the
    years 1 to 9999. *)
Definition decodable (x : float) (n : Z) : Prop :=
  int x = Ok n /\ earliest_hour <= n <= last_hour.

(** *** The date, in the words of the specification *)

(** The string [s] without the NULs at its end: the text a date stands for
    in the lookup. *)
Fixpoint rstrip_nul (s : string) : string :=
  match s with
  | EmptyString => EmptyString
  | String c s' =>
      if Ascii.eqb c NUL && all_nul s' then EmptyString
      else String c (rstrip_nul s')
  end.

(** A string that is not empty and ends in no NUL. *)
Definition unpadded (s : string) : Prop :=
  rstrip_nul s = s /\ s <> EmptyString.

(** ** A plotting library and files to run the renderers on *)

Definition same_shape (a b : grid float) : bool :=
  (fst (shape a) =? fst (shape b))%nat && (snd (shape a) =? snd (shape b))%nat.

(** matplotlib's checks on the arrays of [contourf] and [barbs]:
    [contourf] wants two-dimensional coordinates of the shape of the field
    and a field of at least two rows and two columns ([TypeError]); [barbs]
    wants its four arrays of one shape ([ValueError]). *)
Definition mpl_check (c : @call float) : option exn :=
  match c with
  | contourf cs =>
      if same_shape (cs_x cs) (cs_z cs) && same_shape (cs_y cs) (cs_z cs)
         && (2 <=? fst (shape (cs_z cs)))%nat
         && (2 <=? snd (shape (cs_z cs)))%nat
      then None else Some TypeError
  | barbs x y u v _ _ =>
      if same_shape x y && same_shape x u && same_shape x v
      then None else Some ValueError
  | _ => None
  end.

(** The world before anything was opened or drawn. *)
Definition fresh : @state float :=
  {| handles := []; figures := []; current := None; log := [] |}.

(** A grid of two rows and three columns. *)
Definition field (a : float) : grid float :=
  [[a; a + 1; a + 2]; [a + 3; a + 4; a + 5]]%float.

Definition narr_lat : grid float := field 30.
Definition narr_lon : grid float := field (-90).

(** Pressure-level files of two analysis times, 2020-07-19 18:00 and 21:00,
    and two levels. *)
Definition pressure_file (name : string) (a : float)
  : netcdf float (list (list (grid float))) :=
  {| nc_time := [1933290; 1933293]%float;
     nc_level := [1000; 500];
     nc_lat := narr_lat;
     nc_lon := narr_lon;
     nc_variables :=
       [(name, [[field a; field (a + 10)];
                [field (a + 20); field (a + 30)]]%float)] |}.

(** A v-wind file that ends one analysis time early. *)
Definition short_file : netcdf float (list (list (grid float))) :=
  {| nc_time := [1933290]%float;
     nc_level := [1000; 500];
     nc_lat := narr_lat;
     nc_lon := narr_lon;
     nc_variables := [("vwnd"%string, [[field 1; field 2]]%float)] |}.

Definition pressure_fs (path : string)
  : option (netcdf float (list (list (grid float)))) :=
  if String.eqb path "uwnd.202007.nc" then Some (pressure_file "uwnd" 0.514)
  else if String.eqb path "vwnd.202007.nc" then Some (pressure_file "vwnd" 2)
  else if String.eqb path "hgt.202007.nc" then Some (pressure_file "hgt" 5900)
  else if String.eqb path "vwnd.short.nc" then Some short_file
  else None.

(** Surface files of the same two analysis times. *)
Definition surface_file (name : string) (a : float)
  : netcdf float (list (grid float)) :=
  {| nc_time := [1933290; 1933293]%float;
     nc_level := [];
     nc_lat := narr_lat;
     nc_lon := narr_lon;
     nc_variables := [(name, [field a; field (a + 10)]%float)] |}.

Definition surface_fs (path : string)
  : option (netcdf float (list (grid float))) :=
  if String.eqb path "uwnd.10m.2020.nc" then Some (surface_file "uwnd" 0.514)
  else if String.eqb path "vwnd.10m.2020.nc" then Some (surface_file "vwnd" 2)
  else if String.eqb path "dpt.2m.2020.nc" then Some (surface_file "dpt" 273.15)
  else None.

(** The same pressure-level files with other coordinates in the v-wind and
    height files. *)
Definition shifted (d : netcdf float (list (list (grid float))))
  : netcdf float (list (list (grid float))) :=
  {| nc_time := [0]%float;
     nc_level := [850];
     nc_lat := [];
     nc_lon := field 7;
     nc_variables := nc_variables d |}.

Definition shifted_fs (path : string)
  : option (netcdf float (list (list (grid float)))) :=
  if String.eqb path "uwnd.202007.nc" then pressure_fs path
  else option_map shifted (pressure_fs path).

(** A file of the time axis [hours] and nothing else. *)
Definition time_axis (hours : list float) : netcdf unit unit :=
  {| nc_time := hours; nc_level := []; nc_lat := []; nc_lon := [];
     nc_variables := [] |}.

Definition july19 : string := "2020-07-19 18:00:00".
Definition july19_21h : string := "2020-07-19 21:00:00".
Definition july20 : string := "2020-07-20 00:00:00".



(** July 19th at 18:00 followed by one NUL, and by three. *)
Definition july19_nul : string := july19 ++ String NUL EmptyString.
Definition july19_nuls : string :=
  july19 ++ String NUL (String NUL (String NUL EmptyString)).

(** The example calls of the module: July 19th 2020 at 18:00 UTC, at 500 hPa
    and at the surface, each in a fresh world. *)
Abbreviation hgt_july19 :=
  (weather_plot_hgt mpl_check datetime.Glibc pressure_fs
     "uwnd.202007.nc" "vwnd.202007.nc" "hgt.202007.nc" 500 july19
     "Reds" "darkblue" (Some [-89.0; -85.0; 31.0; 36.0]%float) fresh).

Abbreviation dew_july19 :=
  (weather_plot_dew mpl_check datetime.Glibc surface_fs
     "uwnd.10m.2020.nc" "vwnd.10m.2020.nc" "dpt.2m.2020.nc" july19
     "Greens" "blue" (Some [-89.0; -85.0; 31.0; 36.0]%float) fresh).

(** A u-wind file whose second time is a missing value, a v-wind file on a
    grid of three rows and three columns, and the example files beside
    them. *)
Definition undated_file : netcdf float (list (list (grid float))) :=
  {| nc_time := [1933290; nan]%float;
     nc_level := [1000; 500];
     nc_lat := narr_lat;
     nc_lon := narr_lon;
     nc_variables :=
       [("uwnd"%string, [[field 1; field 2]; [field 3; field 4]]%float)] |}.

Definition square (a : float) : grid float :=
  [[a; a + 1; a + 2]; [a + 3; a + 4; a + 5]; [a + 6; a + 7; a + 8]]%float.

Definition square_file : netcdf float (list (list (grid float))) :=
  {| nc_time := [1933290; 1933293]%float;
     nc_level := [1000; 500];
     nc_lat := square 30;
     nc_lon := square (-90);
     nc_variables :=
       [("vwnd"%string, [[square 1; square 2]; [square 3; square 4]]%float)]
  |}.

Definition odd_fs (path : string)
  : option (netcdf float (list (list (grid float)))) :=
  if String.eqb path "uwnd.undated.nc" then Some undated_file
  else if String.eqb path "vwnd.square.nc" then Some square_file
  else pressure_fs path.

(** The call of July 19th on the v-wind file of the other grid, and a
    second call of July 19th in the world the first one left. *)
Abbreviation hgt_square :=
  (weather_plot_hgt mpl_check datetime.Glibc odd_fs
     "uwnd.202007.nc" "vwnd.square.nc" "hgt.202007.nc" 500 july19
     "Reds" "darkblue" (Some [-89.0; -85.0; 31.0; 36.0]%float) fresh).

(** The call of July 19th with its date followed by three NULs. *)
Abbreviation hgt_july19_nuls :=
  (weather_plot_hgt mpl_check datetime.Glibc pressure_fs
     "uwnd.202007.nc" "vwnd.202007.nc" "hgt.202007.nc" 500 july19_nuls
     "Reds" "darkblue" (Some [-89.0; -85.0; 31.0; 36.0]%float) fresh).

Abbreviation hgt_july19_again :=
  (weather_plot_hgt mpl_check datetime.Glibc pressure_fs
     "uwnd.202007.nc" "vwnd.202007.nc" "hgt.202007.nc" 500 july19
     "Reds" "darkblue" (Some [-89.0; -85.0; 31.0; 36.0]%float)
     (snd hgt_july19)).

(** ** Facts about the libraries *)

Module datetime_facts.
Import datetime.

(** The year of an ordinal, without the month and the day. *)
Lemma ord2ymd_year o :
  fst (fst (ord2ymd o)) =
    let n := o - 1 in
    let n400 := n / DI400Y in
    let n := n mod DI400Y in
    let n100 := n / DI100Y in
    let n := n mod DI100Y in
    let n4 := n / DI4Y in
    let n := n mod DI4Y in
    let n1 := n / 365 in
    let y := n400 * 400 + 1 + n100 * 100 + n4 * 4 + n1 in
    if (n1 =? 4) || (n100 =? 4) then y - 1 else y.
Proof.
  unfold ord2ymd. cbv zeta.
  destruct ((_ =? 4) || (_ =? 4)); [reflexivity|].
  destruct (_ <? _); reflexivity.
Qed.

Lemma year_before_1800 o :
  1 <= o <= 657071 -> fst (fst (ord2ymd o)) <= 1799.
Proof.
  intros Ho. rewrite ord2ymd_year. unfold DI400Y, DI100Y, DI4Y. cbv zeta.
  destruct (_ || _); Z.div_mod_to_equations; lia.
Qed.

Lemma year_from_1000 o :
  364878 <= o -> 1000 <= fst (fst (ord2ymd o)).
Proof.
  intros Ho. rewrite ord2ymd_year. unfold DI400Y, DI100Y, DI4Y. cbv zeta.
  destruct (_ || _) eqn:E; Z.div_mod_to_equations; lia.
Qed.

(** From year 1000 on the platforms print the same text. *)
Lemma strftime_four_digits c t :
  1000 <= year t -> strftime c t = strftime Padded t.
Proof.
  intros Hy. unfold strftime, year_digits. destruct c; [reflexivity|].
  destruct (year t <? 10) eqn:E1; [lia|].
  destruct (year t <? 100) eqn:E2; [lia|].
  destruct (year t <? 1000) eqn:E3; [lia|reflexivity].
Qed.

(** [timedelta(hours=n)] in days and seconds. *)
Lemma timedelta_hours_ok n :
  -20000000000 <= n <= 20000000000 ->
  timedelta_hours n = Ok {| days := n / 24; seconds := n mod 24 * 3600 |}.
Proof.
  intros Hn. unfold timedelta_hours, mk_timedelta. cbv zeta.
  replace (n * 3600 / 86400) with (n / 24)
    by (Z.div_mod_to_equations; lia).
  replace ((n * 3600) mod 86400) with (n mod 24 * 3600)
    by (Z.div_mod_to_equations; lia).
  destruct (999999999 <? Z.abs (0 + n / 24)) eqn:E; [|reflexivity].
  apply Z.ltb_lt in E. Z.div_mod_to_equations. lia.
Qed.

(** The epoch plus a [timedelta] of whole hours. *)
Lemma add_start_ok n :
  earliest_hour <= n <= last_hour ->
  add start {| days := n / 24; seconds := n mod 24 * 3600 |}
  = Ok (hours_after_epoch n).
Proof.
  unfold earliest_hour, last_hour. intros Hn.
  unfold add, hours_after_epoch.
  change (toordinal start) with 657072.
  change (ymd2ord 1800 1 1) with 657072.
  change (mk_timedelta 657072
            (hour start * 3600 + minute start * 60 + second start))
    with (Ok {| days := 657072; seconds := 0 |}).
  cbn [bind result_Monad].
  unfold timedelta_add, mk_timedelta. cbn [days seconds]. cbv zeta.
  replace ((0 + n mod 24 * 3600) / 86400) with 0
    by (Z.div_mod_to_equations; lia).
  replace ((0 + n mod 24 * 3600) mod 86400) with (n mod 24 * 3600)
    by (Z.div_mod_to_equations; lia).
  destruct (999999999 <? Z.abs (657072 + n / 24 + 0)) eqn:E.
  { apply Z.ltb_lt in E. Z.div_mod_to_equations. lia. }
  cbn [bind result_Monad days seconds].
  replace (657072 + n / 24 + 0) with (657072 + n / 24) by lia.
  replace ((0 <? 657072 + n / 24) && (657072 + n / 24 <=? MAXORDINAL))
    with true.
  2:{ symmetry. apply andb_true_iff. unfold MAXORDINAL. split;
      [apply Z.ltb_lt | apply Z.leb_le]; Z.div_mod_to_equations; lia. }
  destruct (ord2ymd (657072 + n / 24)) as [[y m] d].
  f_equal. f_equal.
  - Z.div_mod_to_equations; lia.
  - Z.div_mod_to_equations; lia.
  - Z.div_mod_to_equations; lia.
Qed.

(** One element of the decoder's two loops. *)
Lemma decode_hour x n :
  int x = Ok n -> earliest_hour <= n <= last_hour ->
  (h <- int x ;; timedelta_hours h)
    = Ok {| days := n / 24; seconds := n mod 24 * 3600 |}.
Proof.
  unfold earliest_hour, last_hour. intros Hx Hn. rewrite Hx.
  cbn [bind result_Monad]. apply timedelta_hours_ok. lia.
Qed.

Lemma year_hours_after_epoch n :
  year (hours_after_epoch n)
  = fst (fst (ord2ymd (657072 + n / 24))).
Proof.
  unfold hours_after_epoch. change (ymd2ord 1800 1 1) with 657072.
  destruct (ord2ymd (657072 + n / 24)) as [[y m] d]. reflexivity.
Qed.

End datetime_facts.

(** *** numpy's comparison of strings *)

Module numpy_facts.

Lemma rstrip_nul_empty s : rstrip_nul s = EmptyString <-> all_nul s = true.
Proof.
  destruct s as [|c s]; cbn [rstrip_nul all_nul]; [tauto|].
  destruct (Ascii.eqb c NUL && all_nul s); split; congruence.
Qed.

(** The comparison sees its two strings without the NULs at their ends. *)
Lemma np_equal_rstrip a b :
  np_equal a b = String.eqb (rstrip_nul a) (rstrip_nul b).
Proof.
  revert b. induction a as [|c a IH]; intros b.
  - cbn [np_equal rstrip_nul].
    destruct (all_nul b) eqn:Eb.
    + apply rstrip_nul_empty in Eb. now rewrite Eb.
    + destruct (rstrip_nul b) eqn:Er; [|reflexivity].
      apply rstrip_nul_empty in Er. congruence.
  - destruct b as [|d b].
    + cbn [np_equal rstrip_nul all_nul].
      destruct (Ascii.eqb c NUL && all_nul a); reflexivity.
    + cbn [np_equal rstrip_nul]. rewrite IH.
      destruct (Ascii.eqb c NUL && all_nul a) eqn:Ea,
               (Ascii.eqb d NUL && all_nul b) eqn:Eb.
      * apply andb_true_iff in Ea, Eb. destruct Ea as [Ec Ea], Eb as [Ed Eb].
        apply Ascii.eqb_eq in Ec, Ed. subst c d.
        apply rstrip_nul_empty in Ea, Eb. now rewrite Ea, Eb.
      * cbn [String.eqb]. apply andb_true_iff in Ea. destruct Ea as [Ec Ea].
        apply Ascii.eqb_eq in Ec. subst c. apply rstrip_nul_empty in Ea.
        rewrite Ea. destruct (Ascii.eqb NUL d) eqn:Ed; [|reflexivity].
        apply Ascii.eqb_eq in Ed. subst d.
        rewrite Ascii.eqb_refl in Eb. cbn [andb] in Eb.
        destruct (rstrip_nul b) eqn:Er; [|reflexivity].
        apply rstrip_nul_empty in Er. congruence.
      * cbn [String.eqb]. apply andb_true_iff in Eb. destruct Eb as [Ed Eb].
        apply Ascii.eqb_eq in Ed. subst d. apply rstrip_nul_empty in Eb.
        rewrite Eb. destruct (Ascii.eqb c NUL) eqn:Ec; [|reflexivity].
        cbn [andb] in Ea.
        destruct (rstrip_nul a) eqn:Er; [|reflexivity].
        apply rstrip_nul_empty in Er. congruence.
      * reflexivity.
Qed.

(** Against a string that ends in no NUL, a date matches when its text is
    that string. *)
Lemma np_equal_unpadded x date :
  rstrip_nul x = x -> (np_equal x date = true <-> x = rstrip_nul date).
Proof.
  intros Hx. rewrite np_equal_rstrip, Hx. apply String.eqb_eq.
Qed.

Lemma rstrip_nul_idem s : rstrip_nul (rstrip_nul s) = rstrip_nul s.
Proof.
  induction s as [|c s IH]; [reflexivity|]. cbn [rstrip_nul].
  destruct (Ascii.eqb c NUL && all_nul s) eqn:E; [reflexivity|].
  cbn [rstrip_nul]. rewrite IH.
  destruct (Ascii.eqb c NUL && all_nul (rstrip_nul s)) eqn:E'; [|reflexivity].
  apply andb_true_iff in E'. destruct E' as [Ec Es].
  apply rstrip_nul_empty in Es. rewrite IH in Es.
  apply rstrip_nul_empty in Es. now rewrite Ec, Es in E.
Qed.

Lemma unpadded_String c s : unpadded s -> unpadded (String c s).
Proof.
  intros [Hs Hne]. split; [|discriminate]. cbn [rstrip_nul].
  destruct (all_nul s) eqn:Es.
  - apply rstrip_nul_empty in Es. congruence.
  - now rewrite andb_false_r, Hs.
Qed.

Lemma unpadded_zero_padded width n tail :
  unpadded tail -> unpadded (datetime.zero_padded width n tail).
Proof.
  revert n tail. induction width as [|w IH]; intros n tail Htail;
    [exact Htail|].
  cbn [datetime.zero_padded]. apply IH. now apply unpadded_String.
Qed.

Lemma unpadded_digit d : unpadded (String (datetime.digit d) EmptyString).
Proof.
  split; [|discriminate]. cbn [rstrip_nul all_nul].
  destruct (Ascii.eqb (datetime.digit d) NUL) eqn:E; [|reflexivity].
  apply Ascii.eqb_eq in E. unfold datetime.digit in E.
  apply (f_equal nat_of_ascii) in E.
  rewrite nat_ascii_embedding in E
    by (pose proof (Z.mod_pos_bound d 10); lia).
  cbn in E. lia.
Qed.

(** What [strftime] prints ends in a digit. *)
Lemma strftime_unpadded c t :
  rstrip_nul (datetime.strftime c t) = datetime.strftime c t.
Proof.
  unfold datetime.strftime.
  apply unpadded_zero_padded, unpadded_String.
  apply unpadded_zero_padded, unpadded_String.
  apply unpadded_zero_padded, unpadded_String.
  apply unpadded_zero_padded, unpadded_String.
  apply unpadded_zero_padded, unpadded_String.
  apply (unpadded_zero_padded 1). apply unpadded_digit.
Qed.

Lemma time_convert_unpadded {A V : Type} c (file : netcdf A V) time :
  time_convert c file = Ok time -> Forall (fun x => rstrip_nul x = x) time.
Proof.
  unfold time_convert.
  destruct (comprehension _ (nc_time file)) as [delta|]; [|discriminate].
  cbn [bind result_Monad].
  destruct (comprehension _ delta) as [offset|]; [|discriminate].
  cbn [bind ret result_Monad]. intros Ht. inversion Ht; subst time.
  apply Forall_forall. intros x Hx. apply in_map_iff in Hx.
  destruct Hx as (t & <- & _). apply strftime_unpadded.
Qed.

End numpy_facts.

(** ** Facts about the renderers *)

Section RunFacts.

Context {A : Type} `{Sample A}.
Variable check : @call A -> option exn.
Variable libc : datetime.libc.

(** *** Running a sequence of plotting calls *)

Lemma add_artist_last (F : list (list (@call A))) (f : list (@call A)) c :
  add_artist (List.length F) c (F ++ [f]) = F ++ [f ++ [c]].
Proof. induction F as [|g F IH]; simpl; [reflexivity | now rewrite IH]. Qed.

Lemma closed3_handles (l : list bool) :
  set_closed (S (S (List.length l)))
    (set_closed (S (List.length l))
       (set_closed (List.length l) (l ++ [true; true; true])))
  = l ++ [false; false; false].
Proof.
  induction l as [|b l IH]; [reflexivity|].
  change (b :: set_closed (S (S (List.length l)))
                 (set_closed (S (List.length l))
                    (set_closed (List.length l) (l ++ [true; true; true])))
          = b :: l ++ [false; false; false]).
  now rewrite IH.
Qed.

(** *** One run of a renderer *)

Ltac settle c :=
  let E := fresh "E" in
  destruct (check c) eqn:E;
  cbn [bind ret M_Monad result_Monad handles figures current log
       outcome accepted attempted map app fst snd];
  rewrite ?E;
  rewrite ?add_artist_last; rewrite <- ?app_assoc; cbn [app];
  try reflexivity.

Ltac settle_calls :=
  try match goal with
    | |- context [check (set_extent ?e)] => settle (@set_extent A e)
    end;
  match goal with
  | |- context [check (contourf ?cs)] => settle (contourf cs)
  end;
  match goal with
  | |- context [check (barbs ?x ?y ?u ?v ?c ?w)] => settle (barbs x y u v c w)
  end;
  settle (@add_feature A BORDERS);
  settle (@add_feature A COASTLINE);
  settle (@add_feature A OCEAN);
  settle (@add_feature A LAND);
  settle (@add_feature A LAKES);
  settle (@add_feature A RIVERS);
  settle (@add_feature A (GSHHSFeature [1]));
  settle (@add_feature A (USCOUNTIES_with_scale "500k"));
  match goal with
  | |- context [check (colorbar ?m ?sh ?ax)] => settle (colorbar m sh ax)
  end;
  match goal with
  | |- context [check (set_label ?l)] => settle (@set_label A l)
  end.

(** The pressure-level renderer, run in world [s], on files that exist. *)
Lemma weather_plot_hgt_run fs uwnd_file vwnd_file hgt_file level date
    cmap barb_color extent du dv dh (s : @state A) :
  fs uwnd_file = Some du ->
  fs vwnd_file = Some dv ->
  fs hgt_file = Some dh ->
  weather_plot_hgt check libc fs uwnd_file vwnd_file hgt_file level date
    cmap barb_color extent s
  = match hgt_fields libc du dv dh level date with
    | Raise e => (Raise e, opened 3 s)
    | Ok (lon, lat, hgt, uwnd, vwnd) =>
        let ax := List.length (figures s) in
        let cs := plot_calls ax lon lat hgt uwnd vwnd
                    (arange_int 5910 6000 5) cmap barb_color extent
                    (hgt_label level) in
        (match outcome check cs with
         | Ok _ => Ok (hgt, ax)
         | Raise e => Raise e
         end,
         plotted check cs (closed3 s))
    end.
Proof.
  intros Hu Hv Hh.
  unfold weather_plot_hgt, hgt_fields, Dataset, lift.
  cbn [bind M_Monad result_Monad handles figures current log contents hid].
  rewrite Hu. cbn [handles figures current log contents hid].
  rewrite Hv. cbn [handles figures current log contents hid].
  rewrite Hh. cbn [handles figures current log contents hid].
  unfold opened, closed3, plotted. cbn [repeat seq map].
  rewrite !length_app. cbn [List.length]. rewrite !Nat.add_1_r.
  rewrite <- !app_assoc. cbn [app].
  destruct (time_convert libc du) as [time|e]; [|reflexivity].
  destruct (where_first _ time) as [t|e]; [|reflexivity].
  destruct (where_first (Z.eqb level) (nc_level du)) as [l|e]; [|reflexivity].
  destruct (item4 du "uwnd" t l) as [uwnd|e]; [|reflexivity].
  destruct (item4 dv "vwnd" t l) as [vwnd|e]; [|reflexivity].
  destruct (item4 dh "hgt" t l) as [hgt|e]; [|reflexivity].
  unfold close, subplots, ax_set_extent, ax_contourf, ax_barbs,
    ax_add_feature, plt_colorbar, cbar_set_label, gcf, draw, plot_calls,
    extent_calls, layers, hgt_label, dew_label.
  cbn [bind ret M_Monad result_Monad handles figures current log contents
       hid map app].
  rewrite closed3_handles.
  rewrite <- !app_assoc. cbn [app].
  destruct extent as [extent|];
    cbn [bind ret M_Monad result_Monad handles figures current log app].
  - settle_calls.
  - settle_calls.
Qed.

(** The surface renderer, run in world [s], on files that exist.  The
    field handed to [contourf] is the dewpoint less 273.15; the field
    returned is the dewpoint as read. *)
Lemma weather_plot_dew_run fs uwnd_file vwnd_file dew_file date
    cmap barb_color extent du dv dh (s : @state A) :
  fs uwnd_file = Some du ->
  fs vwnd_file = Some dv ->
  fs dew_file = Some dh ->
  weather_plot_dew check libc fs uwnd_file vwnd_file dew_file date
    cmap barb_color extent s
  = match dew_fields libc du dv dh date with
    | Raise e => (Raise e, opened 3 s)
    | Ok (lon, lat, dew, uwnd, vwnd) =>
        let ax := List.length (figures s) in
        let cs := plot_calls ax lon lat (minus dew 273.15) uwnd vwnd
                    (arange_float 18.5 24.0 0.3) cmap barb_color extent
                    dew_label in
        (match outcome check cs with
         | Ok _ => Ok (dew, ax)
         | Raise e => Raise e
         end,
         plotted check cs (closed3 s))
    end.
Proof.
  intros Hu Hv Hh.
  unfold weather_plot_dew, dew_fields, Dataset, lift.
  cbn [bind M_Monad result_Monad handles figures current log contents hid].
  rewrite Hu. cbn [handles figures current log contents hid].
  rewrite Hv. cbn [handles figures current log contents hid].
  rewrite Hh. cbn [handles figures current log contents hid].
  unfold opened, closed3, plotted. cbn [repeat seq map].
  rewrite !length_app. cbn [List.length]. rewrite !Nat.add_1_r.
  rewrite <- !app_assoc. cbn [app].
  destruct (time_convert libc du) as [time|e]; [|reflexivity].
  destruct (where_first _ time) as [t|e]; [|reflexivity].
  destruct (item3 du "uwnd" t) as [uwnd|e]; [|reflexivity].
  destruct (item3 dv "vwnd" t) as [vwnd|e]; [|reflexivity].
  destruct (item3 dh "dpt" t) as [dew|e]; [|reflexivity].
  unfold close, subplots, ax_set_extent, ax_contourf, ax_barbs,
    ax_add_feature, plt_colorbar, cbar_set_label, gcf, draw, plot_calls,
    extent_calls, layers, hgt_label, dew_label.
  cbn [bind ret M_Monad result_Monad handles figures current log contents
       hid map app].
  rewrite closed3_handles.
  rewrite <- !app_assoc. cbn [app].
  destruct extent as [extent|];
    cbn [bind ret M_Monad result_Monad handles figures current log app].
  - settle_calls.
  - settle_calls.
Qed.

(** A renderer that misses one of its files raises before it reads. *)
Lemma weather_plot_hgt_missing fs uwnd_file vwnd_file hgt_file level date
    cmap barb_color extent (s : @state A) :
  fs uwnd_file = None \/ fs vwnd_file = None \/ fs hgt_file = None ->
  exists k,
    weather_plot_hgt check libc fs uwnd_file vwnd_file hgt_file level date
      cmap barb_color extent s
    = (Raise FileNotFoundError, opened k s).
Proof.
  intros Hnone.
  unfold weather_plot_hgt, Dataset, opened.
  cbn [bind M_Monad result_Monad handles figures current log contents hid].
  destruct (fs uwnd_file) as [du|].
  2:{ exists 0%nat. cbn [repeat seq map]. rewrite !app_nil_r.
      now destruct s. }
  cbn [handles figures current log contents hid].
  destruct (fs vwnd_file) as [dv|].
  2:{ exists 1%nat. reflexivity. }
  cbn [handles figures current log contents hid].
  destruct (fs hgt_file) as [dh|].
  { destruct Hnone as [Hn|[Hn|Hn]]; discriminate. }
  exists 2%nat. cbn [repeat seq map].
  rewrite !length_app. cbn [List.length]. rewrite !Nat.add_1_r.
  rewrite <- !app_assoc. reflexivity.
Qed.

Lemma weather_plot_dew_missing fs uwnd_file vwnd_file dew_file date
    cmap barb_color extent (s : @state A) :
  fs uwnd_file = None \/ fs vwnd_file = None \/ fs dew_file = None ->
  exists k,
    weather_plot_dew check libc fs uwnd_file vwnd_file dew_file date
      cmap barb_color extent s
    = (Raise FileNotFoundError, opened k s).
Proof.
  intros Hnone.
  unfold weather_plot_dew, Dataset, opened.
  cbn [bind M_Monad result_Monad handles figures current log contents hid].
  destruct (fs uwnd_file) as [du|].
  2:{ exists 0%nat. cbn [repeat seq map]. rewrite !app_nil_r.
      now destruct s. }
  cbn [handles figures current log contents hid].
  destruct (fs vwnd_file) as [dv|].
  2:{ exists 1%nat. reflexivity. }
  cbn [handles figures current log contents hid].
  destruct (fs dew_file) as [dh|].
  { destruct Hnone as [Hn|[Hn|Hn]]; discriminate. }
  exists 2%nat. cbn [repeat seq map].
  rewrite !length_app. cbn [List.length]. rewrite !Nat.add_1_r.
  rewrite <- !app_assoc. reflexivity.
Qed.

(** *** Sequences of plotting calls *)

Lemma outcome_Ok (cs : list (@call A)) u :
  outcome check cs = Ok u -> accepted check cs = cs /\ attempted check cs = cs.
Proof.
  induction cs as [|c cs IH]; cbn [outcome accepted attempted].
  - intros _. split; reflexivity.
  - destruct (check c); [discriminate|].
    intros Hcs. destruct (IH Hcs) as [Ha Hb]. now rewrite Ha, Hb.
Qed.

Lemma attempted_incl (cs : list (@call A)) c :
  In c (attempted check cs) -> In c cs.
Proof.
  induction cs as [|c' cs IH]; cbn [attempted]; [tauto|].
  intros [Hc|Hc]; [now left|].
  destruct (check c'); [destruct Hc | right; now apply IH].
Qed.

Lemma outcome_app (cs1 cs2 : list (@call A)) :
  outcome check (cs1 ++ cs2)
  = match outcome check cs1 with
    | Ok _ => outcome check cs2
    | Raise e => Raise e
    end.
Proof.
  induction cs1 as [|c cs1 IH]; cbn [app outcome]; [reflexivity|].
  destruct (check c); [reflexivity | exact IH].
Qed.

Lemma barbs_in_plot_calls ax (lon lat z u v : grid A) levels cmap
    barb_color extent label (x y bu bv : grid A) color width :
  In (barbs x y bu bv color width)
     (plot_calls ax lon lat z u v levels cmap barb_color extent label) ->
  x = stride2 lon /\ y = stride2 lat /\ bu = stride2 u /\ bv = stride2 v.
Proof.
  unfold plot_calls, extent_calls, layers. intros Hin.
  apply in_app_or in Hin. destruct Hin as [Hin|Hin].
  - destruct extent; cbn in Hin; intuition discriminate.
  - cbn in Hin.
    repeat (destruct Hin as [Hin|Hin]; [try discriminate|]);
      [|destruct Hin].
    inversion Hin. repeat split; reflexivity.
Qed.

Lemma plot_calls_has_contourf ax (lon lat z u v : grid A) levels cmap
    barb_color extent label :
  In (contourf {| cs_x := lon; cs_y := lat; cs_z := z;
                  cs_levels := levels; cs_cmap := cmap |})
     (plot_calls ax lon lat z u v levels cmap barb_color extent label).
Proof.
  unfold plot_calls. apply in_or_app. right. now left.
Qed.

Lemma plot_calls_has_barbs ax (lon lat z u v : grid A) levels cmap
    barb_color extent label :
  In (barbs (stride2 lon) (stride2 lat) (stride2 u) (stride2 v)
        barb_color 2.0)
     (plot_calls ax lon lat z u v levels cmap barb_color extent label).
Proof.
  unfold plot_calls. apply in_or_app. right. right. now left.
Qed.

(** *** Events of a run *)

Lemma new_events_app (s : @state A) hs fs cu evs :
  new_events s {| handles := hs; figures := fs; current := cu;
                  log := log s ++ evs |} = evs.
Proof.
  unfold new_events. cbn [log].
  rewrite skipn_app, Nat.sub_diag, skipn_all. reflexivity.
Qed.

Lemma new_events_opened k (s : @state A) :
  new_events s (opened k s)
  = map (@Opened A) (seq (List.length (handles s)) k).
Proof. apply new_events_app. Qed.

Lemma new_events_plotted cs (s : @state A) :
  new_events s (plotted check cs (closed3 s))
  = let h := List.length (handles s) in
    let ax := List.length (figures s) in
    [Opened h; Opened (S h); Opened (S (S h));
     Closed h; Closed (S h); Closed (S (S h))]
    ++ NewFigure ax :: map (Draw ax) (attempted check cs).
Proof.
  unfold plotted, closed3. cbn [handles figures current log].
  rewrite <- app_assoc. apply new_events_app.
Qed.

(** *** The extracted arrays *)

Lemma hgt_fields_Ok du dv dh level date lon lat z u v :
  hgt_fields libc du dv dh level date = Ok (lon, lat, z, u, v) <->
  exists ru rv,
    hgt_selected libc du dv dh level date ru rv z
    /\ lon = nc_lon du /\ lat = nc_lat du
    /\ u = divide ru 0.514 /\ v = divide rv 0.514.
Proof.
  unfold hgt_fields, hgt_selected. cbn [bind ret result_Monad]. split.
  - destruct (time_convert libc du) as [time|] eqn:Et; [|discriminate].
    destruct (where_first _ time) as [t|] eqn:Ew;
      [|discriminate].
    destruct (where_first (Z.eqb level) (nc_level du)) as [l|] eqn:El;
      [|discriminate].
    destruct (item4 du "uwnd" t l) as [ru|] eqn:Eu; [|discriminate].
    destruct (item4 dv "vwnd" t l) as [rv|] eqn:Ev; [|discriminate].
    destruct (item4 dh "hgt" t l) as [rz|] eqn:Ez; [|discriminate].
    intros Hok. inversion Hok; subst.
    exists ru, rv. split; [|repeat split].
    exists time, t, l. repeat split; assumption || reflexivity.
  - intros (ru & rv & (time & t & l & Ht & Hw & Hl & Hu & Hv & Hz)
            & -> & -> & -> & ->).
    now rewrite Ht, Hw, Hl, Hu, Hv, Hz.
Qed.

Lemma dew_fields_Ok du dv dd date lon lat z u v :
  dew_fields libc du dv dd date = Ok (lon, lat, z, u, v) <->
  exists ru rv,
    dew_selected libc du dv dd date ru rv z
    /\ lon = nc_lon du /\ lat = nc_lat du
    /\ u = divide ru 0.514 /\ v = divide rv 0.514.
Proof.
  unfold dew_fields, dew_selected. cbn [bind ret result_Monad]. split.
  - destruct (time_convert libc du) as [time|] eqn:Et; [|discriminate].
    destruct (where_first _ time) as [t|] eqn:Ew;
      [|discriminate].
    destruct (item3 du "uwnd" t) as [ru|] eqn:Eu; [|discriminate].
    destruct (item3 dv "vwnd" t) as [rv|] eqn:Ev; [|discriminate].
    destruct (item3 dd "dpt" t) as [rz|] eqn:Ez; [|discriminate].
    intros Hok. inversion Hok; subst.
    exists ru, rv. split; [|repeat split].
    exists time, t. repeat split; assumption || reflexivity.
  - intros (ru & rv & (time & t & Ht & Hw & Hu & Hv & Hz)
            & -> & -> & -> & ->).
    now rewrite Ht, Hw, Hu, Hv, Hz.
Qed.

(** *** Lookup by value *)

Lemma where_first_Ok {X : Type} (eqv : X -> bool) (a : list X) i :
  where_first eqv a = Ok i ->
  exists x, nth_error a i = Some x /\ eqv x = true
            /\ forall j y, (j < i)%nat -> nth_error a j = Some y ->
                            eqv y = false.
Proof.
  revert i. induction a as [|x a IH]; cbn [where_first]; intros i Hi;
    [discriminate|].
  destruct (eqv x) eqn:Ex.
  - inversion Hi; subst. exists x. repeat split; [exact Ex|].
    intros j y Hj. inversion Hj.
  - destruct (where_first eqv a) as [k|]; [|discriminate].
    inversion Hi; subst. destruct (IH k eq_refl) as (y & Hy & Ey & Hfirst).
    exists y. repeat split; [exact Hy | exact Ey |].
    intros [|j] z Hj Hz.
    + inversion Hz; subst. exact Ex.
    + apply (Hfirst j z); [lia | exact Hz].
Qed.

(** *** What a run tells about its inputs *)

Lemma files_present {V : Type} (fs : string -> option (netcdf A V)) p1 p2 p3 :
  (exists d1 d2 d3, fs p1 = Some d1 /\ fs p2 = Some d2 /\ fs p3 = Some d3)
  \/ (fs p1 = None \/ fs p2 = None \/ fs p3 = None).
Proof.
  destruct (fs p1) as [d1|]; [|right; now left].
  destruct (fs p2) as [d2|]; [|right; right; now left].
  destruct (fs p3) as [d3|]; [|right; right; now right].
  left. now exists d1, d2, d3.
Qed.

Lemma no_draw_opened k (s : @state A) fig c :
  ~ In (Draw fig c) (new_events s (opened k s)).
Proof.
  rewrite new_events_opened. intros Hin. apply in_map_iff in Hin.
  destruct Hin as (h & Hh & _). discriminate.
Qed.

Lemma draw_plotted cs (s : @state A) fig c :
  In (Draw fig c) (new_events s (plotted check cs (closed3 s))) ->
  fig = List.length (figures s) /\ In c cs.
Proof.
  rewrite new_events_plotted. cbv zeta. intros Hin.
  apply in_app_or in Hin. destruct Hin as [Hin|Hin].
  - cbn in Hin. intuition discriminate.
  - destruct Hin as [Hin|Hin]; [discriminate|].
    apply in_map_iff in Hin. destruct Hin as (c' & Hc & Hin).
    inversion Hc; subst. split; [reflexivity|].
    now apply attempted_incl in Hin.
Qed.

(** A returning run of the pressure-level renderer: the files were there,
    the slices were read at the selected time and level, every plotting
    call was accepted, and the world is the one after them. *)
Lemma weather_plot_hgt_returns fs uwnd_file vwnd_file hgt_file level date
    cmap barb_color extent (s s' : @state A) a ax :
  weather_plot_hgt check libc fs uwnd_file vwnd_file hgt_file level date
    cmap barb_color extent s = (Ok (a, ax), s') ->
  exists du dv dh ru rv,
    fs uwnd_file = Some du /\ fs vwnd_file = Some dv
    /\ fs hgt_file = Some dh
    /\ hgt_selected libc du dv dh level date ru rv a
    /\ ax = List.length (figures s)
    /\ let cs := plot_calls ax (nc_lon du) (nc_lat du) a
                   (divide ru 0.514) (divide rv 0.514)
                   (arange_int 5910 6000 5) cmap barb_color extent
                   (hgt_label level) in
       outcome check cs = Ok tt /\ s' = plotted check cs (closed3 s).
Proof.
  intros Hrun.
  destruct (files_present fs uwnd_file vwnd_file hgt_file)
    as [(du & dv & dh & Hu & Hv & Hh)|Hnone].
  2:{ destruct (weather_plot_hgt_missing fs uwnd_file vwnd_file hgt_file
                  level date cmap barb_color extent s Hnone) as [k Hk].
      rewrite Hk in Hrun. discriminate. }
  erewrite weather_plot_hgt_run in Hrun by eassumption.
  destruct (hgt_fields libc du dv dh level date)
    as [[[[[lon lat] z] u] v]|e] eqn:Ef; [|discriminate].
  apply hgt_fields_Ok in Ef.
  destruct Ef as (ru & rv & Hsel & -> & -> & -> & ->).
  cbv zeta in Hrun.
  destruct (outcome check _) as [[]|e] eqn:Eo; [|discriminate].
  inversion Hrun; subst.
  exists du, dv, dh, ru, rv. repeat split; try assumption.
Qed.

Lemma weather_plot_dew_returns fs uwnd_file vwnd_file dew_file date
    cmap barb_color extent (s s' : @state A) a ax :
  weather_plot_dew check libc fs uwnd_file vwnd_file dew_file date
    cmap barb_color extent s = (Ok (a, ax), s') ->
  exists du dv dd ru rv,
    fs uwnd_file = Some du /\ fs vwnd_file = Some dv
    /\ fs dew_file = Some dd
    /\ dew_selected libc du dv dd date ru rv a
    /\ ax = List.length (figures s)
    /\ let cs := plot_calls ax (nc_lon du) (nc_lat du) (minus a 273.15)
                   (divide ru 0.514) (divide rv 0.514)
                   (arange_float 18.5 24.0 0.3) cmap barb_color extent
                   dew_label in
       outcome check cs = Ok tt /\ s' = plotted check cs (closed3 s).
Proof.
  intros Hrun.
  destruct (files_present fs uwnd_file vwnd_file dew_file)
    as [(du & dv & dd & Hu & Hv & Hd)|Hnone].
  2:{ destruct (weather_plot_dew_missing fs uwnd_file vwnd_file dew_file
                  date cmap barb_color extent s Hnone) as [k Hk].
      rewrite Hk in Hrun. discriminate. }
  erewrite weather_plot_dew_run in Hrun by eassumption.
  destruct (dew_fields libc du dv dd date)
    as [[[[[lon lat] z] u] v]|e] eqn:Ef; [|discriminate].
  apply dew_fields_Ok in Ef.
  destruct Ef as (ru & rv & Hsel & -> & -> & -> & ->).
  cbv zeta in Hrun.
  destruct (outcome check _) as [[]|e] eqn:Eo; [|discriminate].
  inversion Hrun; subst.
  exists du, dv, dd, ru, rv. repeat split; try assumption.
Qed.

(** Any run of a renderer, returning or not: a plotting call it made is
    one of the renderer's calls on the slices read at the selected time
    (and level), on the figure the run made. *)
Lemma weather_plot_hgt_draws fs uwnd_file vwnd_file hgt_file level date
    cmap barb_color extent (s s' : @state A) r fig c :
  weather_plot_hgt check libc fs uwnd_file vwnd_file hgt_file level date
    cmap barb_color extent s = (r, s') ->
  In (Draw fig c) (new_events s s') ->
  exists du dv dh ru rv rz,
    fs uwnd_file = Some du /\ fs vwnd_file = Some dv
    /\ fs hgt_file = Some dh
    /\ hgt_selected libc du dv dh level date ru rv rz
    /\ fig = List.length (figures s)
    /\ In c (plot_calls fig (nc_lon du) (nc_lat du) rz
               (divide ru 0.514) (divide rv 0.514)
               (arange_int 5910 6000 5) cmap barb_color extent
               (hgt_label level)).
Proof.
  intros Hrun Hin.
  destruct (files_present fs uwnd_file vwnd_file hgt_file)
    as [(du & dv & dh & Hu & Hv & Hh)|Hnone].
  2:{ destruct (weather_plot_hgt_missing fs uwnd_file vwnd_file hgt_file
                  level date cmap barb_color extent s Hnone) as [k Hk].
      rewrite Hk in Hrun. inversion Hrun; subst.
      now apply no_draw_opened in Hin. }
  erewrite weather_plot_hgt_run in Hrun by eassumption.
  destruct (hgt_fields libc du dv dh level date)
    as [[[[[lon lat] z] u] v]|e] eqn:Ef.
  2:{ inversion Hrun; subst. now apply no_draw_opened in Hin. }
  apply hgt_fields_Ok in Ef.
  destruct Ef as (ru & rv & Hsel & -> & -> & -> & ->).
  cbv zeta in Hrun. inversion Hrun; subst.
  apply draw_plotted in Hin. destruct Hin as [-> Hin].
  exists du, dv, dh, ru, rv, z. repeat split; assumption.
Qed.

Lemma weather_plot_dew_draws fs uwnd_file vwnd_file dew_file date
    cmap barb_color extent (s s' : @state A) r fig c :
  weather_plot_dew check libc fs uwnd_file vwnd_file dew_file date
    cmap barb_color extent s = (r, s') ->
  In (Draw fig c) (new_events s s') ->
  exists du dv dd ru rv rz,
    fs uwnd_file = Some du /\ fs vwnd_file = Some dv
    /\ fs dew_file = Some dd
    /\ dew_selected libc du dv dd date ru rv rz
    /\ fig = List.length (figures s)
    /\ In c (plot_calls fig (nc_lon du) (nc_lat du) (minus rz 273.15)
               (divide ru 0.514) (divide rv 0.514)
               (arange_float 18.5 24.0 0.3) cmap barb_color extent
               dew_label).
Proof.
  intros Hrun Hin.
  destruct (files_present fs uwnd_file vwnd_file dew_file)
    as [(du & dv & dd & Hu & Hv & Hd)|Hnone].
  2:{ destruct (weather_plot_dew_missing fs uwnd_file vwnd_file dew_file
                  date cmap barb_color extent s Hnone) as [k Hk].
      rewrite Hk in Hrun. inversion Hrun; subst.
      now apply no_draw_opened in Hin. }
  erewrite weather_plot_dew_run in Hrun by eassumption.
  destruct (dew_fields libc du dv dd date)
    as [[[[[lon lat] z] u] v]|e] eqn:Ef.
  2:{ inversion Hrun; subst. now apply no_draw_opened in Hin. }
  apply dew_fields_Ok in Ef.
  destruct Ef as (ru & rv & Hsel & -> & -> & -> & ->).
  cbv zeta in Hrun. inversion Hrun; subst.
  apply draw_plotted in Hin. destruct Hin as [-> Hin].
  exists du, dv, dd, ru, rv, z. repeat split; assumption.
Qed.

(** The calls of a returning run are in the trace, on its figure. *)
Lemma returned_draws cs (s : @state A) c :
  outcome check cs = Ok tt -> In c cs ->
  In (Draw (List.length (figures s)) c)
     (new_events s (plotted check cs (closed3 s))).
Proof.
  intros Hok Hin. rewrite new_events_plotted. cbv zeta.
  apply in_or_app. right. right.
  destruct (outcome_Ok _ Hok) as [_ ->]. now apply in_map.
Qed.

Lemma where_first_Raise {X : Type} (eqv : X -> bool) (a : list X) e :
  where_first eqv a = Raise e -> e = IndexError.
Proof.
  induction a as [|x a IH]; cbn [where_first]; intros He.
  - now inversion He.
  - destruct (eqv x); [discriminate|].
    destruct (where_first eqv a) as [i|e']; [discriminate|].
    inversion He; subst. now apply IH.
Qed.

Lemma where_first_In {X : Type} (eqv : X -> bool) (a : list X) i :
  where_first eqv a = Ok i -> exists x, In x a /\ eqv x = true.
Proof.
  intros Hi. destruct (where_first_Ok _ _ Hi) as (x & Hx & Ex & _).
  exists x. split; [now apply nth_error_In in Hx | exact Ex].
Qed.

(** *** The lookup of the date *)

(** On a time axis whose entries end in no NUL the lookup finds the first
    entry that is the text of the date. *)
Lemma where_first_date (time : list string) date t :
  Forall (fun x => rstrip_nul x = x) time ->
  where_first (fun x => np_equal x date) time = Ok t ->
  nth_error time t = Some (rstrip_nul date)
  /\ forall j, (j < t)%nat -> nth_error time j <> Some (rstrip_nul date).
Proof.
  intros Htime Hw. rewrite Forall_forall in Htime.
  destruct (where_first_Ok _ _ Hw) as (x & Hx & Ex & Hfirst).
  apply (numpy_facts.np_equal_unpadded _ (Htime _ (nth_error_In _ _ Hx)))
    in Ex.
  subst x. split; [exact Hx|].
  intros j Hj Hnth. specialize (Hfirst j _ Hj Hnth). cbv beta in Hfirst.
  rewrite numpy_facts.np_equal_rstrip, numpy_facts.rstrip_nul_idem in Hfirst.
  now rewrite String.eqb_refl in Hfirst.
Qed.

Lemma where_first_no_date (time : list string) date :
  Forall (fun x => rstrip_nul x = x) time ->
  ~ In (rstrip_nul date) time ->
  where_first (fun x => np_equal x date) time = Raise IndexError.
Proof.
  intros Htime Habsent.
  destruct (where_first (fun x => np_equal x date) time) as [t|e] eqn:Ew.
  - exfalso. apply Habsent.
    destruct (where_first_date _ Htime Ew) as [Hx _].
    now apply nth_error_In in Hx.
  - now rewrite (where_first_Raise _ _ Ew).
Qed.

(** *** A lookup that fails *)

Lemma hgt_fields_lookup_fails (du dv dh : netcdf A (list (list (grid A))))
    level date time :
  time_convert libc du = Ok time ->
  ~ In (rstrip_nul date) time \/ ~ In level (nc_level du) ->
  hgt_fields libc du dv dh level date = Raise IndexError.
Proof.
  intros Ht Habsent. unfold hgt_fields. rewrite Ht.
  cbn [bind result_Monad].
  pose proof (numpy_facts.time_convert_unpadded _ _ Ht) as Htime.
  destruct (where_first _ time) as [t|e] eqn:Ew.
  - destruct (where_first (Z.eqb level) (nc_level du)) as [l|e] eqn:El.
    + exfalso.
      destruct (where_first_date _ Htime Ew) as [Hx _].
      apply nth_error_In in Hx.
      apply where_first_In in El. destruct El as (y & Hy & Ey).
      apply Z.eqb_eq in Ey. subst y.
      tauto.
    + now rewrite (where_first_Raise _ _ El).
  - now rewrite (where_first_Raise _ _ Ew).
Qed.

Lemma dew_fields_lookup_fails (du dv dd : netcdf A (list (grid A)))
    date time :
  time_convert libc du = Ok time ->
  ~ In (rstrip_nul date) time ->
  dew_fields libc du dv dd date = Raise IndexError.
Proof.
  intros Ht Habsent. unfold dew_fields. rewrite Ht.
  cbn [bind result_Monad].
  pose proof (numpy_facts.time_convert_unpadded _ _ Ht) as Htime.
  now rewrite (where_first_no_date _ Htime Habsent).
Qed.

(** *** A slice that cannot be read *)







(** *** The barbs are reached *)

(** Once the extent and the contours are accepted, the barbs are the next
    call made. *)
Lemma barbs_attempted ax (lon lat z u v : grid A) levels cmap barb_color
    extent label :
  (forall e, extent = Some e -> check (set_extent e) = None) ->
  check (contourf {| cs_x := lon; cs_y := lat; cs_z := z;
                     cs_levels := levels; cs_cmap := cmap |}) = None ->
  In (barbs (stride2 lon) (stride2 lat) (stride2 u) (stride2 v)
        barb_color 2.0)
     (attempted check
        (plot_calls ax lon lat z u v levels cmap barb_color extent label)).
Proof.
  intros Hextent Hcontourf. unfold plot_calls, extent_calls.
  destruct extent as [e|]; cbn [app attempted].
  - rewrite (Hextent e eq_refl), Hcontourf. right. right. now left.
  - rewrite Hcontourf. right. now left.
Qed.

Lemma attempted_drawn cs (s : @state A) c :
  In c (attempted check cs) ->
  In (Draw (List.length (figures s)) c)
     (new_events s (plotted check cs (closed3 s))).
Proof.
  intros Hin. rewrite new_events_plotted. cbv zeta.
  apply in_or_app. right. right. now apply in_map.
Qed.

Lemma opened_not_plotting k (s : @state A) :
  Forall (fun ev => is_plotting ev = false) (new_events s (opened k s)).
Proof.
  rewrite new_events_opened. apply Forall_forall. intros ev Hev.
  apply in_map_iff in Hev. destruct Hev as (h & <- & _). reflexivity.
Qed.

(** *** The arrays depend on the data variables of the v-wind and scalar
    files only *)

Lemma hgt_fields_same_data (du dv1 dv2 dh1 dh2 :
                              netcdf A (list (list (grid A)))) level date :
  nc_variables dv1 = nc_variables dv2 ->
  nc_variables dh1 = nc_variables dh2 ->
  hgt_fields libc du dv1 dh1 level date
  = hgt_fields libc du dv2 dh2 level date.
Proof.
  intros Hv Hh. unfold hgt_fields, item4. now rewrite Hv, Hh.
Qed.

Lemma dew_fields_same_data (du dv1 dv2 dd1 dd2 : netcdf A (list (grid A)))
    date :
  nc_variables dv1 = nc_variables dv2 ->
  nc_variables dd1 = nc_variables dd2 ->
  dew_fields libc du dv1 dd1 date = dew_fields libc du dv2 dd2 date.
Proof.
  intros Hv Hd. unfold dew_fields, item3. now rewrite Hv, Hd.
Qed.

(** *** A second figure *)

Lemma outcome_plot_calls_ax ax ax' (lon lat z u v : grid A) levels cmap
    barb_color extent label :
  colorbar_any_axis check ->
  outcome check
    (plot_calls ax lon lat z u v levels cmap barb_color extent label)
  = outcome check
      (plot_calls ax' lon lat z u v levels cmap barb_color extent label).
Proof.
  intros Hax. unfold plot_calls. rewrite !outcome_app.
  destruct (outcome check (extent_calls extent)); [|reflexivity].
  destruct (outcome check [_; _]); [|reflexivity].
  destruct (outcome check layers); [|reflexivity].
  cbn [outcome]. now rewrite (Hax _ _ ax ax').
Qed.

Lemma shape_minus (a : grid A) c : shape (minus a c) = shape a.
Proof.
  unfold shape, minus. rewrite length_map.
  destruct a as [|row a]; cbn [map hd]; [reflexivity|].
  now rewrite length_map.
Qed.

Lemma accepted_checked (cs : list (@call A)) c :
  In c (accepted check cs) -> check c = None.
Proof.
  induction cs as [|c' cs IH]; cbn [accepted]; [intros Hin; destruct Hin|].
  destruct (check c') eqn:Ec; [intros Hin; destruct Hin|].
  intros [<-|Hin]; [exact Ec | now apply IH].
Qed.


(** *** Every other row and column *)

Lemma nth_error_every_other {X : Type} (a : list X) i :
  nth_error (every_other a) i = nth_error a (2 * i).
Proof.
  revert a. induction i as [|i IH]; intros [|x [|y a]]; try reflexivity.
  - destruct i; reflexivity.
  - replace (2 * S i)%nat with (S (S (2 * i))) by lia.
    cbn [every_other nth_error]. apply IH.
Qed.

Lemma nth_error_stride2 (a : grid A) i :
  nth_error (stride2 a) i
  = option_map (@every_other A) (nth_error a (2 * i)).
Proof.
  unfold stride2. rewrite nth_error_map. now rewrite nth_error_every_other.
Qed.

End RunFacts.

(** ** The timestamp decoder *)

Section Decoder.

Context {A V : Type}.
Variable c : datetime.libc.

Lemma decode_loops (times : list float) (hours : list Z) :
  Forall2 decodable times hours ->
  comprehension (fun i => h <- int i ;; datetime.timedelta_hours h) times
  = Ok (map (fun n => {| datetime.days := n / 24;
                         datetime.seconds := n mod 24 * 3600 |}) hours)
  /\ comprehension (fun x => datetime.add start x)
       (map (fun n => {| datetime.days := n / 24;
                         datetime.seconds := n mod 24 * 3600 |}) hours)
     = Ok (map hours_after_epoch hours).
Proof.
  induction 1 as [|x n times hours [Hx Hn] _ [IH1 IH2]].
  - split; reflexivity.
  - split.
    + cbn [map comprehension].
      rewrite (datetime_facts.decode_hour _ Hx Hn), IH1. reflexivity.
    + cbn [map comprehension]. rewrite datetime_facts.add_start_ok by exact Hn.
      cbn [bind result_Monad]. rewrite IH2. reflexivity.
Qed.

(** The decoder on a time axis within the years 1 to 9999. *)
Lemma time_convert_ok (file : netcdf A V) (hours : list Z) :
  Forall2 decodable (nc_time file) hours ->
  time_convert c file
  = Ok (map (fun n => datetime.strftime c (hours_after_epoch n)) hours).
Proof.
  intros Hd. unfold time_convert.
  destruct (decode_loops Hd) as [H1 H2].
  rewrite H1. cbn [bind result_Monad]. rewrite H2. cbn [bind ret result_Monad].
  now rewrite map_map.
Qed.

Lemma whole_hours_decodable (times : list float) (hours : list Z) :
  Forall2 whole_hours times hours -> Forall2 decodable times hours.
Proof.
  induction 1 as [|x n ? ? [Hx Hn] _ IH]; constructor; [|exact IH].
  split; [exact Hx|]. unfold earliest_hour, first_hour in *. lia.
Qed.

Lemma whole_hours_stamp (times : list float) (hours : list Z) :
  Forall2 whole_hours times hours ->
  map (fun n => datetime.strftime c (hours_after_epoch n)) hours
  = map stamp hours.
Proof.
  induction 1 as [|x n ? ? [Hx Hn] _ IH]; [reflexivity|].
  cbn [map]. rewrite IH. f_equal.
  apply datetime_facts.strftime_four_digits.
  rewrite datetime_facts.year_hours_after_epoch.
  apply datetime_facts.year_from_1000.
  unfold first_hour in Hn. Z.div_mod_to_equations. lia.
Qed.

Lemma whole_hours_nth (times : list float) (hours : list Z) i x :
  Forall2 whole_hours times hours ->
  nth_error times i = Some x ->
  exists n, whole_hours x n /\ nth_error (map stamp hours) i = Some (stamp n).
Proof.
  intros Hf. revert i. induction Hf as [|y n ? ? Hyn _ IH]; intros [|i] Hi;
    try discriminate.
  - inversion Hi; subst. exists n. split; [exact Hyn | reflexivity].
  - apply (IH i Hi).
Qed.

(** Python's [int] is odd: it truncates toward zero on both sides. *)
Lemma int_opp (x : float) (n : Z) :
  int x = Ok n -> int (- x)%float = Ok (- n).
Proof.
  unfold int. rewrite opp_spec.
  destruct (Prim2SF x) as [s|s| |s m e]; cbn [SFopp]; try discriminate.
  - intros Hn. inversion Hn. reflexivity.
  - intros Hn. inversion Hn. destruct s; cbn [negb]; f_equal; lia.
Qed.

Lemma before_epoch (n : Z) :
  earliest_hour <= n < 0 ->
  datetime.before (hours_after_epoch n) start = true.
Proof.
  unfold earliest_hour. intros Hn.
  assert (Hy : datetime.year (hours_after_epoch n) <= 1799).
  { rewrite datetime_facts.year_hours_after_epoch.
    apply datetime_facts.year_before_1800.
    Z.div_mod_to_equations. lia. }
  unfold datetime.before, datetime.fields. cbn [datetime.lexlt].
  change (datetime.year start) with 1800.
  apply orb_true_iff. left. apply Z.ltb_lt. lia.
Qed.

End Decoder.

(** ** The claims about the renderers *)

Section Renderers.

Context {A : Type} `{Sample A}.
Variable check : @call A -> option exn.
Variable libc : datetime.libc.

(** C7: the height array the pressure-level renderer returns is the slice
    of the height file's ['hgt'] at the time and level selected from the
    u-wind file, as read: it is the field [contourf] draws, while the winds
    the barbs draw are the slices divided by 0.514. *)
Theorem returned_height_is_raw_slice :
  forall fs uwnd_file vwnd_file hgt_file level date cmap barb_color extent
         (s s' : @state A) hgt ax,
    weather_plot_hgt check libc fs uwnd_file vwnd_file hgt_file level date
      cmap barb_color extent s = (Ok (hgt, ax), s') ->
    exists du dv dh time t l ru rv,
      fs uwnd_file = Some du /\ fs vwnd_file = Some dv
      /\ fs hgt_file = Some dh
      /\ time_convert libc du = Ok time
      /\ where_first (fun x => np_equal x date) time = Ok t
      /\ where_first (Z.eqb level) (nc_level du) = Ok l
      /\ item4 dh "hgt" t l = Ok hgt
      /\ item4 du "uwnd" t l = Ok ru
      /\ item4 dv "vwnd" t l = Ok rv
      /\ In (Draw ax (contourf {| cs_x := nc_lon du; cs_y := nc_lat du;
                                  cs_z := hgt;
                                  cs_levels := arange_int 5910 6000 5;
                                  cs_cmap := cmap |}))
            (new_events s s')
      /\ In (Draw ax (barbs (stride2 (nc_lon du)) (stride2 (nc_lat du))
                        (stride2 (divide ru 0.514))
                        (stride2 (divide rv 0.514)) barb_color 2.0))
            (new_events s s').
Proof.
  intros fs uwnd_file vwnd_file hgt_file level date cmap barb_color extent
    s s' hgt ax Hrun.
  apply weather_plot_hgt_returns in Hrun.
  destruct Hrun as (du & dv & dh & ru & rv & Hu & Hv & Hh & Hsel & -> & Hcs).
  cbv zeta in Hcs. destruct Hcs as [Hok ->].
  destruct Hsel as (time & t & l & Ht & Hw & Hl & Hru & Hrv & Hrz).
  exists du, dv, dh, time, t, l, ru, rv.
  repeat split; try assumption.
  - apply returned_draws; [exact Hok | apply plot_calls_has_contourf].
  - apply returned_draws; [exact Hok | apply plot_calls_has_barbs].
Qed.

(** C1 (amended): the field the surface renderer hands to [contourf] is the
    dewpoint slice less 273.15, so that 273.15 K is drawn as 0.0; the first
    element of the returned tuple is the slice as read, in Kelvin. *)
Theorem returned_dewpoint_is_kelvin :
  forall fs uwnd_file vwnd_file dew_file date cmap barb_color extent
         (s s' : @state A) dew ax,
    weather_plot_dew check libc fs uwnd_file vwnd_file dew_file date
      cmap barb_color extent s = (Ok (dew, ax), s') ->
    (exists du dv dd time t,
       fs uwnd_file = Some du /\ fs vwnd_file = Some dv
       /\ fs dew_file = Some dd
       /\ time_convert libc du = Ok time
       /\ where_first (fun x => np_equal x date) time = Ok t
       /\ item3 dd "dpt" t = Ok dew
       /\ In (Draw ax (contourf {| cs_x := nc_lon du; cs_y := nc_lat du;
                                   cs_z := minus dew 273.15;
                                   cs_levels := arange_float 18.5 24.0 0.3;
                                   cs_cmap := cmap |}))
             (new_events s s'))
    /\ minus [[273.15%float]] 273.15 = [[0%float]].
Proof.
  intros fs uwnd_file vwnd_file dew_file date cmap barb_color extent
    s s' dew ax Hrun.
  split; [|reflexivity].
  apply weather_plot_dew_returns in Hrun.
  destruct Hrun as (du & dv & dd & ru & rv & Hu & Hv & Hd & Hsel & -> & Hcs).
  cbv zeta in Hcs. destruct Hcs as [Hok ->].
  destruct Hsel as (time & t & Ht & Hw & Hru & Hrv & Hrz).
  exists du, dv, dd, time, t.
  repeat split; try assumption.
  apply returned_draws; [exact Hok | apply plot_calls_has_contourf].
Qed.

(** C5: in both renderers every u-wind and v-wind array handed to [barbs]
    is every other row and column of the slice read from the file, each
    sample divided by 0.514: its sample (i, j) is the sample (2i, 2j) of the
    file's slice over 0.514; a renderer that returns has made that call,
    and so has every renderer that read its slices and whose extent and
    contours the plotting library accepted; a sample of 0.514 m/s becomes
    1.0 knot. *)
Theorem barbs_in_knots :
  (forall fs uwnd_file vwnd_file hgt_file level date cmap barb_color extent
          (s s' : @state A) r,
     weather_plot_hgt check libc fs uwnd_file vwnd_file hgt_file level date
       cmap barb_color extent s = (r, s') ->
     (forall fig x y u v color width,
        In (Draw fig (barbs x y u v color width)) (new_events s s') ->
        exists du dv dh ru rv rz,
          fs uwnd_file = Some du /\ fs vwnd_file = Some dv
          /\ fs hgt_file = Some dh
          /\ hgt_selected libc du dv dh level date ru rv rz
          /\ u = stride2 (divide ru 0.514) /\ v = stride2 (divide rv 0.514))
     /\ (forall a ax, r = Ok (a, ax) ->
         exists x y u v color width,
           In (Draw ax (barbs x y u v color width)) (new_events s s')))
  /\ (forall fs uwnd_file vwnd_file dew_file date cmap barb_color extent
             (s s' : @state A) r,
        weather_plot_dew check libc fs uwnd_file vwnd_file dew_file date
          cmap barb_color extent s = (r, s') ->
        (forall fig x y u v color width,
           In (Draw fig (barbs x y u v color width)) (new_events s s') ->
           exists du dv dd ru rv rz,
             fs uwnd_file = Some du /\ fs vwnd_file = Some dv
             /\ fs dew_file = Some dd
             /\ dew_selected libc du dv dd date ru rv rz
             /\ u = stride2 (divide ru 0.514)
             /\ v = stride2 (divide rv 0.514))
        /\ (forall a ax, r = Ok (a, ax) ->
            exists x y u v color width,
              In (Draw ax (barbs x y u v color width)) (new_events s s')))
  /\ (forall fs uwnd_file vwnd_file hgt_file level date cmap barb_color
             extent (s : @state A) du dv dh ru rv rz,
        fs uwnd_file = Some du -> fs vwnd_file = Some dv ->
        fs hgt_file = Some dh ->
        hgt_selected libc du dv dh level date ru rv rz ->
        (forall e, extent = Some e -> check (set_extent e) = None) ->
        check (contourf {| cs_x := nc_lon du; cs_y := nc_lat du; cs_z := rz;
                           cs_levels := arange_int 5910 6000 5;
                           cs_cmap := cmap |}) = None ->
        In (Draw (List.length (figures s))
              (barbs (stride2 (nc_lon du)) (stride2 (nc_lat du))
                 (stride2 (divide ru 0.514)) (stride2 (divide rv 0.514))
                 barb_color 2.0))
           (new_events s
              (snd (weather_plot_hgt check libc fs uwnd_file vwnd_file
                      hgt_file level date cmap barb_color extent s))))
  /\ (forall fs uwnd_file vwnd_file dew_file date cmap barb_color extent
             (s : @state A) du dv dd ru rv rz,
        fs uwnd_file = Some du -> fs vwnd_file = Some dv ->
        fs dew_file = Some dd ->
        dew_selected libc du dv dd date ru rv rz ->
        (forall e, extent = Some e -> check (set_extent e) = None) ->
        check (contourf {| cs_x := nc_lon du; cs_y := nc_lat du;
                           cs_z := minus rz 273.15;
                           cs_levels := arange_float 18.5 24.0 0.3;
                           cs_cmap := cmap |}) = None ->
        In (Draw (List.length (figures s))
              (barbs (stride2 (nc_lon du)) (stride2 (nc_lat du))
                 (stride2 (divide ru 0.514)) (stride2 (divide rv 0.514))
                 barb_color 2.0))
           (new_events s
              (snd (weather_plot_dew check libc fs uwnd_file vwnd_file
                      dew_file date cmap barb_color extent s))))
  /\ (forall (a : grid A) i j row m,
        nth_error a (2 * i) = Some row -> nth_error row (2 * j) = Some m ->
        exists row', nth_error (stride2 (divide a 0.514)) i = Some row'
                     /\ nth_error row' j = Some (true_divide m 0.514))
  /\ divide [[0.514%float]] 0.514 = [[1%float]].
Proof.
  split; [|split; [|split; [|split; [|split]]]].
  - intros fs uwnd_file vwnd_file hgt_file level date cmap barb_color extent
      s s' r Hrun. split.
    + intros fig x y u v color width Hin.
      eapply weather_plot_hgt_draws in Hin; [|exact Hrun].
      destruct Hin
        as (du & dv & dh & ru & rv & rz & Hu & Hv & Hh & Hsel & -> & Hc).
      apply barbs_in_plot_calls in Hc. destruct Hc as (_ & _ & -> & ->).
      exists du, dv, dh, ru, rv, rz. repeat split; assumption.
    + intros a ax ->. apply weather_plot_hgt_returns in Hrun.
      destruct Hrun
        as (du & dv & dh & ru & rv & Hu & Hv & Hh & Hsel & -> & Hcs).
      cbv zeta in Hcs. destruct Hcs as [Hok ->].
      do 6 eexists.
      apply returned_draws; [exact Hok | apply plot_calls_has_barbs].
  - intros fs uwnd_file vwnd_file dew_file date cmap barb_color extent
      s s' r Hrun. split.
    + intros fig x y u v color width Hin.
      eapply weather_plot_dew_draws in Hin; [|exact Hrun].
      destruct Hin
        as (du & dv & dd & ru & rv & rz & Hu & Hv & Hd & Hsel & -> & Hc).
      apply barbs_in_plot_calls in Hc. destruct Hc as (_ & _ & -> & ->).
      exists du, dv, dd, ru, rv, rz. repeat split; assumption.
    + intros a ax ->. apply weather_plot_dew_returns in Hrun.
      destruct Hrun
        as (du & dv & dd & ru & rv & Hu & Hv & Hd & Hsel & -> & Hcs).
      cbv zeta in Hcs. destruct Hcs as [Hok ->].
      do 6 eexists.
      apply returned_draws; [exact Hok | apply plot_calls_has_barbs].
  - intros fs uwnd_file vwnd_file hgt_file level date cmap barb_color extent
      s du dv dh ru rv rz Hu Hv Hh Hsel Hextent Hcontourf.
    erewrite weather_plot_hgt_run by eassumption.
    assert (Hf : hgt_fields libc du dv dh level date
                 = Ok (nc_lon du, nc_lat du, rz,
                       divide ru 0.514, divide rv 0.514)).
    { apply hgt_fields_Ok. exists ru, rv. now repeat split. }
    rewrite Hf. cbv zeta. cbn [snd].
    apply attempted_drawn. now apply barbs_attempted.
  - intros fs uwnd_file vwnd_file dew_file date cmap barb_color extent
      s du dv dd ru rv rz Hu Hv Hd Hsel Hextent Hcontourf.
    erewrite weather_plot_dew_run by eassumption.
    assert (Hf : dew_fields libc du dv dd date
                 = Ok (nc_lon du, nc_lat du, rz,
                       divide ru 0.514, divide rv 0.514)).
    { apply dew_fields_Ok. exists ru, rv. now repeat split. }
    rewrite Hf. cbv zeta. cbn [snd].
    apply attempted_drawn. now apply barbs_attempted.
  - intros a i j row m Hi Hm.
    exists (every_other (map (fun x => true_divide x 0.514) row)). split.
    + rewrite nth_error_stride2. unfold divide.
      now rewrite nth_error_map, Hi.
    + now rewrite nth_error_every_other, nth_error_map, Hm.
  - reflexivity.
Qed.

(** C6 (amended): a returning renderer returns the slice of the scalar
    file at the selected time (and level), so the field has the shape of
    that slice; where the plotting library accepts [contourf] only on
    arrays of one shape, that is the shape of the two-dimensional ['lat']
    and ['lon'] arrays of the u-wind file, rows by columns. *)
Theorem returned_field_shape :
  (forall fs uwnd_file vwnd_file hgt_file level date cmap barb_color extent
          (s s' : @state A) hgt ax,
     weather_plot_hgt check libc fs uwnd_file vwnd_file hgt_file level date
       cmap barb_color extent s = (Ok (hgt, ax), s') ->
     exists du dv dh ru rv,
       fs uwnd_file = Some du /\ fs vwnd_file = Some dv
       /\ fs hgt_file = Some dh
       /\ hgt_selected libc du dv dh level date ru rv hgt
       /\ (contourf_checks_shapes check ->
           shape hgt = shape (nc_lat du) /\ shape hgt = shape (nc_lon du)))
  /\ (forall fs uwnd_file vwnd_file dew_file date cmap barb_color extent
             (s s' : @state A) dew ax,
        weather_plot_dew check libc fs uwnd_file vwnd_file dew_file date
          cmap barb_color extent s = (Ok (dew, ax), s') ->
        exists du dv dd ru rv,
          fs uwnd_file = Some du /\ fs vwnd_file = Some dv
          /\ fs dew_file = Some dd
          /\ dew_selected libc du dv dd date ru rv dew
          /\ (contourf_checks_shapes check ->
              shape dew = shape (nc_lat du)
              /\ shape dew = shape (nc_lon du))).
Proof.
  split.
  - intros fs uwnd_file vwnd_file hgt_file level date cmap barb_color extent
      s s' hgt ax Hrun.
    apply weather_plot_hgt_returns in Hrun.
    destruct Hrun as (du & dv & dh & ru & rv & Hu & Hv & Hh & Hsel & -> & Hcs).
    cbv zeta in Hcs. destruct Hcs as [Hok ->].
    exists du, dv, dh, ru, rv.
    split; [exact Hu|]. split; [exact Hv|]. split; [exact Hh|].
    split; [exact Hsel|]. intros Hshapes.
    destruct (outcome_Ok _ _ Hok) as [Hacc _].
    pose proof (plot_calls_has_contourf (List.length (figures s))
                  (nc_lon du) (nc_lat du) hgt (divide ru 0.514)
                  (divide rv 0.514) (arange_int 5910 6000 5) cmap
                  barb_color extent (hgt_label level)) as Hin.
    rewrite <- Hacc in Hin. apply accepted_checked in Hin.
    apply Hshapes in Hin. cbn [cs_x cs_y cs_z] in Hin.
    destruct Hin as [Hx Hy]. split; congruence.
  - intros fs uwnd_file vwnd_file dew_file date cmap barb_color extent
      s s' dew ax Hrun.
    apply weather_plot_dew_returns in Hrun.
    destruct Hrun as (du & dv & dd & ru & rv & Hu & Hv & Hd & Hsel & -> & Hcs).
    cbv zeta in Hcs. destruct Hcs as [Hok ->].
    exists du, dv, dd, ru, rv.
    split; [exact Hu|]. split; [exact Hv|]. split; [exact Hd|].
    split; [exact Hsel|]. intros Hshapes.
    destruct (outcome_Ok _ _ Hok) as [Hacc _].
    pose proof (plot_calls_has_contourf (List.length (figures s))
                  (nc_lon du) (nc_lat du) (minus dew 273.15)
                  (divide ru 0.514) (divide rv 0.514)
                  (arange_float 18.5 24.0 0.3) cmap
                  barb_color extent dew_label) as Hin.
    rewrite <- Hacc in Hin. apply accepted_checked in Hin.
    apply Hshapes in Hin. cbn [cs_x cs_y cs_z] in Hin.
    rewrite shape_minus in Hin.
    destruct Hin as [Hx Hy]. split; congruence.
Qed.

(** C2 (amended): a renderer called with a date whose text, the NULs at
    its end dropped, is no entry of the time axis decoded from the u-wind
    file (or, for the pressure-level renderer, a level that is no entry of
    its level axis) raises [IndexError] to its caller; no figure was made,
    pyplot's current figure is the one it was, and no plotting call was
    made: the run only opened the files. *)
Theorem failed_lookup_raises_before_plotting :
  (forall fs uwnd_file vwnd_file hgt_file level date cmap barb_color extent
          (s : @state A) du dv dh time,
     fs uwnd_file = Some du -> fs vwnd_file = Some dv ->
     fs hgt_file = Some dh ->
     time_convert libc du = Ok time ->
     ~ In (rstrip_nul date) time \/ ~ In level (nc_level du) ->
     exists s',
       weather_plot_hgt check libc fs uwnd_file vwnd_file hgt_file level date
         cmap barb_color extent s = (Raise IndexError, s')
       /\ figures s' = figures s /\ current s' = current s
       /\ Forall (fun ev => is_plotting ev = false) (new_events s s'))
  /\ (forall fs uwnd_file vwnd_file dew_file date cmap barb_color extent
             (s : @state A) du dv dd time,
        fs uwnd_file = Some du -> fs vwnd_file = Some dv ->
        fs dew_file = Some dd ->
        time_convert libc du = Ok time ->
        ~ In (rstrip_nul date) time ->
        exists s',
          weather_plot_dew check libc fs uwnd_file vwnd_file dew_file date
            cmap barb_color extent s = (Raise IndexError, s')
          /\ figures s' = figures s /\ current s' = current s
          /\ Forall (fun ev => is_plotting ev = false) (new_events s s')).
Proof.
  split.
  - intros fs uwnd_file vwnd_file hgt_file level date cmap barb_color extent
      s du dv dh time Hu Hv Hh Ht Habsent.
    exists (opened 3 s). split; [|repeat split].
    + erewrite weather_plot_hgt_run by eassumption.
      now erewrite hgt_fields_lookup_fails by eassumption.
    + apply opened_not_plotting.
  - intros fs uwnd_file vwnd_file dew_file date cmap barb_color extent
      s du dv dd time Hu Hv Hd Ht Habsent.
    exists (opened 3 s). split; [|repeat split].
    + erewrite weather_plot_dew_run by eassumption.
      now erewrite dew_fields_lookup_fails by eassumption.
    + apply opened_not_plotting.
Qed.


(** C8: the time axis, the level axis and the latitude and longitude
    arrays are read from the u-wind file alone: two file systems that hold
    the same u-wind file, and v-wind and scalar files with the same data
    variables, give a renderer the same outcome in every world (the same
    value or exception, the same plotting calls), and the same slices. *)
Theorem coordinates_from_uwnd_file_only :
  (forall fs1 fs2 uwnd_file vwnd_file hgt_file level date cmap barb_color
          extent (s : @state A),
     fs1 uwnd_file = fs2 uwnd_file ->
     same_data fs1 fs2 vwnd_file ->
     same_data fs1 fs2 hgt_file ->
     weather_plot_hgt check libc fs1 uwnd_file vwnd_file hgt_file level date
       cmap barb_color extent s
     = weather_plot_hgt check libc fs2 uwnd_file vwnd_file hgt_file level
         date cmap barb_color extent s)
  /\ (forall fs1 fs2 uwnd_file vwnd_file dew_file date cmap barb_color
             extent (s : @state A),
        fs1 uwnd_file = fs2 uwnd_file ->
        same_data fs1 fs2 vwnd_file ->
        same_data fs1 fs2 dew_file ->
        weather_plot_dew check libc fs1 uwnd_file vwnd_file dew_file date
          cmap barb_color extent s
        = weather_plot_dew check libc fs2 uwnd_file vwnd_file dew_file date
            cmap barb_color extent s)
  /\ (forall (du dv1 dv2 dh1 dh2 : netcdf A (list (list (grid A))))
             level date ru rv rz,
        nc_variables dv1 = nc_variables dv2 ->
        nc_variables dh1 = nc_variables dh2 ->
        hgt_selected libc du dv1 dh1 level date ru rv rz ->
        hgt_selected libc du dv2 dh2 level date ru rv rz).
Proof.
  split; [|split].
  - intros fs1 fs2 uwnd_file vwnd_file hgt_file level date cmap barb_color
      extent s Hu Hv Hh. unfold same_data in Hv, Hh.
    destruct (fs1 uwnd_file) as [du|] eqn:Eu1;
      destruct (fs1 vwnd_file) as [dv1|] eqn:Ev1;
      destruct (fs2 vwnd_file) as [dv2|] eqn:Ev2; try contradiction;
      destruct (fs1 hgt_file) as [dh1|] eqn:Eh1;
      destruct (fs2 hgt_file) as [dh2|] eqn:Eh2; try contradiction.
    1:{ symmetry in Hu.
        erewrite !weather_plot_hgt_run by eassumption.
        now rewrite (hgt_fields_same_data libc du dv1 dv2 dh1 dh2 level date
                       Hv Hh). }
    all: unfold weather_plot_hgt, Dataset;
      cbn [bind M_Monad result_Monad handles figures current log contents
           hid];
      rewrite <- ?Hu, ?Eu1;
      cbn [bind M_Monad result_Monad handles figures current log contents
           hid];
      rewrite ?Ev1, ?Ev2;
      cbn [bind M_Monad result_Monad handles figures current log contents
           hid];
      rewrite ?Eh1, ?Eh2; reflexivity.
  - intros fs1 fs2 uwnd_file vwnd_file dew_file date cmap barb_color
      extent s Hu Hv Hd. unfold same_data in Hv, Hd.
    destruct (fs1 uwnd_file) as [du|] eqn:Eu1;
      destruct (fs1 vwnd_file) as [dv1|] eqn:Ev1;
      destruct (fs2 vwnd_file) as [dv2|] eqn:Ev2; try contradiction;
      destruct (fs1 dew_file) as [dd1|] eqn:Ed1;
      destruct (fs2 dew_file) as [dd2|] eqn:Ed2; try contradiction.
    1:{ symmetry in Hu.
        erewrite !weather_plot_dew_run by eassumption.
        now rewrite (dew_fields_same_data libc du dv1 dv2 dd1 dd2 date
                       Hv Hd). }
    all: unfold weather_plot_dew, Dataset;
      cbn [bind M_Monad result_Monad handles figures current log contents
           hid];
      rewrite <- ?Hu, ?Eu1;
      cbn [bind M_Monad result_Monad handles figures current log contents
           hid];
      rewrite ?Ev1, ?Ev2;
      cbn [bind M_Monad result_Monad handles figures current log contents
           hid];
      rewrite ?Ed1, ?Ed2; reflexivity.
  - intros du dv1 dv2 dh1 dh2 level date ru rv rz Hv Hh
      (time & t & l & Ht & Hw & Hl & Hru & Hrv & Hrz).
    exists time, t, l. unfold item4 in *. rewrite <- Hv, <- Hh.
    repeat split; assumption.
Qed.

(** C9: after a call of the pressure-level renderer that returned, a
    second call with the same arguments leaves the figure of the first call
    as it was, whatever the second call does; when it returns, it returns
    the same field, on a new axis whose figure did not exist before; and it
    does return when the plotting library does not tell one axis from
    another. *)
Theorem second_call_is_independent :
  forall fs uwnd_file vwnd_file hgt_file level date cmap barb_color extent
         (s s1 s2 : @state A) hgt ax1 r2,
    weather_plot_hgt check libc fs uwnd_file vwnd_file hgt_file level date
      cmap barb_color extent s = (Ok (hgt, ax1), s1) ->
    weather_plot_hgt check libc fs uwnd_file vwnd_file hgt_file level date
      cmap barb_color extent s1 = (r2, s2) ->
    (exists drawn1,
       nth_error (figures s1) ax1 = Some drawn1
       /\ nth_error (figures s2) ax1 = Some drawn1)
    /\ (forall hgt2 ax2,
          r2 = Ok (hgt2, ax2) ->
          hgt2 = hgt /\ ax2 <> ax1
          /\ nth_error (figures s1) ax2 = None
          /\ (exists drawn2, nth_error (figures s2) ax2 = Some drawn2)
          /\ current s2 = Some ax2)
    /\ (colorbar_any_axis check -> exists ax2, r2 = Ok (hgt, ax2)).
Proof.
  intros fs uwnd_file vwnd_file hgt_file level date cmap barb_color
    extent s s1 s2 hgt ax1 r2 Hrun Hrun2.
  apply weather_plot_hgt_returns in Hrun.
  destruct Hrun as (du & dv & dh & ru & rv & Hu & Hv & Hh & Hsel & -> & Hcs).
  cbv zeta in Hcs. destruct Hcs as [Hok ->].
  set (cs1 := plot_calls (List.length (figures s)) (nc_lon du) (nc_lat du)
                hgt (divide ru 0.514) (divide rv 0.514)
                (arange_int 5910 6000 5) cmap barb_color extent
                (hgt_label level)) in *.
  set (s1 := plotted check cs1 (closed3 s)) in *.
  set (cs2 := plot_calls (List.length (figures s1)) (nc_lon du) (nc_lat du)
                hgt (divide ru 0.514) (divide rv 0.514)
                (arange_int 5910 6000 5) cmap barb_color extent
                (hgt_label level)).
  assert (Hf : hgt_fields libc du dv dh level date
               = Ok (nc_lon du, nc_lat du, hgt,
                     divide ru 0.514, divide rv 0.514)).
  { apply hgt_fields_Ok. exists ru, rv. now repeat split. }
  assert (Hfigs1 : figures s1 = figures s ++ [cs1]).
  { unfold s1, plotted. cbn [figures closed3].
    now destruct (outcome_Ok _ _ Hok) as [-> _]. }
  erewrite weather_plot_hgt_run in Hrun2 by eassumption.
  rewrite Hf in Hrun2. cbv zeta in Hrun2. fold cs2 in Hrun2.
  inversion Hrun2 as [[Hr2 Hs2]]. clear Hrun2. subst r2 s2.
  assert (Hlen : List.length (figures s1) = S (List.length (figures s))).
  { rewrite Hfigs1, length_app. cbn [List.length]. lia. }
  split; [|split].
  - exists cs1. split.
    + rewrite Hfigs1. rewrite nth_error_app2 by lia. now rewrite Nat.sub_diag.
    + unfold plotted. cbn [figures closed3].
      rewrite nth_error_app1 by lia.
      rewrite Hfigs1. rewrite nth_error_app2 by lia. now rewrite Nat.sub_diag.
  - intros hgt2 ax2 Hret.
    destruct (outcome check cs2) as [[]|e] eqn:Hok2; [|discriminate].
    change (figures s ++ [accepted check cs1]) with (figures s1) in Hret.
    assert (Hsame : hgt2 = hgt /\ ax2 = List.length (figures s1))
      by (split; congruence).
    destruct Hsame as [-> ->]. clear Hret.
    split; [reflexivity|]. split; [lia|].
    split; [apply nth_error_None; lia|].
    split; [|reflexivity].
    exists cs2. unfold plotted. cbn [figures closed3].
    rewrite nth_error_app2 by lia. rewrite Nat.sub_diag. cbn [nth_error].
    now destruct (outcome_Ok _ _ Hok2) as [-> _].
  - intros Hany. exists (List.length (figures s1)).
    assert (Hok2 : outcome check cs2 = outcome check cs1)
      by (unfold cs1, cs2; apply outcome_plot_calls_ax; exact Hany).
    now rewrite Hok2, Hok.
Qed.

End Renderers.

(** ** The claims about the timestamp decoder *)

(** C4 (amended): for a time axis whose offsets truncate to whole hours
    within the years 1000 to 9999, [time_convert] returns a sequence of the
    same length and order whose i-th element is the text
    [YYYY-MM-DD HH:MM:SS] of the epoch 1800-01-01 00:00:00 plus the
    truncated i-th offset; an empty axis gives an empty sequence, the
    offset 0 gives 1800-01-01 00:00:00 and 8760 gives 1801-01-01 00:00:00. *)
Theorem time_convert_stamps :
  forall (A V : Type) (c : datetime.libc) (file : netcdf A V)
         (hours : list Z),
    Forall2 whole_hours (nc_time file) hours ->
    time_convert c file = Ok (map stamp hours)
    /\ List.length (map stamp hours) = List.length (nc_time file)
    /\ (forall i x,
          nth_error (nc_time file) i = Some x ->
          exists n, whole_hours x n
                    /\ nth_error (map stamp hours) i = Some (stamp n))
    /\ (nc_time file = [] -> time_convert c file = Ok [])
    /\ (nc_time file = [0%float] ->
        time_convert c file = Ok ["1800-01-01 00:00:00"%string])
    /\ (nc_time file = [8760%float] ->
        time_convert c file = Ok ["1801-01-01 00:00:00"%string]).
Proof.
  intros A V c file hours Hhours.
  split; [|split; [|split; [|split; [|split]]]].
  - rewrite (time_convert_ok c file (whole_hours_decodable Hhours)).
    now rewrite (whole_hours_stamp c Hhours).
  - rewrite length_map. symmetry. apply (Forall2_length Hhours).
  - intros i x Hx. exact (whole_hours_nth i Hhours Hx).
  - intros Hnil. unfold time_convert. now rewrite Hnil.
  - intros H0. unfold time_convert. rewrite H0. now destruct c.
  - intros H1. unfold time_convert. rewrite H1. now destruct c.
Qed.

(** C10 (amended): [time_convert] truncates an hour offset toward zero, as
    Python's [int] does, so -1.5 hours counts as -1 hour; an offset that
    truncates to a negative number of hours not before 0001-01-01 00:00:00
    (-15769704) is decoded without an error, to a moment before
    1800-01-01 00:00:00. *)
Theorem negative_offsets_before_epoch :
  forall (A V : Type) (c : datetime.libc) (file : netcdf A V)
         (hours : list Z),
    Forall2 decodable (nc_time file) hours ->
    time_convert c file
    = Ok (map (fun n => datetime.strftime c (hours_after_epoch n)) hours)
    /\ (forall n, In n hours -> n < 0 ->
        datetime.before (hours_after_epoch n) start = true)
    /\ (forall x n, int x = Ok n -> int (- x)%float = Ok (- n))
    /\ int (-1.5)%float = Ok (-1)
    /\ (nc_time file = [(-1.5)%float] ->
        time_convert c file = Ok ["1799-12-31 23:00:00"%string]).
Proof.
  intros A V c file hours Hhours.
  split; [|split; [|split; [|split]]].
  - exact (time_convert_ok c file Hhours).
  - intros n Hin Hneg. apply before_epoch.
    assert (Hall : Forall (fun n => earliest_hour <= n <= last_hour) hours).
    { clear - Hhours. induction Hhours as [|x m ? ? [_ Hm] _ IH];
        constructor; assumption. }
    rewrite Forall_forall in Hall. specialize (Hall n Hin). lia.
  - exact int_opp.
  - reflexivity.
  - intros H1. unfold time_convert. rewrite H1. now destruct c.
Qed.

(** ** The claims on the example files *)

Lemma mpl_contourf_checks_shapes : contourf_checks_shapes mpl_check.
Proof.
  intros cs. cbn [mpl_check].
  destruct (same_shape (cs_x cs) (cs_z cs)) eqn:Ex; [|discriminate].
  destruct (same_shape (cs_y cs) (cs_z cs)) eqn:Ey; [|discriminate].
  intros _. unfold same_shape in Ex, Ey.
  apply andb_true_iff in Ex, Ey. destruct Ex as [Ex1 Ex2], Ey as [Ey1 Ey2].
  apply Nat.eqb_eq in Ex1, Ex2, Ey1, Ey2.
  split; apply injective_projections; assumption.
Qed.

Lemma mpl_colorbar_any_axis : colorbar_any_axis mpl_check.
Proof. intros m shrink a a'. reflexivity. Qed.

Lemma hgt_july19_returns :
  hgt_july19 = (Ok (field 5910, 0%nat), snd hgt_july19).
Proof. vm_compute. reflexivity. Qed.

Lemma dew_july19_returns :
  dew_july19 = (Ok (field 273.15, 0%nat), snd dew_july19).
Proof. vm_compute. reflexivity. Qed.

Lemma pressure_time :
  time_convert datetime.Glibc (pressure_file "uwnd" 0.514)
  = Ok [july19; july19_21h].
Proof. vm_compute. reflexivity. Qed.

Lemma surface_time :
  time_convert datetime.Glibc (surface_file "uwnd" 0.514)
  = Ok [july19; july19_21h].
Proof. vm_compute. reflexivity. Qed.

Lemma pressure_selected :
  hgt_selected datetime.Glibc (pressure_file "uwnd" 0.514)
    (pressure_file "vwnd" 2) (pressure_file "hgt" 5900) 500 july19
    (field 10.514) (field 12) (field 5910).
Proof.
  exists [july19; july19_21h], 0%nat, 1%nat.
  split; [exact pressure_time|]. split; [reflexivity|].
  split; [reflexivity|].
  split; [vm_compute; reflexivity|].
  split; vm_compute; reflexivity.
Qed.

Lemma surface_selected :
  dew_selected datetime.Glibc (surface_file "uwnd" 0.514)
    (surface_file "vwnd" 2) (surface_file "dpt" 273.15) july19
    (field 0.514) (field 2) (field 273.15).
Proof.
  exists [july19; july19_21h], 0%nat.
  split; [exact surface_time|]. split; [reflexivity|].
  split; [vm_compute; reflexivity|].
  split; vm_compute; reflexivity.
Qed.

Lemma july20_absent : ~ In (rstrip_nul july20) [july19; july19_21h].
Proof. intros [Hd|[Hd|[]]]; vm_compute in Hd; discriminate Hd. Qed.

(** On the example files the height returned at 500 hPa is the second
    level of the first analysis time of the height file. *)
Lemma returned_height_is_raw_slice_witness :
  hgt_july19 = (Ok (field 5910, 0%nat), snd hgt_july19)
  /\ exists dh t l,
       pressure_fs "hgt.202007.nc" = Some dh
       /\ item4 dh "hgt" t l = Ok (field 5910).
Proof.
  split; [exact hgt_july19_returns|].
  destruct (returned_height_is_raw_slice _ _ _ _ _ _ _ _ _ _ _ _
              hgt_july19_returns)
    as (du & dv & dh & time & t & l & ru & rv & Hu & Hv & Hh & Ht & Hw & Hl
        & Hz & _).
  exists dh, t, l. split; assumption.
Defined.

(** On the example files the surface renderer returns the dewpoint slice
    of the first analysis time as the file holds it. *)
Lemma returned_dewpoint_is_kelvin_witness :
  dew_july19 = (Ok (field 273.15, 0%nat), snd dew_july19)
  /\ exists dd t,
       surface_fs "dpt.2m.2020.nc" = Some dd
       /\ item3 dd "dpt" t = Ok (field 273.15).
Proof.
  split; [exact dew_july19_returns|].
  destruct (returned_dewpoint_is_kelvin _ _ _ _ _ _ _ _ _ _ _
              dew_july19_returns)
    as [(du & dv & dd & time & t & Hu & Hv & Hd & Ht & Hw & Hz & _) _].
  exists dd, t. split; assumption.
Defined.

(** C1 as claimed fails: the dewpoint file holds 273.15 K at the first grid
    point, [contourf] is handed 0.0 there, and the field returned still
    holds 273.15: it is not the Celsius field. *)
Lemma returned_dewpoint_not_celsius :
  fst dew_july19 = Ok (field 273.15, 0%nat)
  /\ item3 (surface_file "dpt" 273.15) "dpt" 0 = Ok (field 273.15)
  /\ minus (field 273.15) 273.15 = field 0
  /\ field 273.15 <> minus (field 273.15) 273.15.
Proof.
  split; [vm_compute; reflexivity|].
  split; [reflexivity|]. split; [reflexivity|].
  intros Heq.
  apply (f_equal (fun g => match g with
                           | (x :: _) :: _ => Prim2SF x
                           | _ => S754_nan
                           end)) in Heq.
  vm_compute in Heq. discriminate.
Qed.

(** On the example files the barbs of both renderers get the winds in
    knots: 0.514 m/s at the first grid point of the surface file is drawn
    as 1.0. *)
Lemma barbs_in_knots_witness :
  (hgt_july19 = (Ok (field 5910, 0%nat), snd hgt_july19)
   /\ dew_july19 = (Ok (field 273.15, 0%nat), snd dew_july19)
   /\ surface_fs "uwnd.10m.2020.nc" = Some (surface_file "uwnd" 0.514)
   /\ surface_fs "vwnd.10m.2020.nc" = Some (surface_file "vwnd" 2)
   /\ surface_fs "dpt.2m.2020.nc" = Some (surface_file "dpt" 273.15)
   /\ dew_selected datetime.Glibc (surface_file "uwnd" 0.514)
        (surface_file "vwnd" 2) (surface_file "dpt" 273.15) july19
        (field 0.514) (field 2) (field 273.15)
   /\ (forall e, Some [-89.0; -85.0; 31.0; 36.0]%float = Some e ->
                 mpl_check (set_extent e) = None)
   /\ mpl_check
        (contourf {| cs_x := nc_lon (surface_file "uwnd" 0.514);
                     cs_y := nc_lat (surface_file "uwnd" 0.514);
                     cs_z := minus (field 273.15) 273.15;
                     cs_levels := arange_float 18.5 24.0 0.3;
                     cs_cmap := "Greens" |}) = None)
  /\ (exists x y u v color width,
        In (Draw 0%nat (barbs x y u v color width))
           (new_events fresh (snd hgt_july19)))
  /\ (exists x y u v color width,
        In (Draw 0%nat (barbs x y u v color width))
           (new_events fresh (snd dew_july19)))
  /\ In (Draw (List.length (figures fresh))
           (barbs (stride2 (nc_lon (surface_file "uwnd" 0.514)))
              (stride2 (nc_lat (surface_file "uwnd" 0.514)))
              (stride2 (divide (field 0.514) 0.514))
              (stride2 (divide (field 2) 0.514)) "blue" 2.0))
        (new_events fresh (snd dew_july19))
  /\ In (Draw (List.length (figures fresh))
           (barbs (stride2 (nc_lon (pressure_file "uwnd" 0.514)))
              (stride2 (nc_lat (pressure_file "uwnd" 0.514)))
              (stride2 (divide (field 10.514) 0.514))
              (stride2 (divide (field 12) 0.514)) "darkblue" 2.0))
        (new_events fresh (snd hgt_july19))
  /\ stride2 (divide (field 0.514) 0.514) = [[1; 4.8910505836575875]]%float.
Proof.
  assert (Hextent : forall e, Some [-89.0; -85.0; 31.0; 36.0]%float = Some e ->
                              mpl_check (set_extent e) = None)
    by reflexivity.
  assert (Hcontourf :
            mpl_check
              (contourf {| cs_x := nc_lon (surface_file "uwnd" 0.514);
                           cs_y := nc_lat (surface_file "uwnd" 0.514);
                           cs_z := minus (field 273.15) 273.15;
                           cs_levels := arange_float 18.5 24.0 0.3;
                           cs_cmap := "Greens" |}) = None)
    by reflexivity.
  split; [|split; [|split; [|split; [|split]]]].
  - split; [exact hgt_july19_returns|]. split; [exact dew_july19_returns|].
    split; [reflexivity|]. split; [reflexivity|]. split; [reflexivity|].
    split; [exact surface_selected|].
    split; [exact Hextent | exact Hcontourf].
  - exact (proj2 (proj1 (barbs_in_knots mpl_check datetime.Glibc)
                    _ _ _ _ _ _ _ _ _ _ _ _ hgt_july19_returns)
             _ _ eq_refl).
  - exact (proj2 (proj1 (proj2 (barbs_in_knots mpl_check datetime.Glibc))
                    _ _ _ _ _ _ _ _ _ _ _ dew_july19_returns)
             _ _ eq_refl).
  - exact (proj1 (proj2 (proj2 (proj2 (barbs_in_knots mpl_check
                                         datetime.Glibc))))
             surface_fs "uwnd.10m.2020.nc"%string "vwnd.10m.2020.nc"%string
             "dpt.2m.2020.nc"%string july19 "Greens"%string "blue"%string
             (Some [-89.0; -85.0; 31.0; 36.0]%float) fresh
             (surface_file "uwnd" 0.514) (surface_file "vwnd" 2)
             (surface_file "dpt" 273.15)
             (field 0.514) (field 2) (field 273.15)
             eq_refl eq_refl eq_refl surface_selected Hextent Hcontourf).
  - exact (proj1 (proj2 (proj2 (barbs_in_knots mpl_check datetime.Glibc)))
             pressure_fs "uwnd.202007.nc"%string "vwnd.202007.nc"%string
             "hgt.202007.nc"%string 500 july19 "Reds"%string
             "darkblue"%string (Some [-89.0; -85.0; 31.0; 36.0]%float) fresh
             (pressure_file "uwnd" 0.514) (pressure_file "vwnd" 2)
             (pressure_file "hgt" 5900)
             (field 10.514) (field 12) (field 5910)
             eq_refl eq_refl eq_refl pressure_selected Hextent eq_refl).
  - vm_compute. reflexivity.
Defined.

(** On the example files, of two rows and three columns, the height
    returned has the shape of the latitude array. *)
Lemma returned_field_shape_witness :
  hgt_july19 = (Ok (field 5910, 0%nat), snd hgt_july19)
  /\ contourf_checks_shapes mpl_check
  /\ exists du,
       pressure_fs "uwnd.202007.nc" = Some du
       /\ shape (field 5910) = shape (nc_lat du)
       /\ shape (field 5910) = shape (nc_lon du).
Proof.
  split; [exact hgt_july19_returns|].
  split; [exact mpl_contourf_checks_shapes|].
  destruct (proj1 (returned_field_shape mpl_check datetime.Glibc)
              _ _ _ _ _ _ _ _ _ _ _ _ _ hgt_july19_returns)
    as (du & dv & dh & ru & rv & Hu & _ & _ & _ & Hshape).
  exists du. split; [exact Hu|].
  exact (Hshape mpl_contourf_checks_shapes).
Defined.

(** C6 as claimed fails: on a grid of two rows and three columns the field
    returned has shape (2, 3), while [len(lat)] and [len(lon)] are both the
    number of rows of the two-dimensional coordinate arrays. *)
Lemma returned_shape_not_len_lat_len_lon :
  fst hgt_july19 = Ok (field 5910, 0%nat)
  /\ pressure_fs "uwnd.202007.nc" = Some (pressure_file "uwnd" 0.514)
  /\ shape (field 5910) = (2, 3)%nat
  /\ (List.length (nc_lat (pressure_file "uwnd" 0.514)),
      List.length (nc_lon (pressure_file "uwnd" 0.514))) = (2, 2)%nat
  /\ shape (field 5910)
     <> (List.length (nc_lat (pressure_file "uwnd" 0.514)),
         List.length (nc_lon (pressure_file "uwnd" 0.514))).
Proof.
  split; [vm_compute; reflexivity|].
  repeat split; try reflexivity.
  intros Heq. vm_compute in Heq. discriminate.
Qed.

(** On the example files a date that is not an analysis time raises
    [IndexError] with no figure made. *)
Lemma failed_lookup_raises_before_plotting_witness :
  (pressure_fs "uwnd.202007.nc" = Some (pressure_file "uwnd" 0.514)
   /\ pressure_fs "vwnd.202007.nc" = Some (pressure_file "vwnd" 2)
   /\ pressure_fs "hgt.202007.nc" = Some (pressure_file "hgt" 5900)
   /\ time_convert datetime.Glibc (pressure_file "uwnd" 0.514)
      = Ok [july19; july19_21h]
   /\ (~ In (rstrip_nul july20) [july19; july19_21h]
       \/ ~ In 500 (nc_level (pressure_file "uwnd" 0.514)))
   /\ surface_fs "uwnd.10m.2020.nc" = Some (surface_file "uwnd" 0.514)
   /\ surface_fs "vwnd.10m.2020.nc" = Some (surface_file "vwnd" 2)
   /\ surface_fs "dpt.2m.2020.nc" = Some (surface_file "dpt" 273.15)
   /\ time_convert datetime.Glibc (surface_file "uwnd" 0.514)
      = Ok [july19; july19_21h]
   /\ ~ In (rstrip_nul july20) [july19; july19_21h])
  /\ (exists s',
        weather_plot_hgt mpl_check datetime.Glibc pressure_fs
          "uwnd.202007.nc" "vwnd.202007.nc" "hgt.202007.nc" 500 july20
          "Reds" "darkblue" None fresh = (Raise IndexError, s')
        /\ figures s' = figures fresh /\ current s' = current fresh
        /\ Forall (fun ev => is_plotting ev = false) (new_events fresh s'))
  /\ (exists s',
        weather_plot_dew mpl_check datetime.Glibc surface_fs
          "uwnd.10m.2020.nc" "vwnd.10m.2020.nc" "dpt.2m.2020.nc" july20
          "Greens" "blue" None fresh = (Raise IndexError, s')
        /\ figures s' = figures fresh /\ current s' = current fresh
        /\ Forall (fun ev => is_plotting ev = false) (new_events fresh s')).
Proof.
  assert (Habsent : ~ In (rstrip_nul july20) [july19; july19_21h]
                    \/ ~ In 500 (nc_level (pressure_file "uwnd" 0.514)))
    by (left; exact july20_absent).
  split; [|split].
  - split; [reflexivity|]. split; [reflexivity|]. split; [reflexivity|].
    split; [exact pressure_time|]. split; [exact Habsent|].
    split; [reflexivity|]. split; [reflexivity|]. split; [reflexivity|].
    split; [exact surface_time | exact july20_absent].
  - exact (proj1 (failed_lookup_raises_before_plotting mpl_check
                    datetime.Glibc)
             pressure_fs "uwnd.202007.nc"%string "vwnd.202007.nc"%string
             "hgt.202007.nc"%string 500 july20 "Reds"%string
             "darkblue"%string None fresh
             (pressure_file "uwnd" 0.514) (pressure_file "vwnd" 2)
             (pressure_file "hgt" 5900) [july19; july19_21h]
             eq_refl eq_refl eq_refl pressure_time Habsent).
  - exact (proj2 (failed_lookup_raises_before_plotting mpl_check
                    datetime.Glibc)
             surface_fs "uwnd.10m.2020.nc"%string "vwnd.10m.2020.nc"%string
             "dpt.2m.2020.nc"%string july20 "Greens"%string "blue"%string
             None fresh
             (surface_file "uwnd" 0.514) (surface_file "vwnd" 2)
             (surface_file "dpt" 273.15) [july19; july19_21h]
             eq_refl eq_refl eq_refl surface_time july20_absent).
Defined.

(** C2 as claimed fails: the date of July 19th followed by a NUL is no
    entry of the decoded time axis, and no entry equals it; yet numpy's
    comparison takes it for the first entry, and both renderers return the
    first slice with a figure made, as for the date itself. *)
Lemma date_equal_to_no_entry_is_plotted :
  time_convert datetime.Glibc (pressure_file "uwnd" 0.514)
  = Ok [july19; july19_21h]
  /\ ~ In july19_nul [july19; july19_21h]
  /\ map (String.eqb july19_nul) [july19; july19_21h] = [false; false]
  /\ map (fun x => np_equal x july19_nul) [july19; july19_21h]
     = [true; false]
  /\ fst (weather_plot_hgt mpl_check datetime.Glibc pressure_fs
            "uwnd.202007.nc" "vwnd.202007.nc" "hgt.202007.nc" 500 july19_nul
            "Reds" "darkblue" None fresh)
     = Ok (field 5910, 0%nat)
  /\ List.length
       (figures
          (snd (weather_plot_hgt mpl_check datetime.Glibc pressure_fs
                  "uwnd.202007.nc" "vwnd.202007.nc" "hgt.202007.nc" 500
                  july19_nul "Reds" "darkblue" None fresh))) = 1%nat
  /\ fst (weather_plot_dew mpl_check datetime.Glibc surface_fs
            "uwnd.10m.2020.nc" "vwnd.10m.2020.nc" "dpt.2m.2020.nc"
            july19_nul "Greens" "blue" None fresh)
     = Ok (field 273.15, 0%nat).
Proof.
  split; [exact pressure_time|].
  split; [intros [Hd|[Hd|[]]]; vm_compute in Hd; discriminate Hd|].
  split; [vm_compute; reflexivity|].
  split; [vm_compute; reflexivity|].
  split; [vm_compute; reflexivity|].
  split; vm_compute; reflexivity.
Qed.



(** On the example files, other coordinate arrays in the v-wind and height
    files change nothing. *)
Lemma coordinates_from_uwnd_file_only_witness :
  (pressure_fs "uwnd.202007.nc" = shifted_fs "uwnd.202007.nc"
   /\ same_data pressure_fs shifted_fs "vwnd.202007.nc"
   /\ same_data pressure_fs shifted_fs "hgt.202007.nc")
  /\ hgt_july19
     = weather_plot_hgt mpl_check datetime.Glibc shifted_fs
         "uwnd.202007.nc" "vwnd.202007.nc" "hgt.202007.nc" 500 july19
         "Reds" "darkblue" (Some [-89.0; -85.0; 31.0; 36.0]%float) fresh.
Proof.
  split.
  - repeat split; reflexivity.
  - exact (proj1 (coordinates_from_uwnd_file_only mpl_check datetime.Glibc)
             pressure_fs shifted_fs "uwnd.202007.nc"%string
             "vwnd.202007.nc"%string "hgt.202007.nc"%string 500 july19
             "Reds"%string "darkblue"%string
             (Some [-89.0; -85.0; 31.0; 36.0]%float) fresh
             eq_refl eq_refl eq_refl).
Defined.

(** On the example files a second call of July 19th leaves the first
    figure as it was. *)
Lemma second_call_is_independent_witness :
  (hgt_july19 = (Ok (field 5910, 0%nat), snd hgt_july19)
   /\ weather_plot_hgt mpl_check datetime.Glibc pressure_fs
        "uwnd.202007.nc" "vwnd.202007.nc" "hgt.202007.nc" 500 july19
        "Reds" "darkblue" (Some [-89.0; -85.0; 31.0; 36.0]%float)
        (snd hgt_july19)
      = (Ok (field 5910, 1%nat),
         snd (weather_plot_hgt mpl_check datetime.Glibc pressure_fs
                "uwnd.202007.nc" "vwnd.202007.nc" "hgt.202007.nc" 500 july19
                "Reds" "darkblue" (Some [-89.0; -85.0; 31.0; 36.0]%float)
                (snd hgt_july19))))
  /\ colorbar_any_axis mpl_check
  /\ exists drawn1,
       nth_error (figures (snd hgt_july19)) 0 = Some drawn1
       /\ nth_error
            (figures
               (snd (weather_plot_hgt mpl_check datetime.Glibc pressure_fs
                       "uwnd.202007.nc" "vwnd.202007.nc" "hgt.202007.nc" 500
                       july19 "Reds" "darkblue"
                       (Some [-89.0; -85.0; 31.0; 36.0]%float)
                       (snd hgt_july19)))) 0
          = Some drawn1.
Proof.
  assert (Hrun2 :
            weather_plot_hgt mpl_check datetime.Glibc pressure_fs
              "uwnd.202007.nc" "vwnd.202007.nc" "hgt.202007.nc" 500 july19
              "Reds" "darkblue" (Some [-89.0; -85.0; 31.0; 36.0]%float)
              (snd hgt_july19)
            = (Ok (field 5910, 1%nat),
               snd (weather_plot_hgt mpl_check datetime.Glibc pressure_fs
                      "uwnd.202007.nc" "vwnd.202007.nc" "hgt.202007.nc" 500
                      july19 "Reds" "darkblue"
                      (Some [-89.0; -85.0; 31.0; 36.0]%float)
                      (snd hgt_july19))))
    by (vm_compute; reflexivity).
  split; [|split].
  - split; [exact hgt_july19_returns | exact Hrun2].
  - exact mpl_colorbar_any_axis.
  - exact (proj1 (second_call_is_independent _ _ _ _ _ _ _ _ _ _ _ _
                    hgt_july19_returns Hrun2)).
Defined.

(** The decoder on a time axis of three offsets, the last with a
    fraction. *)
Lemma time_convert_stamps_witness :
  Forall2 whole_hours
    (nc_time (time_axis [0; 8760; 1933290.5]%float)) [0; 8760; 1933290]
  /\ time_convert datetime.Glibc (time_axis [0; 8760; 1933290.5]%float)
     = Ok ["1800-01-01 00:00:00"; "1801-01-01 00:00:00";
           "2020-07-19 18:00:00"]%string.
Proof.
  assert (Hhours : Forall2 whole_hours
                     (nc_time (time_axis [0; 8760; 1933290.5]%float))
                     [0; 8760; 1933290]).
  { repeat constructor; unfold first_hour, last_hour; lia. }
  split; [exact Hhours|].
  exact (proj1 (time_convert_stamps datetime.Glibc
                  (time_axis [0; 8760; 1933290.5]%float) Hhours)).
Defined.

(** C4 as claimed fails: an offset past 9999-12-31 23:00:00 raises
    [OverflowError] and a NaN raises [ValueError], so no sequence is
    returned; and before year 1000 glibc prints the year without leading
    zeros. *)
Lemma time_convert_outside_the_calendar :
  time_convert datetime.Padded (time_axis [0; 8e7]%float)
  = Raise OverflowError
  /\ time_convert datetime.Padded (time_axis [nan]%float) = Raise ValueError
  /\ time_convert datetime.Glibc (time_axis [-7012657]%float)
     = Ok ["999-12-31 23:00:00"%string].
Proof. repeat split; vm_compute; reflexivity. Qed.

(** The decoder on negative offsets, down to the first hour of year 1. *)
Lemma negative_offsets_before_epoch_witness :
  Forall2 decodable
    (nc_time (time_axis [-1.5; -15769704; 10]%float)) [-1; -15769704; 10]
  /\ time_convert datetime.Padded (time_axis [-1.5; -15769704; 10]%float)
     = Ok ["1799-12-31 23:00:00"; "0001-01-01 00:00:00";
           "1800-01-01 10:00:00"]%string
  /\ datetime.before (hours_after_epoch (-15769704)) start = true.
Proof.
  assert (Hhours : Forall2 decodable
                     (nc_time (time_axis [-1.5; -15769704; 10]%float))
                     [-1; -15769704; 10]).
  { repeat constructor; unfold earliest_hour, last_hour; lia. }
  split; [exact Hhours|].
  destruct (negative_offsets_before_epoch datetime.Padded
              (time_axis [-1.5; -15769704; 10]%float) Hhours)
    as (Hstamps & Hbefore & _).
  split; [exact Hstamps|].
  apply Hbefore; [right; now left | lia].
Defined.

(** C10 as claimed fails: -0.5 hours truncates to 0 hours and is decoded
    to the epoch itself, which is not before the epoch; and an offset
    before the first hour of year 1 raises [OverflowError]. *)
Lemma negative_offsets_not_all_before_epoch :
  int (-0.5)%float = Ok 0
  /\ time_convert datetime.Glibc (time_axis [(-0.5)%float])
     = Ok ["1800-01-01 00:00:00"%string]
  /\ hours_after_epoch 0 = start
  /\ datetime.before start start = false
  /\ time_convert datetime.Glibc (time_axis [-15769705]%float)
     = Raise OverflowError.
Proof. repeat split; vm_compute; reflexivity. Qed.

(** ** Further properties of the timestamp decoder *)

Lemma comprehension_Ok {A B : Type} (f : A -> result B) l l' :
  comprehension f l = Ok l' <-> Forall2 (fun a b => f a = Ok b) l l'.
Proof.
  split.
  - revert l'. induction l as [|a l IH]; cbn [comprehension]; intros l' Hl.
    + inversion Hl. constructor.
    + destruct (f a) as [b|] eqn:Ea; [|discriminate].
      cbn [bind result_Monad] in Hl.
      destruct (comprehension f l) as [bs|]; [|discriminate].
      inversion Hl; subst. constructor; [exact Ea | now apply IH].
  - induction 1 as [|a b l l' Hab _ IH]; cbn [comprehension].
    + reflexivity.
    + now rewrite Hab, IH.
Qed.



Lemma timedelta_hours_inv n td :
  datetime.timedelta_hours n = Ok td ->
  td = {| datetime.days := n / 24; datetime.seconds := n mod 24 * 3600 |}
  /\ -999999999 <= n / 24 <= 999999999.
Proof.
  unfold datetime.timedelta_hours, datetime.mk_timedelta. cbv zeta.
  replace (n * 3600 / 86400) with (n / 24)
    by (Z.div_mod_to_equations; lia).
  replace ((n * 3600) mod 86400) with (n mod 24 * 3600)
    by (Z.div_mod_to_equations; lia).
  destruct (999999999 <? Z.abs (0 + n / 24)) eqn:E; [discriminate|].
  apply Z.ltb_ge in E. intros Htd. inversion Htd. split; [reflexivity | lia].
Qed.



Lemma add_start_inv n t :
  datetime.add start
    {| datetime.days := n / 24; datetime.seconds := n mod 24 * 3600 |} = Ok t ->
  earliest_hour <= n <= last_hour.
Proof.
  unfold earliest_hour, last_hour.
  unfold datetime.add.
  change (datetime.toordinal start) with 657072.
  change (datetime.mk_timedelta 657072
            (datetime.hour start * 3600 + datetime.minute start * 60
             + datetime.second start))
    with (Ok {| datetime.days := 657072; datetime.seconds := 0 |}).
  cbn [bind result_Monad].
  unfold datetime.timedelta_add, datetime.mk_timedelta.
  cbn [datetime.days datetime.seconds]. cbv zeta.
  replace ((0 + n mod 24 * 3600) / 86400) with 0
    by (Z.div_mod_to_equations; lia).
  destruct (999999999 <? Z.abs (657072 + n / 24 + 0)); [discriminate|].
  cbn [bind result_Monad datetime.days datetime.seconds].
  destruct ((0 <? 657072 + n / 24 + 0)
            && (657072 + n / 24 + 0 <=? datetime.MAXORDINAL)) eqn:E;
    [|discriminate].
  intros _. apply andb_true_iff in E. destruct E as [E1 E2].
  apply Z.ltb_lt in E1. apply Z.leb_le in E2.
  unfold datetime.MAXORDINAL in E2. Z.div_mod_to_equations. lia.
Qed.

(** What a returning decoder tells about its time axis. *)
Lemma time_convert_inv {A V : Type} (c : datetime.libc) (file : netcdf A V) l :
  time_convert c file = Ok l ->
  exists hours,
    Forall2 decodable (nc_time file) hours
    /\ l = map (fun n => datetime.strftime c (hours_after_epoch n)) hours.
Proof.
  unfold time_convert. intros Hl.
  destruct (comprehension _ (nc_time file)) as [delta|] eqn:Ed;
    [|discriminate].
  cbn [bind result_Monad] in Hl.
  destruct (comprehension _ delta) as [offset|] eqn:Eo; [|discriminate].
  cbn [bind ret result_Monad] in Hl. inversion Hl; subst l. clear Hl.
  apply comprehension_Ok in Ed. apply comprehension_Ok in Eo.
  revert offset Eo.
  induction Ed as [|x td times delta Hx _ IH]; intros offset Eo.
  - inversion Eo; subst. exists []. split; constructor.
  - inversion Eo as [|td' t delta' offset' Ht Hrest]; subst.
    destruct (IH _ Hrest) as (hours & Hhours & Hmap).
    destruct (int x) as [n|] eqn:En; [|discriminate].
    cbn [bind result_Monad] in Hx.
    apply timedelta_hours_inv in Hx. destruct Hx as [-> Hdays].
    pose proof (add_start_inv _ Ht) as Hn.
    rewrite (datetime_facts.add_start_ok Hn) in Ht. inversion Ht; subst t.
    exists (n :: hours). split.
    + constructor; [split; assumption | exact Hhours].
    + cbn [map]. now rewrite Hmap.
Qed.

Lemma comprehension_stops {A B : Type} (f : A -> result B) pre done x post e :
  Forall2 (fun a b => f a = Ok b) pre done ->
  f x = Raise e ->
  comprehension f (pre ++ x :: post) = Raise e.
Proof.
  induction 1 as [|a b pre done Hab _ IH]; intros Hx; cbn [app comprehension].
  - now rewrite Hx.
  - rewrite Hab. cbn [bind result_Monad]. now rewrite (IH Hx).
Qed.

(** X1: [time_convert] returns exactly on the time axes whose every offset
    is finite and truncates to an hour between 0001-01-01 00:00:00 and
    9999-12-31 23:00:00; what it returns then has one string per offset, in
    order, each the platform's text of the epoch plus the truncated
    offset. *)
Theorem time_convert_returns_iff :
  forall (A V : Type) (c : datetime.libc) (file : netcdf A V)
         (l : list string),
    time_convert c file = Ok l <->
    exists hours,
      Forall2 decodable (nc_time file) hours
      /\ List.length hours = List.length (nc_time file)
      /\ l = map (fun n => datetime.strftime c (hours_after_epoch n)) hours.
Proof.
  intros A V c file l. split.
  - intros Hl. destruct (time_convert_inv c file Hl) as (hours & Hh & ->).
    exists hours. split; [exact Hh|]. split; [|reflexivity].
    symmetry. apply (Forall2_length Hh).
  - intros (hours & Hh & _ & ->). apply time_convert_ok. exact Hh.
Qed.


(** X3: every offset is converted to an integer before any is added to the
    epoch, so the error of the first offset [int] rejects is the one raised,
    even when an offset before it lies outside the calendar. *)
Theorem conversion_errors_come_first :
  forall (A V : Type) (c : datetime.libc) (file : netcdf A V)
         (pre post : list float) (x : float) (hours : list Z) (e : exn),
    nc_time file = pre ++ x :: post ->
    Forall2 (fun y n => int y = Ok n /\ -20000000000 <= n <= 20000000000)
      pre hours ->
    int x = Raise e ->
    time_convert c file = Raise e.
Proof.
  intros A V c file pre post x hours e Htime Hpre Hx.
  unfold time_convert. rewrite Htime.
  erewrite comprehension_stops; [reflexivity| |now rewrite Hx].
  instantiate (1 := map (fun n => {| datetime.days := n / 24;
                                     datetime.seconds := n mod 24 * 3600 |})
                      hours).
  clear Htime.
  induction Hpre as [|y n pre' hours' [Hy Hn] _ IH]; cbn [map]; constructor.
  - rewrite Hy. cbn [bind result_Monad].
    now apply datetime_facts.timedelta_hours_ok.
  - exact IH.
Qed.

(** X4: decoding the time axes of two files one after the other is
    decoding the joined axis: the joined axis decodes exactly when both
    parts do, to the two results joined. *)
Theorem time_convert_app :
  forall (A V : Type) (c : datetime.libc) (file part1 part2 : netcdf A V)
         (l : list string),
    nc_time file = nc_time part1 ++ nc_time part2 ->
    (time_convert c file = Ok l <->
     exists l1 l2,
       time_convert c part1 = Ok l1 /\ time_convert c part2 = Ok l2
       /\ l = l1 ++ l2).
Proof.
  intros A V c file part1 part2 l Htime. split.
  - intros Hl. destruct (time_convert_inv c file Hl) as (hours & Hh & ->).
    rewrite Htime in Hh. apply Forall2_app_inv_l in Hh.
    destruct Hh as (h1 & h2 & Hh1 & Hh2 & ->).
    exists (map (fun n => datetime.strftime c (hours_after_epoch n)) h1),
      (map (fun n => datetime.strftime c (hours_after_epoch n)) h2).
    split; [now apply time_convert_ok|].
    split; [now apply time_convert_ok | apply map_app].
  - intros (l1 & l2 & H1 & H2 & ->).
    destruct (time_convert_inv c part1 H1) as (h1 & Hh1 & ->).
    destruct (time_convert_inv c part2 H2) as (h2 & Hh2 & ->).
    rewrite <- map_app. apply time_convert_ok. rewrite Htime.
    now apply Forall2_app.
Qed.


Lemma conversion_errors_come_first_witness :
  (nc_time (time_axis [8e7; nan; 0]%float) = [8e7%float] ++ nan :: [0%float]
   /\ Forall2 (fun y n => int y = Ok n /\ -20000000000 <= n <= 20000000000)
        [8e7%float] [80000000]
   /\ int nan = Raise ValueError)
  /\ time_convert datetime.Glibc (time_axis [8e7; nan; 0]%float)
     = Raise ValueError.
Proof.
  assert (Hpre : Forall2 (fun y n => int y = Ok n
                                     /\ -20000000000 <= n <= 20000000000)
                   [8e7%float] [80000000]).
  { repeat constructor; lia. }
  split.
  - split; [reflexivity|]. split; [exact Hpre | reflexivity].
  - exact (@conversion_errors_come_first unit unit datetime.Glibc
             (time_axis [8e7; nan; 0]%float) [8e7%float] [0%float] nan
             [80000000] ValueError eq_refl Hpre eq_refl).
Defined.

Lemma time_convert_app_witness :
  nc_time (time_axis [0; 8760]%float)
  = nc_time (time_axis [0%float]) ++ nc_time (time_axis [8760%float])
  /\ (time_convert datetime.Glibc (time_axis [0; 8760]%float)
      = Ok ["1800-01-01 00:00:00"; "1801-01-01 00:00:00"]%string <->
      exists l1 l2,
        time_convert datetime.Glibc (time_axis [0%float]) = Ok l1
        /\ time_convert datetime.Glibc (time_axis [8760%float]) = Ok l2
        /\ ["1800-01-01 00:00:00"; "1801-01-01 00:00:00"]%string = l1 ++ l2).
Proof.
  split; [reflexivity|].
  exact (@time_convert_app unit unit datetime.Glibc
           (time_axis [0; 8760]%float) (time_axis [0%float])
           (time_axis [8760%float]) _ eq_refl).
Defined.

(** ** Further properties of the renderers *)

Lemma zero_padded_length width n tail :
  String.length (datetime.zero_padded width n tail)
  = (width + String.length tail)%nat.
Proof.
  revert n tail. induction width as [|w IH]; intros n tail;
    cbn [datetime.zero_padded]; [reflexivity|].
  rewrite IH. cbn [String.length]. lia.
Qed.

Lemma stamp_length n : String.length (stamp n) = 19%nat.
Proof.
  unfold stamp, datetime.strftime. cbn [datetime.year_digits].
  repeat (rewrite zero_padded_length; cbn [String.length]).
  reflexivity.
Qed.

Lemma length_every_other {X : Type} (a : list X) :
  List.length (every_other a) = Nat.div2 (S (List.length a)).
Proof.
  assert (Hn : forall n (a : list X), (List.length a <= n)%nat ->
               List.length (every_other a) = Nat.div2 (S (List.length a))).
  { induction n as [|n IH]; intros [|x [|y b]] Hb; try reflexivity;
      cbn [List.length] in Hb; try lia.
    cbn [every_other List.length Nat.div2]. f_equal.
    rewrite IH by lia. reflexivity. }
  exact (Hn (List.length a) a (le_n _)).
Qed.

Section MoreRunFacts.

Context {A : Type} `{Sample A}.
Variable check : @call A -> option exn.
Variable libc : datetime.libc.

Lemma shape_stride2 (a : grid A) :
  shape (stride2 a)
  = (Nat.div2 (S (fst (shape a))), Nat.div2 (S (snd (shape a)))).
Proof.
  unfold shape, stride2. cbn [fst snd]. rewrite length_map.
  rewrite length_every_other. f_equal.
  destruct a as [|row a]; cbn [every_other map hd]; [reflexivity|].
  apply length_every_other.
Qed.

Lemma shape_divide (a : grid A) c : shape (divide a c) = shape a.
Proof.
  unfold shape, divide. rewrite length_map.
  destruct a as [|row a]; cbn [map hd]; [reflexivity|].
  now rewrite length_map.
Qed.

(** A sequence of plotting calls that raises stopped at a call the library
    rejected, after the calls it accepted. *)
Lemma outcome_Raise (cs : list (@call A)) e :
  outcome check cs = Raise e ->
  exists done c rest,
    cs = done ++ c :: rest /\ check c = Some e
    /\ Forall (fun c' => check c' = None) done
    /\ accepted check cs = done
    /\ attempted check cs = done ++ [c].
Proof.
  induction cs as [|c cs IH]; cbn [outcome accepted attempted];
    [discriminate|].
  destruct (check c) as [e'|] eqn:Ec.
  - intros He. inversion He; subst e'.
    exists [], c, cs. repeat split; [exact Ec | constructor].
  - intros He. destruct (IH He) as (done & c' & rest & -> & Hc' & Hd & Ha & Ht).
    exists (c :: done), c', rest.
    repeat split; [exact Hc' | now constructor | now rewrite Ha |
                   now rewrite Ht].
Qed.

(** The renderers when a file is missing: the files before it stay open. *)
Lemma weather_plot_hgt_missing_exact fs uwnd_file vwnd_file hgt_file level
    date cmap barb_color extent (s : @state A) :
  (fs uwnd_file = None ->
   weather_plot_hgt check libc fs uwnd_file vwnd_file hgt_file level date
     cmap barb_color extent s = (Raise FileNotFoundError, s))
  /\ (fs uwnd_file <> None -> fs vwnd_file = None ->
      weather_plot_hgt check libc fs uwnd_file vwnd_file hgt_file level date
        cmap barb_color extent s = (Raise FileNotFoundError, opened 1 s))
  /\ (fs uwnd_file <> None -> fs vwnd_file <> None -> fs hgt_file = None ->
      weather_plot_hgt check libc fs uwnd_file vwnd_file hgt_file level date
        cmap barb_color extent s = (Raise FileNotFoundError, opened 2 s)).
Proof.
  unfold weather_plot_hgt, Dataset, opened.
  cbn [bind M_Monad result_Monad handles figures current log contents hid].
  split; [|split].
  - intros Hu. now rewrite Hu.
  - intros Hu Hv. destruct (fs uwnd_file) as [du|]; [|congruence].
    cbn [handles figures current log contents hid]. now rewrite Hv.
  - intros Hu Hv Hh. destruct (fs uwnd_file) as [du|]; [|congruence].
    cbn [handles figures current log contents hid].
    destruct (fs vwnd_file) as [dv|]; [|congruence].
    cbn [handles figures current log contents hid]. rewrite Hh.
    cbn [repeat seq map].
    rewrite !length_app. cbn [List.length]. rewrite !Nat.add_1_r.
    rewrite <- !app_assoc. reflexivity.
Qed.

Lemma weather_plot_dew_missing_exact fs uwnd_file vwnd_file dew_file
    date cmap barb_color extent (s : @state A) :
  (fs uwnd_file = None ->
   weather_plot_dew check libc fs uwnd_file vwnd_file dew_file date
     cmap barb_color extent s = (Raise FileNotFoundError, s))
  /\ (fs uwnd_file <> None -> fs vwnd_file = None ->
      weather_plot_dew check libc fs uwnd_file vwnd_file dew_file date
        cmap barb_color extent s = (Raise FileNotFoundError, opened 1 s))
  /\ (fs uwnd_file <> None -> fs vwnd_file <> None -> fs dew_file = None ->
      weather_plot_dew check libc fs uwnd_file vwnd_file dew_file date
        cmap barb_color extent s = (Raise FileNotFoundError, opened 2 s)).
Proof.
  unfold weather_plot_dew, Dataset, opened.
  cbn [bind M_Monad result_Monad handles figures current log contents hid].
  split; [|split].
  - intros Hu. now rewrite Hu.
  - intros Hu Hv. destruct (fs uwnd_file) as [du|]; [|congruence].
    cbn [handles figures current log contents hid]. now rewrite Hv.
  - intros Hu Hv Hd. destruct (fs uwnd_file) as [du|]; [|congruence].
    cbn [handles figures current log contents hid].
    destruct (fs vwnd_file) as [dv|]; [|congruence].
    cbn [handles figures current log contents hid]. rewrite Hd.
    cbn [repeat seq map].
    rewrite !length_app. cbn [List.length]. rewrite !Nat.add_1_r.
    rewrite <- !app_assoc. reflexivity.
Qed.

(** How a renderer with its three files present leaves the world: with
    the files open and nothing drawn when reading raised, with the files
    closed and one new figure, the current one, when reading went through. *)
Lemma weather_plot_hgt_exit fs uwnd_file vwnd_file hgt_file level date
    cmap barb_color extent (s s' : @state A) r du dv dh :
  fs uwnd_file = Some du -> fs vwnd_file = Some dv ->
  fs hgt_file = Some dh ->
  weather_plot_hgt check libc fs uwnd_file vwnd_file hgt_file level date
    cmap barb_color extent s = (r, s') ->
  (s' = opened 3 s
   /\ (exists e, r = Raise e
                 /\ hgt_fields libc du dv dh level date = Raise e))
  \/ (exists ru rv rz,
        hgt_selected libc du dv dh level date ru rv rz
        /\ let cs := plot_calls (List.length (figures s)) (nc_lon du)
                       (nc_lat du) rz (divide ru 0.514) (divide rv 0.514)
                       (arange_int 5910 6000 5) cmap barb_color extent
                       (hgt_label level) in
           s' = plotted check cs (closed3 s)
           /\ r = match outcome check cs with
                  | Ok _ => Ok (rz, List.length (figures s))
                  | Raise e => Raise e
                  end).
Proof.
  intros Hu Hv Hh Hrun.
  erewrite weather_plot_hgt_run in Hrun by eassumption.
  destruct (hgt_fields libc du dv dh level date)
    as [[[[[lon lat] z] u] v]|e] eqn:Ef.
  - right. apply hgt_fields_Ok in Ef.
    destruct Ef as (ru & rv & Hsel & -> & -> & -> & ->).
    cbv zeta in Hrun. inversion Hrun; subst.
    exists ru, rv, z. split; [exact Hsel|]. cbv zeta. split; reflexivity.
  - left. inversion Hrun; subst. split; [reflexivity|].
    exists e. split; reflexivity.
Qed.

Lemma weather_plot_dew_exit fs uwnd_file vwnd_file dew_file date
    cmap barb_color extent (s s' : @state A) r du dv dd :
  fs uwnd_file = Some du -> fs vwnd_file = Some dv ->
  fs dew_file = Some dd ->
  weather_plot_dew check libc fs uwnd_file vwnd_file dew_file date
    cmap barb_color extent s = (r, s') ->
  (s' = opened 3 s
   /\ (exists e, r = Raise e /\ dew_fields libc du dv dd date = Raise e))
  \/ (exists ru rv rz,
        dew_selected libc du dv dd date ru rv rz
        /\ let cs := plot_calls (List.length (figures s)) (nc_lon du)
                       (nc_lat du) (minus rz 273.15) (divide ru 0.514)
                       (divide rv 0.514) (arange_float 18.5 24.0 0.3) cmap
                       barb_color extent dew_label in
           s' = plotted check cs (closed3 s)
           /\ r = match outcome check cs with
                  | Ok _ => Ok (rz, List.length (figures s))
                  | Raise e => Raise e
                  end).
Proof.
  intros Hu Hv Hd Hrun.
  erewrite weather_plot_dew_run in Hrun by eassumption.
  destruct (dew_fields libc du dv dd date)
    as [[[[[lon lat] z] u] v]|e] eqn:Ef.
  - right. apply dew_fields_Ok in Ef.
    destruct Ef as (ru & rv & Hsel & -> & -> & -> & ->).
    cbv zeta in Hrun. inversion Hrun; subst.
    exists ru, rv, z. split; [exact Hsel|]. cbv zeta. split; reflexivity.
  - left. inversion Hrun; subst. split; [reflexivity|].
    exists e. split; reflexivity.
Qed.

End MoreRunFacts.

Section MoreRenderers.

Context {A : Type} `{Sample A}.
Variable check : @call A -> option exn.
Variable libc : datetime.libc.

(** X5: on a time axis within the years 1000 to 9999 every decoded entry
    has 19 characters, so a date whose text, the NULs at its end dropped,
    is of any other length (one without the seconds, say) matches no
    entry: both renderers raise [IndexError] with their three files open
    and nothing drawn. *)
Theorem date_of_other_length_never_matches :
  (forall fs uwnd_file vwnd_file hgt_file level date cmap barb_color extent
          (s : @state A) du dv dh hours,
     fs uwnd_file = Some du -> fs vwnd_file = Some dv ->
     fs hgt_file = Some dh ->
     Forall2 whole_hours (nc_time du) hours ->
     String.length (rstrip_nul date) <> 19%nat ->
     weather_plot_hgt check libc fs uwnd_file vwnd_file hgt_file level date
       cmap barb_color extent s = (Raise IndexError, opened 3 s))
  /\ (forall fs uwnd_file vwnd_file dew_file date cmap barb_color extent
             (s : @state A) du dv dd hours,
        fs uwnd_file = Some du -> fs vwnd_file = Some dv ->
        fs dew_file = Some dd ->
        Forall2 whole_hours (nc_time du) hours ->
        String.length (rstrip_nul date) <> 19%nat ->
        weather_plot_dew check libc fs uwnd_file vwnd_file dew_file date
          cmap barb_color extent s = (Raise IndexError, opened 3 s)).
Proof.
  assert (Habsent : forall date hours,
            String.length (rstrip_nul date) <> 19%nat ->
            ~ In (rstrip_nul date) (map stamp hours)).
  { intros date hours Hlen Hin. apply in_map_iff in Hin.
    destruct Hin as (n & Hn & _). now rewrite <- Hn, stamp_length in Hlen. }
  split.
  - intros fs uwnd_file vwnd_file hgt_file level date cmap barb_color extent
      s du dv dh hours Hu Hv Hh Hhours Hlen.
    assert (Ht : time_convert libc du = Ok (map stamp hours)).
    { rewrite (time_convert_ok libc du (whole_hours_decodable Hhours)).
      now rewrite (whole_hours_stamp libc Hhours). }
    erewrite weather_plot_hgt_run by eassumption.
    erewrite hgt_fields_lookup_fails; [reflexivity | exact Ht |].
    left. now apply Habsent.
  - intros fs uwnd_file vwnd_file dew_file date cmap barb_color extent
      s du dv dd hours Hu Hv Hd Hhours Hlen.
    assert (Ht : time_convert libc du = Ok (map stamp hours)).
    { rewrite (time_convert_ok libc du (whole_hours_decodable Hhours)).
      now rewrite (whole_hours_stamp libc Hhours). }
    erewrite weather_plot_dew_run by eassumption.
    erewrite dew_fields_lookup_fails; [reflexivity | exact Ht |].
    now apply Habsent.
Qed.

(** X6: when the date (or the level) occurs more than once in its axis, a
    returning renderer has taken the first occurrence: the field returned
    is the slice at the least index whose decoded time is the text of the
    date (the date without the NULs at its end) and, for the
    pressure-level renderer, the least index whose level is the level
    asked for. *)
Theorem lookup_selects_first_match :
  (forall fs uwnd_file vwnd_file hgt_file level date cmap barb_color extent
          (s s' : @state A) hgt ax,
     weather_plot_hgt check libc fs uwnd_file vwnd_file hgt_file level date
       cmap barb_color extent s = (Ok (hgt, ax), s') ->
     exists du dh time t l,
       fs uwnd_file = Some du /\ fs hgt_file = Some dh
       /\ time_convert libc du = Ok time
       /\ nth_error time t = Some (rstrip_nul date)
       /\ (forall j, (j < t)%nat ->
                     nth_error time j <> Some (rstrip_nul date))
       /\ nth_error (nc_level du) l = Some level
       /\ (forall j, (j < l)%nat -> nth_error (nc_level du) j <> Some level)
       /\ item4 dh "hgt" t l = Ok hgt)
  /\ (forall fs uwnd_file vwnd_file dew_file date cmap barb_color extent
             (s s' : @state A) dew ax,
        weather_plot_dew check libc fs uwnd_file vwnd_file dew_file date
          cmap barb_color extent s = (Ok (dew, ax), s') ->
        exists du dd time t,
          fs uwnd_file = Some du /\ fs dew_file = Some dd
          /\ time_convert libc du = Ok time
          /\ nth_error time t = Some (rstrip_nul date)
          /\ (forall j, (j < t)%nat ->
                        nth_error time j <> Some (rstrip_nul date))
          /\ item3 dd "dpt" t = Ok dew).
Proof.
  split.
  - intros fs uwnd_file vwnd_file hgt_file level date cmap barb_color extent
      s s' hgt ax Hrun.
    apply weather_plot_hgt_returns in Hrun.
    destruct Hrun as (du & dv & dh & ru & rv & Hu & Hv & Hh & Hsel & _).
    destruct Hsel as (time & t & l & Ht & Hw & Hl & Hru & Hrv & Hrz).
    destruct (where_first_date _ (numpy_facts.time_convert_unpadded _ _ Ht)
                Hw) as [Hx Hfirst].
    destruct (where_first_Ok _ _ Hl) as (y & Hy & Ey & Hlfirst).
    apply Z.eqb_eq in Ey. subst y.
    exists du, dh, time, t, l.
    repeat split; try assumption.
    intros j Hj Hnth. specialize (Hlfirst j level Hj Hnth).
    now rewrite Z.eqb_refl in Hlfirst.
  - intros fs uwnd_file vwnd_file dew_file date cmap barb_color extent
      s s' dew ax Hrun.
    apply weather_plot_dew_returns in Hrun.
    destruct Hrun as (du & dv & dd & ru & rv & Hu & Hv & Hd & Hsel & _).
    destruct Hsel as (time & t & Ht & Hw & Hru & Hrv & Hrz).
    destruct (where_first_date _ (numpy_facts.time_convert_unpadded _ _ Ht)
                Hw) as [Hx Hfirst].
    exists du, dd, time, t.
    repeat split; assumption.
Qed.

(** X7: a renderer opens its files in the order u-wind, v-wind, scalar
    field and stops at the first path that names no file with
    [FileNotFoundError]; the files it opened before that one stay open, and
    nothing is read or drawn. *)
Theorem missing_file_leaves_earlier_files_open :
  (forall fs uwnd_file vwnd_file hgt_file level date cmap barb_color extent
          (s : @state A),
     (fs uwnd_file = None ->
      weather_plot_hgt check libc fs uwnd_file vwnd_file hgt_file level date
        cmap barb_color extent s = (Raise FileNotFoundError, s))
     /\ (fs uwnd_file <> None -> fs vwnd_file = None ->
         weather_plot_hgt check libc fs uwnd_file vwnd_file hgt_file level
           date cmap barb_color extent s
         = (Raise FileNotFoundError,
            {| handles := handles s ++ [true];
               figures := figures s;
               current := current s;
               log := log s ++ [Opened (List.length (handles s))] |}))
     /\ (fs uwnd_file <> None -> fs vwnd_file <> None ->
         fs hgt_file = None ->
         weather_plot_hgt check libc fs uwnd_file vwnd_file hgt_file level
           date cmap barb_color extent s
         = (Raise FileNotFoundError,
            {| handles := handles s ++ [true; true];
               figures := figures s;
               current := current s;
               log := log s ++ [Opened (List.length (handles s));
                                Opened (S (List.length (handles s)))] |})))
  /\ (forall fs uwnd_file vwnd_file dew_file date cmap barb_color extent
             (s : @state A),
        (fs uwnd_file = None ->
         weather_plot_dew check libc fs uwnd_file vwnd_file dew_file date
           cmap barb_color extent s = (Raise FileNotFoundError, s))
        /\ (fs uwnd_file <> None -> fs vwnd_file = None ->
            weather_plot_dew check libc fs uwnd_file vwnd_file dew_file date
              cmap barb_color extent s
            = (Raise FileNotFoundError,
               {| handles := handles s ++ [true];
                  figures := figures s;
                  current := current s;
                  log := log s ++ [Opened (List.length (handles s))] |}))
        /\ (fs uwnd_file <> None -> fs vwnd_file <> None ->
            fs dew_file = None ->
            weather_plot_dew check libc fs uwnd_file vwnd_file dew_file date
              cmap barb_color extent s
            = (Raise FileNotFoundError,
               {| handles := handles s ++ [true; true];
                  figures := figures s;
                  current := current s;
                  log := log s ++ [Opened (List.length (handles s));
                                   Opened (S (List.length (handles s)))]
               |}))).
Proof.
  split.
  - intros fs uwnd_file vwnd_file hgt_file level date cmap barb_color extent
      s.
    exact (weather_plot_hgt_missing_exact check libc fs uwnd_file vwnd_file
             hgt_file level date cmap barb_color extent s).
  - intros fs uwnd_file vwnd_file dew_file date cmap barb_color extent s.
    exact (weather_plot_dew_missing_exact check libc fs uwnd_file vwnd_file
             dew_file date cmap barb_color extent s).
Qed.

(** X8: an exception of the decoder on the u-wind file's time axis (a NaN,
    an offset outside the calendar) leaves a renderer as it is: the same
    exception reaches the caller, the three files are open and nothing is
    drawn. *)
Theorem decoder_error_propagates :
  (forall fs uwnd_file vwnd_file hgt_file level date cmap barb_color extent
          (s : @state A) du dv dh e,
     fs uwnd_file = Some du -> fs vwnd_file = Some dv ->
     fs hgt_file = Some dh ->
     time_convert libc du = Raise e ->
     weather_plot_hgt check libc fs uwnd_file vwnd_file hgt_file level date
       cmap barb_color extent s = (Raise e, opened 3 s))
  /\ (forall fs uwnd_file vwnd_file dew_file date cmap barb_color extent
             (s : @state A) du dv dd e,
        fs uwnd_file = Some du -> fs vwnd_file = Some dv ->
        fs dew_file = Some dd ->
        time_convert libc du = Raise e ->
        weather_plot_dew check libc fs uwnd_file vwnd_file dew_file date
          cmap barb_color extent s = (Raise e, opened 3 s)).
Proof.
  split.
  - intros fs uwnd_file vwnd_file hgt_file level date cmap barb_color extent
      s du dv dh e Hu Hv Hh Ht.
    erewrite weather_plot_hgt_run by eassumption.
    unfold hgt_fields. now rewrite Ht.
  - intros fs uwnd_file vwnd_file dew_file date cmap barb_color extent
      s du dv dd e Hu Hv Hd Ht.
    erewrite weather_plot_dew_run by eassumption.
    unfold dew_fields. now rewrite Ht.
Qed.

End MoreRenderers.

Section ExitStates.

Context {A : Type} `{Sample A}.
Variable check : @call A -> option exn.
Variable libc : datetime.libc.

(** X9: a renderer whose three files are present leaves them all open or
    all closed, and closed exactly when it made its figure: either it
    raised with the three files open, no figure made and pyplot's current
    figure as it was, or the three files are closed and one new figure
    exists and is the current one, whether the call returned or raised. *)
Theorem files_closed_iff_figure_made :
  (forall fs uwnd_file vwnd_file hgt_file level date cmap barb_color extent
          (s s' : @state A) r du dv dh,
     fs uwnd_file = Some du -> fs vwnd_file = Some dv ->
     fs hgt_file = Some dh ->
     weather_plot_hgt check libc fs uwnd_file vwnd_file hgt_file level date
       cmap barb_color extent s = (r, s') ->
     (handles s' = handles s ++ [true; true; true]
      /\ figures s' = figures s /\ current s' = current s
      /\ exists e, r = Raise e)
     \/ (handles s' = handles s ++ [false; false; false]
         /\ (exists drawn, figures s' = figures s ++ [drawn])
         /\ current s' = Some (List.length (figures s))))
  /\ (forall fs uwnd_file vwnd_file dew_file date cmap barb_color extent
             (s s' : @state A) r du dv dd,
        fs uwnd_file = Some du -> fs vwnd_file = Some dv ->
        fs dew_file = Some dd ->
        weather_plot_dew check libc fs uwnd_file vwnd_file dew_file date
          cmap barb_color extent s = (r, s') ->
        (handles s' = handles s ++ [true; true; true]
         /\ figures s' = figures s /\ current s' = current s
         /\ exists e, r = Raise e)
        \/ (handles s' = handles s ++ [false; false; false]
            /\ (exists drawn, figures s' = figures s ++ [drawn])
            /\ current s' = Some (List.length (figures s)))).
Proof.
  split.
  - intros fs uwnd_file vwnd_file hgt_file level date cmap barb_color extent
      s s' r du dv dh Hu Hv Hh Hrun.
    eapply weather_plot_hgt_exit in Hrun; try eassumption.
    destruct Hrun
      as [[-> (e & -> & _)]|(ru & rv & rz & _ & Hcs)].
    + left. repeat split. now exists e.
    + right. cbv zeta in Hcs. destruct Hcs as [-> _].
      repeat split. eexists. reflexivity.
  - intros fs uwnd_file vwnd_file dew_file date cmap barb_color extent
      s s' r du dv dd Hu Hv Hd Hrun.
    eapply weather_plot_dew_exit in Hrun; try eassumption.
    destruct Hrun
      as [[-> (e & -> & _)]|(ru & rv & rz & _ & Hcs)].
    + left. repeat split. now exists e.
    + right. cbv zeta in Hcs. destruct Hcs as [-> _].
      repeat split. eexists. reflexivity.
Qed.

(** X10: when the plotting library rejects a call, the renderer raises the
    library's exception and leaves a partly built figure behind as pyplot's
    current figure: it holds the calls made before the rejected one, in
    order, all accepted; the three files are closed. *)
Theorem rejected_call_leaves_partial_figure :
  (forall fs uwnd_file vwnd_file hgt_file level date cmap barb_color extent
          (s s' : @state A) e du dv dh ru rv rz,
     fs uwnd_file = Some du -> fs vwnd_file = Some dv ->
     fs hgt_file = Some dh ->
     hgt_selected libc du dv dh level date ru rv rz ->
     weather_plot_hgt check libc fs uwnd_file vwnd_file hgt_file level date
       cmap barb_color extent s = (Raise e, s') ->
     exists done c rest,
       plot_calls (List.length (figures s)) (nc_lon du) (nc_lat du) rz
         (divide ru 0.514) (divide rv 0.514) (arange_int 5910 6000 5)
         cmap barb_color extent (hgt_label level)
       = done ++ c :: rest
       /\ check c = Some e
       /\ Forall (fun c' => check c' = None) done
       /\ figures s' = figures s ++ [done]
       /\ current s' = Some (List.length (figures s))
       /\ handles s' = handles s ++ [false; false; false])
  /\ (forall fs uwnd_file vwnd_file dew_file date cmap barb_color extent
             (s s' : @state A) e du dv dd ru rv rz,
        fs uwnd_file = Some du -> fs vwnd_file = Some dv ->
        fs dew_file = Some dd ->
        dew_selected libc du dv dd date ru rv rz ->
        weather_plot_dew check libc fs uwnd_file vwnd_file dew_file date
          cmap barb_color extent s = (Raise e, s') ->
        exists done c rest,
          plot_calls (List.length (figures s)) (nc_lon du) (nc_lat du)
            (minus rz 273.15) (divide ru 0.514) (divide rv 0.514)
            (arange_float 18.5 24.0 0.3) cmap barb_color extent dew_label
          = done ++ c :: rest
          /\ check c = Some e
          /\ Forall (fun c' => check c' = None) done
          /\ figures s' = figures s ++ [done]
          /\ current s' = Some (List.length (figures s))
          /\ handles s' = handles s ++ [false; false; false]).
Proof.
  split.
  - intros fs uwnd_file vwnd_file hgt_file level date cmap barb_color extent
      s s' e du dv dh ru rv rz Hu Hv Hh Hsel Hrun.
    erewrite weather_plot_hgt_run in Hrun by eassumption.
    assert (Hf : hgt_fields libc du dv dh level date
                 = Ok (nc_lon du, nc_lat du, rz,
                       divide ru 0.514, divide rv 0.514)).
    { apply hgt_fields_Ok. exists ru, rv. now repeat split. }
    rewrite Hf in Hrun. cbv zeta in Hrun.
    destruct (outcome check _) as [[]|e'] eqn:Eo; [discriminate|].
    inversion Hrun; subst e' s'. clear Hrun.
    destruct (outcome_Raise _ _ Eo)
      as (done & c & rest & Hcs & Hc & Hdone & Hacc & _).
    exists done, c, rest. repeat split; try assumption.
    unfold plotted. cbn [figures closed3]. now rewrite Hacc.
  - intros fs uwnd_file vwnd_file dew_file date cmap barb_color extent
      s s' e du dv dd ru rv rz Hu Hv Hd Hsel Hrun.
    erewrite weather_plot_dew_run in Hrun by eassumption.
    assert (Hf : dew_fields libc du dv dd date
                 = Ok (nc_lon du, nc_lat du, rz,
                       divide ru 0.514, divide rv 0.514)).
    { apply dew_fields_Ok. exists ru, rv. now repeat split. }
    rewrite Hf in Hrun. cbv zeta in Hrun.
    destruct (outcome check _) as [[]|e'] eqn:Eo; [discriminate|].
    inversion Hrun; subst e' s'. clear Hrun.
    destruct (outcome_Raise _ _ Eo)
      as (done & c & rest & Hcs & Hc & Hdone & Hacc & _).
    exists done, c, rest. repeat split; try assumption.
    unfold plotted. cbn [figures closed3]. now rewrite Hacc.
Qed.

(** X11: whatever a renderer does, it leaves what was there alone: the
    handles and the figures of the world before the call are still there,
    unchanged and in place, even when one of those figures was pyplot's
    current figure; the call adds at most three handles and one figure. *)
Theorem earlier_handles_and_figures_untouched :
  (forall fs uwnd_file vwnd_file hgt_file level date cmap barb_color extent
          (s s' : @state A) r,
     weather_plot_hgt check libc fs uwnd_file vwnd_file hgt_file level date
       cmap barb_color extent s = (r, s') ->
     exists hs fg,
       handles s' = handles s ++ hs /\ (List.length hs <= 3)%nat
       /\ figures s' = figures s ++ fg /\ (List.length fg <= 1)%nat
       /\ log s' = log s ++ new_events s s')
  /\ (forall fs uwnd_file vwnd_file dew_file date cmap barb_color extent
             (s s' : @state A) r,
        weather_plot_dew check libc fs uwnd_file vwnd_file dew_file date
          cmap barb_color extent s = (r, s') ->
        exists hs fg,
          handles s' = handles s ++ hs /\ (List.length hs <= 3)%nat
          /\ figures s' = figures s ++ fg /\ (List.length fg <= 1)%nat
          /\ log s' = log s ++ new_events s s').
Proof.
  assert (Hopened : forall k (s : @state A), (k <= 3)%nat ->
            exists hs fg,
              handles (opened k s) = handles s ++ hs
              /\ (List.length hs <= 3)%nat
              /\ figures (opened k s) = figures s ++ fg
              /\ (List.length fg <= 1)%nat
              /\ log (opened k s) = log s ++ new_events s (opened k s)).
  { intros k s Hk. exists (repeat true k), [].
    rewrite new_events_opened. unfold opened. cbn [handles figures log].
    rewrite repeat_length, app_nil_r. cbn [List.length].
    repeat split; [exact Hk | lia]. }
  assert (Hsame : forall s : @state A,
            exists hs fg,
              handles s = handles s ++ hs /\ (List.length hs <= 3)%nat
              /\ figures s = figures s ++ fg /\ (List.length fg <= 1)%nat
              /\ log s = log s ++ new_events s s).
  { intros s. exists [], []. unfold new_events.
    rewrite skipn_all, !app_nil_r. cbn [List.length].
    repeat split; lia. }
  assert (Hplotted : forall cs (s : @state A),
            exists hs fg,
              handles (plotted check cs (closed3 s)) = handles s ++ hs
              /\ (List.length hs <= 3)%nat
              /\ figures (plotted check cs (closed3 s)) = figures s ++ fg
              /\ (List.length fg <= 1)%nat
              /\ log (plotted check cs (closed3 s))
                 = log s ++ new_events s (plotted check cs (closed3 s))).
  { intros cs s. exists [false; false; false], [accepted check cs].
    rewrite new_events_plotted. unfold plotted, closed3.
    cbn [handles figures log List.length]. cbv zeta.
    rewrite <- app_assoc. repeat split; lia. }
  split.
  - intros fs uwnd_file vwnd_file hgt_file level date cmap barb_color extent
      s s' r Hrun.
    destruct (weather_plot_hgt_missing_exact check libc fs uwnd_file
                vwnd_file hgt_file level date cmap barb_color extent s)
      as (H0 & H1 & H2).
    destruct (fs uwnd_file) as [du|] eqn:Eu.
    2:{ rewrite (H0 eq_refl) in Hrun. inversion Hrun; subst. apply Hsame. }
    destruct (fs vwnd_file) as [dv|] eqn:Ev.
    2:{ rewrite H1 in Hrun by congruence. inversion Hrun; subst.
        apply Hopened. lia. }
    destruct (fs hgt_file) as [dh|] eqn:Eh.
    2:{ rewrite H2 in Hrun by congruence. inversion Hrun; subst.
        apply Hopened. lia. }
    eapply weather_plot_hgt_exit in Hrun; try eassumption.
    destruct Hrun
      as [[-> _]|(ru & rv & rz & _ & Hcs)].
    + apply Hopened. lia.
    + cbv zeta in Hcs. destruct Hcs as [-> _]. apply Hplotted.
  - intros fs uwnd_file vwnd_file dew_file date cmap barb_color extent
      s s' r Hrun.
    destruct (weather_plot_dew_missing_exact check libc fs uwnd_file
                vwnd_file dew_file date cmap barb_color extent s)
      as (H0 & H1 & H2).
    destruct (fs uwnd_file) as [du|] eqn:Eu.
    2:{ rewrite (H0 eq_refl) in Hrun. inversion Hrun; subst. apply Hsame. }
    destruct (fs vwnd_file) as [dv|] eqn:Ev.
    2:{ rewrite H1 in Hrun by congruence. inversion Hrun; subst.
        apply Hopened. lia. }
    destruct (fs dew_file) as [dd|] eqn:Ed.
    2:{ rewrite H2 in Hrun by congruence. inversion Hrun; subst.
        apply Hopened. lia. }
    eapply weather_plot_dew_exit in Hrun; try eassumption.
    destruct Hrun
      as [[-> _]|(ru & rv & rz & _ & Hcs)].
    + apply Hopened. lia.
    + cbv zeta in Hcs. destruct Hcs as [-> _]. apply Hplotted.
Qed.

End ExitStates.

Section Figures.

Context {A : Type} `{Sample A}.
Variable check : @call A -> option exn.
Variable libc : datetime.libc.

(** X12: the figure of a returning renderer holds, in this order: the
    extent when one was given and nothing otherwise, the filled contours of
    the field over the longitudes and latitudes of the u-wind file, the
    barbs, the eight map layers from the borders to the counties, the
    colour bar of the contours at shrink 0.7 and its label, which for the
    pressure-level renderer starts with the level in decimal; the figure is
    the last one made and pyplot's current figure. *)
Theorem returned_figure_contents :
  (forall fs uwnd_file vwnd_file hgt_file level date cmap barb_color extent
          (s s' : @state A) hgt ax,
     weather_plot_hgt check libc fs uwnd_file vwnd_file hgt_file level date
       cmap barb_color extent s = (Ok (hgt, ax), s') ->
     exists du dv dh ru rv,
       fs uwnd_file = Some du /\ fs vwnd_file = Some dv
       /\ fs hgt_file = Some dh
       /\ hgt_selected libc du dv dh level date ru rv hgt
       /\ nth_error (figures s') ax
          = Some
              (match extent with
               | Some e => [set_extent e]
               | None => []
               end
               ++ [contourf {| cs_x := nc_lon du; cs_y := nc_lat du;
                               cs_z := hgt;
                               cs_levels := arange_int 5910 6000 5;
                               cs_cmap := cmap |};
                   barbs (stride2 (nc_lon du)) (stride2 (nc_lat du))
                     (stride2 (divide ru 0.514)) (stride2 (divide rv 0.514))
                     barb_color 2.0;
                   add_feature BORDERS; add_feature COASTLINE;
                   add_feature OCEAN; add_feature LAND; add_feature LAKES;
                   add_feature RIVERS; add_feature (GSHHSFeature [1]);
                   add_feature (USCOUNTIES_with_scale "500k");
                   colorbar {| cs_x := nc_lon du; cs_y := nc_lat du;
                               cs_z := hgt;
                               cs_levels := arange_int 5910 6000 5;
                               cs_cmap := cmap |} 0.7 ax;
                   set_label
                     (str level ++ " mb Geopotential Height (meters)")])
       /\ List.length (figures s') = S ax
       /\ current s' = Some ax)
  /\ (forall fs uwnd_file vwnd_file dew_file date cmap barb_color extent
             (s s' : @state A) dew ax,
        weather_plot_dew check libc fs uwnd_file vwnd_file dew_file date
          cmap barb_color extent s = (Ok (dew, ax), s') ->
        exists du dv dd ru rv,
          fs uwnd_file = Some du /\ fs vwnd_file = Some dv
          /\ fs dew_file = Some dd
          /\ dew_selected libc du dv dd date ru rv dew
          /\ nth_error (figures s') ax
             = Some
                 (match extent with
                  | Some e => [set_extent e]
                  | None => []
                  end
                  ++ [contourf {| cs_x := nc_lon du; cs_y := nc_lat du;
                                  cs_z := minus dew 273.15;
                                  cs_levels := arange_float 18.5 24.0 0.3;
                                  cs_cmap := cmap |};
                      barbs (stride2 (nc_lon du)) (stride2 (nc_lat du))
                        (stride2 (divide ru 0.514))
                        (stride2 (divide rv 0.514)) barb_color 2.0;
                      add_feature BORDERS; add_feature COASTLINE;
                      add_feature OCEAN; add_feature LAND; add_feature LAKES;
                      add_feature RIVERS; add_feature (GSHHSFeature [1]);
                      add_feature (USCOUNTIES_with_scale "500k");
                      colorbar {| cs_x := nc_lon du; cs_y := nc_lat du;
                                  cs_z := minus dew 273.15;
                                  cs_levels := arange_float 18.5 24.0 0.3;
                                  cs_cmap := cmap |} 0.7 ax;
                      set_label "2-Meter Dewpoint (Celsius)"])
          /\ List.length (figures s') = S ax
          /\ current s' = Some ax).
Proof.
  split.
  - intros fs uwnd_file vwnd_file hgt_file level date cmap barb_color extent
      s s' hgt ax Hrun.
    apply weather_plot_hgt_returns in Hrun.
    destruct Hrun as (du & dv & dh & ru & rv & Hu & Hv & Hh & Hsel & -> & Hcs).
    cbv zeta in Hcs. destruct Hcs as [Hok ->].
    exists du, dv, dh, ru, rv.
    split; [exact Hu|]. split; [exact Hv|]. split; [exact Hh|].
    split; [exact Hsel|].
    unfold plotted. cbn [figures current closed3].
    destruct (outcome_Ok _ _ Hok) as [-> _].
    split; [|split; [|reflexivity]].
    + rewrite nth_error_app2 by lia. rewrite Nat.sub_diag.
      cbn [nth_error]. f_equal.
    + rewrite length_app. cbn [List.length]. lia.
  - intros fs uwnd_file vwnd_file dew_file date cmap barb_color extent
      s s' dew ax Hrun.
    apply weather_plot_dew_returns in Hrun.
    destruct Hrun as (du & dv & dd & ru & rv & Hu & Hv & Hd & Hsel & -> & Hcs).
    cbv zeta in Hcs. destruct Hcs as [Hok ->].
    exists du, dv, dd, ru, rv.
    split; [exact Hu|]. split; [exact Hv|]. split; [exact Hd|].
    split; [exact Hsel|].
    unfold plotted. cbn [figures current closed3].
    destruct (outcome_Ok _ _ Hok) as [-> _].
    split; [|split; [|reflexivity]].
    + rewrite nth_error_app2 by lia. rewrite Nat.sub_diag.
      cbn [nth_error]. f_equal.
    + rewrite length_app. cbn [List.length]. lia.
Qed.

(** X13: the barbs are drawn at every other grid point in both directions:
    each of the four arrays a renderer hands to [barbs] has half the rows
    and half the columns, rounded up, of the array it was taken from (the
    wind slices read from the files and the coordinates of the u-wind
    file); the division by 0.514 keeps the shape. *)
Theorem barbs_at_every_other_point :
  (forall fs uwnd_file vwnd_file hgt_file level date cmap barb_color extent
          (s s' : @state A) r fig x y u v color width,
     weather_plot_hgt check libc fs uwnd_file vwnd_file hgt_file level date
       cmap barb_color extent s = (r, s') ->
     In (Draw fig (barbs x y u v color width)) (new_events s s') ->
     exists du dv dh ru rv rz,
       fs uwnd_file = Some du /\ fs vwnd_file = Some dv
       /\ fs hgt_file = Some dh
       /\ hgt_selected libc du dv dh level date ru rv rz
       /\ shape x = (Nat.div2 (S (fst (shape (nc_lon du)))),
                     Nat.div2 (S (snd (shape (nc_lon du)))))
       /\ shape y = (Nat.div2 (S (fst (shape (nc_lat du)))),
                     Nat.div2 (S (snd (shape (nc_lat du)))))
       /\ shape u = (Nat.div2 (S (fst (shape ru))),
                     Nat.div2 (S (snd (shape ru))))
       /\ shape v = (Nat.div2 (S (fst (shape rv))),
                     Nat.div2 (S (snd (shape rv)))))
  /\ (forall fs uwnd_file vwnd_file dew_file date cmap barb_color extent
             (s s' : @state A) r fig x y u v color width,
        weather_plot_dew check libc fs uwnd_file vwnd_file dew_file date
          cmap barb_color extent s = (r, s') ->
        In (Draw fig (barbs x y u v color width)) (new_events s s') ->
        exists du dv dd ru rv rz,
          fs uwnd_file = Some du /\ fs vwnd_file = Some dv
          /\ fs dew_file = Some dd
          /\ dew_selected libc du dv dd date ru rv rz
          /\ shape x = (Nat.div2 (S (fst (shape (nc_lon du)))),
                        Nat.div2 (S (snd (shape (nc_lon du)))))
          /\ shape y = (Nat.div2 (S (fst (shape (nc_lat du)))),
                        Nat.div2 (S (snd (shape (nc_lat du)))))
          /\ shape u = (Nat.div2 (S (fst (shape ru))),
                        Nat.div2 (S (snd (shape ru))))
          /\ shape v = (Nat.div2 (S (fst (shape rv))),
                        Nat.div2 (S (snd (shape rv))))).
Proof.
  split.
  - intros fs uwnd_file vwnd_file hgt_file level date cmap barb_color extent
      s s' r fig x y u v color width Hrun Hin.
    eapply weather_plot_hgt_draws in Hin; [|exact Hrun].
    destruct Hin
      as (du & dv & dh & ru & rv & rz & Hu & Hv & Hh & Hsel & -> & Hc).
    apply barbs_in_plot_calls in Hc. destruct Hc as (-> & -> & -> & ->).
    exists du, dv, dh, ru, rv, rz.
    rewrite !shape_stride2, !shape_divide. repeat split; assumption.
  - intros fs uwnd_file vwnd_file dew_file date cmap barb_color extent
      s s' r fig x y u v color width Hrun Hin.
    eapply weather_plot_dew_draws in Hin; [|exact Hrun].
    destruct Hin
      as (du & dv & dd & ru & rv & rz & Hu & Hv & Hd & Hsel & -> & Hc).
    apply barbs_in_plot_calls in Hc. destruct Hc as (-> & -> & -> & ->).
    exists du, dv, dd, ru, rv, rz.
    rewrite !shape_stride2, !shape_divide. repeat split; assumption.
Qed.

End Figures.

(** ** The further properties on the example files *)

Lemma hgt_square_raises :
  hgt_square = (Raise ValueError, snd hgt_square).
Proof. vm_compute. reflexivity. Qed.

Lemma hgt_july19_again_returns :
  hgt_july19_again = (Ok (field 5910, 1%nat), snd hgt_july19_again).
Proof. vm_compute. reflexivity. Qed.

Lemma pressure_hours :
  Forall2 whole_hours (nc_time (pressure_file "uwnd" 0.514))
    [1933290; 1933293].
Proof. repeat constructor; unfold first_hour, last_hour; lia. Qed.

Lemma square_selected :
  hgt_selected datetime.Glibc (pressure_file "uwnd" 0.514) square_file
    (pressure_file "hgt" 5900) 500 july19
    (field 10.514) (square 2) (field 5910).
Proof.
  exists [july19; july19_21h], 0%nat, 1%nat.
  split; [vm_compute; reflexivity|]. split; [reflexivity|].
  split; [reflexivity|].
  split; [vm_compute; reflexivity|].
  split; vm_compute; reflexivity.
Qed.

Lemma hgt_july19_nuls_returns :
  hgt_july19_nuls = (Ok (field 5910, 0%nat), snd hgt_july19_nuls).
Proof. vm_compute. reflexivity. Qed.

(** On the example files a date without its seconds matches no analysis
    time. *)
Lemma date_of_other_length_never_matches_witness :
  (pressure_fs "uwnd.202007.nc" = Some (pressure_file "uwnd" 0.514)
   /\ pressure_fs "vwnd.202007.nc" = Some (pressure_file "vwnd" 2)
   /\ pressure_fs "hgt.202007.nc" = Some (pressure_file "hgt" 5900)
   /\ Forall2 whole_hours (nc_time (pressure_file "uwnd" 0.514))
        [1933290; 1933293]
   /\ String.length (rstrip_nul "2020-07-19 18:00") <> 19%nat)
  /\ weather_plot_hgt mpl_check datetime.Glibc pressure_fs
       "uwnd.202007.nc" "vwnd.202007.nc" "hgt.202007.nc" 500
       "2020-07-19 18:00" "Reds" "darkblue" None fresh
     = (Raise IndexError, opened 3 fresh).
Proof.
  assert (Hlen : String.length (rstrip_nul "2020-07-19 18:00") <> 19%nat)
    by (vm_compute; lia).
  split.
  - split; [reflexivity|]. split; [reflexivity|]. split; [reflexivity|].
    split; [exact pressure_hours | exact Hlen].
  - exact (proj1 (date_of_other_length_never_matches mpl_check
                    datetime.Glibc)
             pressure_fs "uwnd.202007.nc"%string "vwnd.202007.nc"%string
             "hgt.202007.nc"%string 500 "2020-07-19 18:00"%string
             "Reds"%string "darkblue"%string None fresh
             (pressure_file "uwnd" 0.514) (pressure_file "vwnd" 2)
             (pressure_file "hgt" 5900) [1933290; 1933293]
             eq_refl eq_refl eq_refl pressure_hours Hlen).
Defined.

(** On the example files the call of July 19th with three NULs after its
    date took the first analysis time, whose text is the date without the
    NULs, and the second level; no earlier entry is the date or the
    level. *)
Lemma lookup_selects_first_match_witness :
  hgt_july19_nuls = (Ok (field 5910, 0%nat), snd hgt_july19_nuls)
  /\ exists du dh time t l,
       pressure_fs "uwnd.202007.nc" = Some du
       /\ pressure_fs "hgt.202007.nc" = Some dh
       /\ time_convert datetime.Glibc du = Ok time
       /\ nth_error time t = Some (rstrip_nul july19_nuls)
       /\ (forall j, (j < t)%nat ->
                     nth_error time j <> Some (rstrip_nul july19_nuls))
       /\ nth_error (nc_level du) l = Some 500
       /\ (forall j, (j < l)%nat -> nth_error (nc_level du) j <> Some 500)
       /\ item4 dh "hgt" t l = Ok (field 5910).
Proof.
  split; [exact hgt_july19_nuls_returns|].
  exact (proj1 (lookup_selects_first_match mpl_check datetime.Glibc)
           _ _ _ _ _ _ _ _ _ _ _ _ _ hgt_july19_nuls_returns).
Defined.

(** On the example files a v-wind path that names no file stops the
    renderer with the u-wind file open. *)
Lemma missing_file_leaves_earlier_files_open_witness :
  (pressure_fs "uwnd.202007.nc" <> None /\ pressure_fs "vwnd.none.nc" = None)
  /\ weather_plot_hgt mpl_check datetime.Glibc pressure_fs
       "uwnd.202007.nc" "vwnd.none.nc" "hgt.202007.nc" 500 july19
       "Reds" "darkblue" None fresh
     = (Raise FileNotFoundError,
        {| handles := handles fresh ++ [true];
           figures := figures fresh;
           current := current fresh;
           log := log fresh ++ [Opened (List.length (handles fresh))] |}).
Proof.
  assert (Hu : pressure_fs "uwnd.202007.nc" <> None)
    by (vm_compute; discriminate).
  split; [split; [exact Hu | reflexivity]|].
  exact (proj1 (proj2 (proj1 (missing_file_leaves_earlier_files_open
                                mpl_check datetime.Glibc)
                         pressure_fs "uwnd.202007.nc"%string
                         "vwnd.none.nc"%string "hgt.202007.nc"%string 500
                         july19 "Reds"%string "darkblue"%string None fresh))
           Hu eq_refl).
Defined.

(** A u-wind file with a missing value in its time axis: the decoder's
    [ValueError] is the renderer's, though the date asked for comes before
    the missing value. *)
Lemma decoder_error_propagates_witness :
  (odd_fs "uwnd.undated.nc" = Some undated_file
   /\ odd_fs "vwnd.202007.nc" = Some (pressure_file "vwnd" 2)
   /\ odd_fs "hgt.202007.nc" = Some (pressure_file "hgt" 5900)
   /\ time_convert datetime.Glibc undated_file = Raise ValueError)
  /\ weather_plot_hgt mpl_check datetime.Glibc odd_fs
       "uwnd.undated.nc" "vwnd.202007.nc" "hgt.202007.nc" 500 july19
       "Reds" "darkblue" None fresh
     = (Raise ValueError, opened 3 fresh).
Proof.
  assert (Ht : time_convert datetime.Glibc undated_file = Raise ValueError)
    by (vm_compute; reflexivity).
  split.
  - split; [reflexivity|]. split; [reflexivity|].
    split; [reflexivity | exact Ht].
  - exact (proj1 (decoder_error_propagates mpl_check datetime.Glibc)
             odd_fs "uwnd.undated.nc"%string "vwnd.202007.nc"%string
             "hgt.202007.nc"%string 500 july19 "Reds"%string
             "darkblue"%string None fresh
             undated_file (pressure_file "vwnd" 2)
             (pressure_file "hgt" 5900) ValueError
             eq_refl eq_refl eq_refl Ht).
Defined.

(** The call on the v-wind file of the other grid raised after its figure
    was made: it is in the second case, files closed and one new figure. *)
Lemma files_closed_iff_figure_made_witness :
  (odd_fs "uwnd.202007.nc" = Some (pressure_file "uwnd" 0.514)
   /\ odd_fs "vwnd.square.nc" = Some square_file
   /\ odd_fs "hgt.202007.nc" = Some (pressure_file "hgt" 5900)
   /\ hgt_square = (Raise ValueError, snd hgt_square))
  /\ ((handles (snd hgt_square) = handles fresh ++ [true; true; true]
       /\ figures (snd hgt_square) = figures fresh
       /\ current (snd hgt_square) = current fresh
       /\ exists e, Raise (A := grid float * nat) ValueError = Raise e)
      \/ (handles (snd hgt_square) = handles fresh ++ [false; false; false]
          /\ (exists drawn,
                figures (snd hgt_square) = figures fresh ++ [drawn])
          /\ current (snd hgt_square)
             = Some (List.length (figures fresh)))).
Proof.
  split.
  - split; [reflexivity|]. split; [reflexivity|].
    split; [reflexivity | exact hgt_square_raises].
  - exact (proj1 (files_closed_iff_figure_made mpl_check datetime.Glibc)
             odd_fs "uwnd.202007.nc"%string "vwnd.square.nc"%string
             "hgt.202007.nc"%string 500 july19 "Reds"%string
             "darkblue"%string (Some [-89.0; -85.0; 31.0; 36.0]%float)
             fresh (snd hgt_square) (Raise ValueError)
             (pressure_file "uwnd" 0.514) square_file
             (pressure_file "hgt" 5900)
             eq_refl eq_refl eq_refl hgt_square_raises).
Defined.

(** With a v-wind file on a grid of three rows and three columns the
    library rejects the barbs: the figure left behind holds the calls made
    before them. *)
Lemma rejected_call_leaves_partial_figure_witness :
  (odd_fs "uwnd.202007.nc" = Some (pressure_file "uwnd" 0.514)
   /\ odd_fs "vwnd.square.nc" = Some square_file
   /\ odd_fs "hgt.202007.nc" = Some (pressure_file "hgt" 5900)
   /\ hgt_selected datetime.Glibc (pressure_file "uwnd" 0.514) square_file
        (pressure_file "hgt" 5900) 500 july19
        (field 10.514) (square 2) (field 5910)
   /\ hgt_square = (Raise ValueError, snd hgt_square))
  /\ exists done c rest,
       plot_calls (List.length (figures fresh))
         (nc_lon (pressure_file "uwnd" 0.514))
         (nc_lat (pressure_file "uwnd" 0.514)) (field 5910)
         (divide (field 10.514) 0.514) (divide (square 2) 0.514)
         (arange_int 5910 6000 5) "Reds" "darkblue"
         (Some [-89.0; -85.0; 31.0; 36.0]%float) (hgt_label 500)
       = done ++ c :: rest
       /\ mpl_check c = Some ValueError
       /\ Forall (fun c' => mpl_check c' = None) done
       /\ figures (snd hgt_square) = figures fresh ++ [done]
       /\ current (snd hgt_square) = Some (List.length (figures fresh))
       /\ handles (snd hgt_square)
          = handles fresh ++ [false; false; false].
Proof.
  split.
  - split; [reflexivity|]. split; [reflexivity|]. split; [reflexivity|].
    split; [exact square_selected | exact hgt_square_raises].
  - exact (proj1 (rejected_call_leaves_partial_figure mpl_check
                    datetime.Glibc)
             odd_fs "uwnd.202007.nc"%string "vwnd.square.nc"%string
             "hgt.202007.nc"%string 500 july19 "Reds"%string
             "darkblue"%string (Some [-89.0; -85.0; 31.0; 36.0]%float)
             fresh (snd hgt_square) ValueError
             (pressure_file "uwnd" 0.514) square_file
             (pressure_file "hgt" 5900)
             (field 10.514) (square 2) (field 5910)
             eq_refl eq_refl eq_refl square_selected hgt_square_raises).
Defined.

(** A second call of July 19th keeps the three handles and the figure of
    the first. *)
Lemma earlier_handles_and_figures_untouched_witness :
  hgt_july19_again = (Ok (field 5910, 1%nat), snd hgt_july19_again)
  /\ exists hs fg,
       handles (snd hgt_july19_again) = handles (snd hgt_july19) ++ hs
       /\ (List.length hs <= 3)%nat
       /\ figures (snd hgt_july19_again) = figures (snd hgt_july19) ++ fg
       /\ (List.length fg <= 1)%nat
       /\ log (snd hgt_july19_again)
          = log (snd hgt_july19)
            ++ new_events (snd hgt_july19) (snd hgt_july19_again).
Proof.
  split; [exact hgt_july19_again_returns|].
  exact (proj1 (earlier_handles_and_figures_untouched mpl_check
                  datetime.Glibc)
           _ _ _ _ _ _ _ _ _ _ _ _ hgt_july19_again_returns).
Defined.

(** The figure of the call of July 19th is the only figure and the current
    one. *)
Lemma returned_figure_contents_witness :
  hgt_july19 = (Ok (field 5910, 0%nat), snd hgt_july19)
  /\ exists drawn,
       nth_error (figures (snd hgt_july19)) 0 = Some drawn
       /\ List.length (figures (snd hgt_july19)) = 1%nat
       /\ current (snd hgt_july19) = Some 0%nat.
Proof.
  split; [exact hgt_july19_returns|].
  destruct (proj1 (returned_figure_contents mpl_check datetime.Glibc)
              _ _ _ _ _ _ _ _ _ _ _ _ _ hgt_july19_returns)
    as (du & dv & dh & ru & rv & _ & _ & _ & _ & Hfig & Hlen & Hcur).
  eexists. split; [exact Hfig|]. split; [exact Hlen | exact Hcur].
Defined.

(** On the example files, of two rows and three columns, the barbs of the
    call of July 19th are on one row and two columns. *)
Lemma barbs_at_every_other_point_witness :
  (hgt_july19 = (Ok (field 5910, 0%nat), snd hgt_july19)
   /\ In (Draw 0%nat
            (barbs (stride2 narr_lon) (stride2 narr_lat)
               (stride2 (divide (field 10.514) 0.514))
               (stride2 (divide (field 12) 0.514))
               "darkblue" 2.0))
        (new_events fresh (snd hgt_july19)))
  /\ exists du (ru rv : grid float),
       pressure_fs "uwnd.202007.nc" = Some du
       /\ shape (stride2 narr_lon)
          = (Nat.div2 (S (fst (shape (nc_lon du)))),
             Nat.div2 (S (snd (shape (nc_lon du)))))
       /\ shape (stride2 narr_lat)
          = (Nat.div2 (S (fst (shape (nc_lat du)))),
             Nat.div2 (S (snd (shape (nc_lat du)))))
       /\ shape (stride2 (divide (field 10.514) 0.514))
          = (Nat.div2 (S (fst (shape ru))), Nat.div2 (S (snd (shape ru))))
       /\ shape (stride2 (divide (field 12) 0.514))
          = (Nat.div2 (S (fst (shape rv))), Nat.div2 (S (snd (shape rv)))).
Proof.
  assert (Hin : In (Draw 0%nat
                      (barbs (stride2 narr_lon) (stride2 narr_lat)
                         (stride2 (divide (field 10.514) 0.514))
                         (stride2 (divide (field 12) 0.514))
                         "darkblue" 2.0))
                  (new_events fresh (snd hgt_july19))).
  { apply (nth_error_In _ 9). vm_compute. reflexivity. }
  split; [split; [exact hgt_july19_returns | exact Hin]|].
  destruct (proj1 (barbs_at_every_other_point mpl_check datetime.Glibc)
              _ _ _ _ _ _ _ _ _ _ _ _ _ _ _ _ _ _ _
              hgt_july19_returns Hin)
    as (du & dv & dh & ru & rv & rz & Hu & _ & _ & _ & Hx & Hy & Hru & Hrv).
  exists du, ru, rv.
  split; [exact Hu|]. split; [exact Hx|]. split; [exact Hy|].
  split; [exact Hru | exact Hrv].
Defined.

(** ** The calendar, and what the decoder's strings tell *)

Module calendar_facts.
Import datetime.

(** The days before a year, by its place in the cycles of 400, 100 and 4
    years. *)
Lemma days_before_year_cycles a b c d :
  0 <= b <= 3 -> 0 <= c <= 24 -> 0 <= d <= 3 ->
  days_before_year (a * 400 + 1 + b * 100 + c * 4 + d)
  = 146097 * a + 36524 * b + 1461 * c + 365 * d.
Proof.
  intros Hb Hc Hd. unfold days_before_year. cbv zeta.
  Z.div_mod_to_equations. lia.
Qed.

Lemma is_leap_cycles a b c d :
  0 <= b <= 3 -> 0 <= c <= 24 -> 0 <= d <= 3 ->
  is_leap (a * 400 + 1 + b * 100 + c * 4 + d)
  = (d =? 3) && (negb (c =? 24) || (b =? 3)).
Proof.
  intros Hb Hc Hd. unfold is_leap.
  destruct (d =? 3) eqn:Ed, (c =? 24) eqn:Ec, (b =? 3) eqn:Eb;
    cbn [negb orb andb];
    repeat match goal with
           | |- context [?x =? ?y] => destruct (x =? y) eqn:?
           end; cbn [negb orb andb]; try reflexivity;
    repeat match goal with
           | H : (_ =? _) = true |- _ => apply Z.eqb_eq in H
           | H : (_ =? _) = false |- _ => apply Z.eqb_neq in H
           end; exfalso; Z.div_mod_to_equations; lia.
Qed.

Ltac month_tables :=
  repeat match goal with
         | |- context [table ?t ?k] =>
             let v := eval vm_compute in (table t k) in
             change (table t k) with v
         | |- context [2 <? ?k] =>
             let v := eval vm_compute in (2 <? k) in
             change (2 <? k) with v
         | |- context [?k - 1 =? 2] =>
             let v := eval vm_compute in (k - 1 =? 2) in
             change (k - 1 =? 2) with v
         end.

(** [ord2ymd] inverts [ymd2ord], and gives a date of the calendar. *)
Lemma ord2ymd_inv n y m d :
  1 <= n <= MAXORDINAL -> ord2ymd n = (y, m, d) ->
  ymd2ord y m d = n /\ 1 <= y <= 9999 /\ 1 <= m <= 12 /\ 1 <= d <= 31.
Proof.
  unfold MAXORDINAL, ord2ymd, DI400Y, DI100Y, DI4Y. cbv zeta. intros Hn.
  pose proof (Z.div_mod (n - 1) 146097 ltac:(lia)) as E1.
  pose proof (Z.mod_pos_bound (n - 1) 146097 ltac:(lia)) as B1.
  set (a := (n - 1) / 146097) in *. set (r1 := (n - 1) mod 146097) in *.
  pose proof (Z.div_mod r1 36524 ltac:(lia)) as E2.
  pose proof (Z.mod_pos_bound r1 36524 ltac:(lia)) as B2.
  set (b := r1 / 36524) in *. set (r2 := r1 mod 36524) in *.
  pose proof (Z.div_mod r2 1461 ltac:(lia)) as E3.
  pose proof (Z.mod_pos_bound r2 1461 ltac:(lia)) as B3.
  set (c := r2 / 1461) in *. set (r3 := r2 mod 1461) in *.
  pose proof (Z.div_mod r3 365 ltac:(lia)) as E4.
  pose proof (Z.mod_pos_bound r3 365 ltac:(lia)) as B4.
  set (e := r3 / 365) in *. set (r4 := r3 mod 365) in *.
  clearbody a r1 b r2 c r3 e r4.
  assert (Ha : 0 <= a <= 24) by lia.
  assert (Hb : 0 <= b <= 4) by lia.
  assert (Hc : 0 <= c <= 24) by lia.
  assert (He : 0 <= e <= 4) by lia.
  destruct ((e =? 4) || (b =? 4)) eqn:Elast.
  - intros Hymd. inversion Hymd; subst y m d. clear Hymd.
    unfold ymd2ord, days_before_month.
    change (table DAYS_BEFORE_MONTH 12) with 334.
    change (2 <? 12) with true. cbn [andb].
    apply orb_true_iff in Elast. destruct Elast as [E|E]; apply Z.eqb_eq in E.
    + assert (Hc' : c <= 23) by lia.
      assert (Hb' : b <= 3) by lia.
      replace (a * 400 + 1 + b * 100 + c * 4 + e - 1)
        with (a * 400 + 1 + b * 100 + c * 4 + 3) by lia.
      rewrite days_before_year_cycles, is_leap_cycles by lia.
      replace (c =? 24) with false by (symmetry; apply Z.eqb_neq; lia).
      change (3 =? 3) with true. change (24 =? 24) with true.
      cbn [negb andb orb]. lia.
    + assert (r2 = 0 /\ c = 0 /\ e = 0 /\ r4 = 0) as (-> & -> & -> & ->)
        by lia.
      subst b.
      replace (a * 400 + 1 + 4 * 100 + 0 * 4 + 0 - 1)
        with (a * 400 + 1 + 3 * 100 + 24 * 4 + 3) by lia.
      rewrite days_before_year_cycles, is_leap_cycles by lia.
      change (3 =? 3) with true. change (24 =? 24) with true.
      cbn [negb andb orb]. lia.
  - apply orb_false_iff in Elast. destruct Elast as [Ee4 Eb4].
    apply Z.eqb_neq in Ee4, Eb4.
    assert (Hdby := @days_before_year_cycles a b c e ltac:(lia) ltac:(lia)
                      ltac:(lia)).
    assert (Hleap := @is_leap_cycles a b c e ltac:(lia) ltac:(lia)
                       ltac:(lia)).
    set (y0 := a * 400 + 1 + b * 100 + c * 4 + e) in *.
    set (leap := (e =? 3) && (negb (c =? 24) || (b =? 3))) in *.
    assert (Hy0 : 1 <= y0 <= 9999) by (subst y0; lia).
    rewrite Z.shiftr_div_pow2 by lia. change (2 ^ 5) with 32.
    pose proof (Z.div_mod (r4 + 50) 32 ltac:(lia)) as E5.
    pose proof (Z.mod_pos_bound (r4 + 50) 32 ltac:(lia)) as B5.
    set (m0 := (r4 + 50) / 32) in *. clearbody m0.
    assert (Hm0 : m0 = 1 \/ m0 = 2 \/ m0 = 3 \/ m0 = 4 \/ m0 = 5 \/ m0 = 6
                  \/ m0 = 7 \/ m0 = 8 \/ m0 = 9 \/ m0 = 10 \/ m0 = 11
                  \/ m0 = 12) by lia.
    unfold ymd2ord, days_before_month.
    clearbody leap y0.
    repeat destruct Hm0 as [->|Hm0]; try subst m0;
      month_tables; cbn [andb]; destruct leap;
      match goal with
      | |- context [?x <? ?p] => destruct (Z.ltb_spec x p)
      end;
      intros Hymd; inversion Hymd; subst y m d; clear Hymd;
      rewrite ?Hleap; month_tables; cbn [andb]; lia.
Qed.

(** Zero-padded numbers of one width are equal only when the numbers
    are. *)
Lemma zero_padded_inj width n n' tail tail' :
  0 <= n < 10 ^ Z.of_nat width -> 0 <= n' < 10 ^ Z.of_nat width ->
  zero_padded width n tail = zero_padded width n' tail' ->
  n = n' /\ tail = tail'.
Proof.
  revert n n' tail tail'.
  induction width as [|w IH]; intros n n' tail tail' Hn Hn' Heq.
  - cbn in Hn, Hn'. cbn [zero_padded] in Heq. split; [lia | exact Heq].
  - rewrite Nat2Z.inj_succ, Z.pow_succ_r in Hn, Hn' by lia.
    cbn [zero_padded] in Heq.
    apply IH in Heq; [|Z.div_mod_to_equations; lia..].
    destruct Heq as [Hdiv Htail]. inversion Htail as [[Hdigit Ht]].
    split; [|reflexivity].
    unfold digit in Hdigit.
    apply (f_equal nat_of_ascii) in Hdigit.
    rewrite !nat_ascii_embedding in Hdigit
      by (pose proof (Z.mod_pos_bound n 10); pose proof (Z.mod_pos_bound n' 10);
          lia).
    Z.div_mod_to_equations. lia.
Qed.

Lemma field_inj width n n' sep sep' tail tail' :
  0 <= n < 10 ^ Z.of_nat width -> 0 <= n' < 10 ^ Z.of_nat width ->
  zero_padded width n (String sep tail)
  = zero_padded width n' (String sep' tail') ->
  n = n' /\ tail = tail'.
Proof.
  intros Hn Hn' Heq. apply zero_padded_inj in Heq; [|assumption..].
  destruct Heq as [Hnn Htail]. split; [exact Hnn|]. now inversion Htail.
Qed.

Lemma strftime_inj t t' :
  0 <= year t < 10000 -> 0 <= year t' < 10000 ->
  0 <= month t < 100 -> 0 <= month t' < 100 ->
  0 <= day t < 100 -> 0 <= day t' < 100 ->
  0 <= hour t < 100 -> 0 <= hour t' < 100 ->
  0 <= minute t < 100 -> 0 <= minute t' < 100 ->
  0 <= second t < 100 -> 0 <= second t' < 100 ->
  strftime Padded t = strftime Padded t' -> t = t'.
Proof.
  destruct t as [y m d h mi s], t' as [y' m' d' h' mi' s'].
  cbn [year month day hour minute second]. unfold strftime.
  cbn [year month day hour minute second year_digits].
  intros Hy Hy' Hm Hm' Hd Hd' Hh Hh' Hmi Hmi' Hs Hs' Heq.
  apply field_inj in Heq; [|assumption..]. destruct Heq as [-> Heq].
  apply field_inj in Heq; [|assumption..]. destruct Heq as [-> Heq].
  apply field_inj in Heq; [|assumption..]. destruct Heq as [-> Heq].
  apply field_inj in Heq; [|assumption..]. destruct Heq as [-> Heq].
  apply field_inj in Heq; [|assumption..]. destruct Heq as [-> Heq].
  apply zero_padded_inj in Heq; [|assumption..]. destruct Heq as [-> _].
  reflexivity.
Qed.

Lemma hours_after_epoch_fields n :
  earliest_hour <= n <= last_hour ->
  toordinal (hours_after_epoch n) = 657072 + n / 24
  /\ hour (hours_after_epoch n) = n mod 24
  /\ minute (hours_after_epoch n) = 0
  /\ second (hours_after_epoch n) = 0
  /\ 1 <= year (hours_after_epoch n) <= 9999
  /\ 1 <= month (hours_after_epoch n) <= 12
  /\ 1 <= day (hours_after_epoch n) <= 31.
Proof.
  unfold earliest_hour, last_hour. intros Hn.
  unfold hours_after_epoch, toordinal.
  change (ymd2ord 1800 1 1) with 657072.
  destruct (ord2ymd (657072 + n / 24)) as [[y m] d] eqn:E.
  cbn [year month day hour minute second].
  apply ord2ymd_inv in E.
  2:{ unfold MAXORDINAL. Z.div_mod_to_equations. lia. }
  destruct E as (Hord & Hy & Hm & Hd).
  repeat split; try assumption; lia.
Qed.

Lemma stamp_inj n n' :
  earliest_hour <= n <= last_hour -> earliest_hour <= n' <= last_hour ->
  stamp n = stamp n' -> n = n'.
Proof.
  intros Hn Hn' Heq.
  destruct (hours_after_epoch_fields Hn)
    as (Ho & Hh & Hmi & Hs & Hy & Hm & Hd).
  destruct (hours_after_epoch_fields Hn')
    as (Ho' & Hh' & Hmi' & Hs' & Hy' & Hm' & Hd').
  unfold stamp in Heq. apply strftime_inj in Heq; try lia.
  - rewrite Heq in Ho, Hh. rewrite Ho in Ho'. rewrite Hh in Hh'.
    Z.div_mod_to_equations. lia.
  - pose proof (Z.mod_pos_bound n 24). lia.
  - pose proof (Z.mod_pos_bound n' 24). lia.
Qed.

Lemma ends_with_String a tail rest :
  (exists p, tail = (p ++ rest)%string) ->
  exists p, String a tail = (p ++ rest)%string.
Proof. intros (p & ->). now exists (String a p). Qed.

Lemma ends_with_zero_padded width n tail rest :
  (exists p, tail = (p ++ rest)%string) ->
  exists p, zero_padded width n tail = (p ++ rest)%string.
Proof.
  revert n tail. induction width as [|w IH]; intros n tail Htail;
    [exact Htail|].
  cbn [zero_padded]. apply IH. now apply ends_with_String.
Qed.

(** The text of a moment on the hour: a date, a blank, the hour in two
    digits and [:00:00]. *)
Lemma strftime_on_the_hour c t :
  minute t = 0 -> second t = 0 ->
  exists ymd,
    strftime c t
    = (ymd ++ String " " (zero_padded 2 (hour t) ":00:00"))%string.
Proof.
  intros Hmi Hs. unfold strftime. rewrite Hmi, Hs.
  apply ends_with_zero_padded, ends_with_String.
  apply ends_with_zero_padded, ends_with_String.
  apply ends_with_zero_padded.
  exists EmptyString. reflexivity.
Qed.

End calendar_facts.

Lemma whole_hours_range (times : list float) (hours : list Z) :
  Forall2 whole_hours times hours ->
  Forall (fun n => earliest_hour <= n <= last_hour) hours.
Proof.
  induction 1 as [|x n ? ? [_ Hn] _ IH]; constructor; [|exact IH].
  unfold earliest_hour, first_hour in *. lia.
Qed.

Lemma stamps_NoDup (hours : list Z) :
  Forall (fun n => earliest_hour <= n <= last_hour) hours ->
  NoDup hours -> NoDup (map stamp hours).
Proof.
  induction 1 as [|n hours Hn Hrange IH]; intros Hnd; [constructor|].
  inversion Hnd as [|? ? Hnotin Hnd']; subst. cbn [map]. constructor.
  - intros Hin. apply in_map_iff in Hin. destruct Hin as (n' & Heq & Hin).
    apply Hnotin. rewrite Forall_forall in Hrange.
    now rewrite <- (calendar_facts.stamp_inj (Hrange _ Hin) Hn Heq).
  - exact (IH Hnd').
Qed.

Lemma comprehension_same {X Y Z' : Type} (f : X -> result Z')
  (g : Y -> result Z') l l' :
  Forall2 (fun a b => f a = g b) l l' ->
  comprehension f l = comprehension g l'.
Proof.
  induction 1 as [|a b l l' Hab _ IH]; [reflexivity|].
  cbn [comprehension]. now rewrite Hab, IH.
Qed.

(** X14: hours that differ decode to strings that differ.  On a time axis
    within the years 1000 to 9999 two entries of the returned sequence are
    equal only where the truncated offsets are, so a time axis of distinct
    whole hours decodes to distinct strings, on every platform. *)
Theorem distinct_hours_distinct_strings :
  forall (A V : Type) (c : datetime.libc) (file : netcdf A V)
         (hours : list Z),
    Forall2 whole_hours (nc_time file) hours ->
    exists l,
      time_convert c file = Ok l
      /\ (forall i j n n',
            nth_error hours i = Some n -> nth_error hours j = Some n' ->
            nth_error l i = nth_error l j -> n = n')
      /\ (NoDup hours -> NoDup l).
Proof.
  intros A V c file hours Hhours. exists (map stamp hours).
  pose proof (whole_hours_range Hhours) as Hrange.
  split; [|split].
  - rewrite (time_convert_ok c file (whole_hours_decodable Hhours)).
    now rewrite (whole_hours_stamp c Hhours).
  - intros i j n n' Hi Hj Heq.
    rewrite (map_nth_error stamp _ _ Hi), (map_nth_error stamp _ _ Hj) in Heq.
    apply (f_equal (fun o => match o with
                             | Some s => s
                             | None => EmptyString
                             end)) in Heq.
    cbv beta iota in Heq. rewrite Forall_forall in Hrange.
    apply (calendar_facts.stamp_inj (Hrange _ (nth_error_In _ _ Hi))
             (Hrange _ (nth_error_In _ _ Hj)) Heq).
  - now apply stamps_NoDup.
Qed.

(** X15: every string [time_convert] returns is on the hour: it ends in a
    blank, the truncated offset modulo 24 in two digits (so 23 for an
    offset of -1) and [:00:00], on every platform. *)
Theorem decoded_time_of_day :
  forall (A V : Type) (c : datetime.libc) (file : netcdf A V)
         (l : list string),
    time_convert c file = Ok l ->
    exists hours,
      Forall2 decodable (nc_time file) hours
      /\ Forall2
           (fun n s =>
              exists ymd,
                s = (ymd ++ String " "
                       (datetime.zero_padded 2 (n mod 24) ":00:00"))%string)
           hours l.
Proof.
  intros A V c file l Hl.
  destruct (time_convert_inv c file Hl) as (hours & Hh & ->).
  exists hours. split; [exact Hh|].
  clear Hh Hl. induction hours as [|n hours IH]; cbn [map]; constructor;
    [|exact IH].
  destruct (@calendar_facts.strftime_on_the_hour c (hours_after_epoch n))
    as (ymd & Hymd).
  - unfold hours_after_epoch. now destruct (datetime.ord2ymd _) as [[y m] d].
  - unfold hours_after_epoch. now destruct (datetime.ord2ymd _) as [[y m] d].
  - exists ymd. rewrite Hymd. f_equal. f_equal. f_equal.
    unfold hours_after_epoch. now destruct (datetime.ord2ymd _) as [[y m] d].
Qed.

(** X16: the decoder sees an offset through [int] only: two time axes
    whose offsets truncate alike, entry by entry, have the same outcome,
    strings or exception. *)
Theorem fraction_of_an_hour_is_dropped :
  forall (A V A' V' : Type) (c : datetime.libc) (file : netcdf A V)
         (file' : netcdf A' V'),
    Forall2 (fun x y => int x = int y) (nc_time file) (nc_time file') ->
    time_convert c file = time_convert c file'.
Proof.
  intros A V A' V' c file file' Hint. unfold time_convert.
  erewrite comprehension_same; [reflexivity|].
  eapply Forall2_impl; [|exact Hint].
  intros x y Hxy. cbv beta. now rewrite Hxy.
Qed.

Lemma only_match (hours : list Z) (text : string) t :
  Forall (fun n => earliest_hour <= n <= last_hour) hours ->
  NoDup hours ->
  nth_error (map stamp hours) t = Some text ->
  exists n,
    nth_error hours t = Some n /\ stamp n = text
    /\ forall j n', nth_error hours j = Some n' -> stamp n' = text -> j = t.
Proof.
  intros Hrange Hnd Ht.
  rewrite nth_error_map in Ht.
  destruct (nth_error hours t) as [n|] eqn:En; [|discriminate].
  cbn [option_map] in Ht.
  apply (f_equal (fun o => match o with
                           | Some s => s
                           | None => EmptyString
                           end)) in Ht.
  cbv beta iota in Ht.
  exists n. split; [reflexivity|]. split; [exact Ht|].
  intros j n' Hj Hdate. rewrite Forall_forall in Hrange.
  assert (Hnn : n' = n).
  { apply calendar_facts.stamp_inj.
    - exact (Hrange _ (nth_error_In _ _ Hj)).
    - exact (Hrange _ (nth_error_In _ _ En)).
    - now rewrite Ht. }
  subst n'. rewrite NoDup_nth_error in Hnd. apply Hnd.
  - apply nth_error_Some. now rewrite Hj.
  - now rewrite Hj, En.
Qed.

Section UniqueMatch.

Context {A : Type} `{Sample A}.
Variable check : @call A -> option exn.
Variable libc : datetime.libc.

(** X17: on a u-wind file whose time axis holds distinct whole hours
    within the years 1000 to 9999, the text of the date of a returning
    renderer (the date without the NULs at its end) is the text of exactly
    one of them: the field returned is the slice at the only index whose
    hour decodes to it. *)
Theorem matching_date_is_unique :
  (forall fs uwnd_file vwnd_file hgt_file level date cmap barb_color extent
          (s s' : @state A) hgt ax du hours,
     fs uwnd_file = Some du ->
     Forall2 whole_hours (nc_time du) hours -> NoDup hours ->
     weather_plot_hgt check libc fs uwnd_file vwnd_file hgt_file level date
       cmap barb_color extent s = (Ok (hgt, ax), s') ->
     exists dh t n l,
       fs hgt_file = Some dh
       /\ nth_error hours t = Some n /\ stamp n = rstrip_nul date
       /\ (forall j n',
             nth_error hours j = Some n' -> stamp n' = rstrip_nul date ->
             j = t)
       /\ item4 dh "hgt" t l = Ok hgt)
  /\ (forall fs uwnd_file vwnd_file dew_file date cmap barb_color extent
             (s s' : @state A) dew ax du hours,
        fs uwnd_file = Some du ->
        Forall2 whole_hours (nc_time du) hours -> NoDup hours ->
        weather_plot_dew check libc fs uwnd_file vwnd_file dew_file date
          cmap barb_color extent s = (Ok (dew, ax), s') ->
        exists dd t n,
          fs dew_file = Some dd
          /\ nth_error hours t = Some n /\ stamp n = rstrip_nul date
          /\ (forall j n',
                nth_error hours j = Some n' -> stamp n' = rstrip_nul date ->
                j = t)
          /\ item3 dd "dpt" t = Ok dew).
Proof.
  split.
  - intros fs uwnd_file vwnd_file hgt_file level date cmap barb_color extent
      s s' hgt ax du hours Hdu Hhours Hnd Hrun.
    apply weather_plot_hgt_returns in Hrun.
    destruct Hrun as (du' & dv & dh & ru & rv & Hu & Hv & Hh & Hsel & _).
    rewrite Hdu in Hu. inversion Hu; subst du'. clear Hu.
    destruct Hsel as (time & t & l & Ht & Hw & Hl & Hru & Hrv & Hrz).
    pose proof (numpy_facts.time_convert_unpadded _ _ Ht) as Htime.
    rewrite (time_convert_ok libc du (whole_hours_decodable Hhours)) in Ht.
    rewrite (whole_hours_stamp libc Hhours) in Ht.
    inversion Ht; subst time. clear Ht.
    destruct (where_first_date _ Htime Hw) as [Hx _].
    destruct (@only_match hours (rstrip_nul date) t
                (whole_hours_range Hhours) Hnd Hx)
      as (n & Hn & Hdate & Honly).
    exists dh, t, n, l. repeat split; assumption.
  - intros fs uwnd_file vwnd_file dew_file date cmap barb_color extent
      s s' dew ax du hours Hdu Hhours Hnd Hrun.
    apply weather_plot_dew_returns in Hrun.
    destruct Hrun as (du' & dv & dd & ru & rv & Hu & Hv & Hd & Hsel & _).
    rewrite Hdu in Hu. inversion Hu; subst du'. clear Hu.
    destruct Hsel as (time & t & Ht & Hw & Hru & Hrv & Hrz).
    pose proof (numpy_facts.time_convert_unpadded _ _ Ht) as Htime.
    rewrite (time_convert_ok libc du (whole_hours_decodable Hhours)) in Ht.
    rewrite (whole_hours_stamp libc Hhours) in Ht.
    inversion Ht; subst time. clear Ht.
    destruct (where_first_date _ Htime Hw) as [Hx _].
    destruct (@only_match hours (rstrip_nul date) t
                (whole_hours_range Hhours) Hnd Hx)
      as (n & Hn & Hdate & Honly).
    exists dd, t, n. repeat split; assumption.
Qed.

End UniqueMatch.

(** The decoder on three distinct hours, the last with a fraction. *)
Lemma distinct_hours_distinct_strings_witness :
  Forall2 whole_hours
    (nc_time (time_axis [0; 8760; 1933290.5]%float)) [0; 8760; 1933290]
  /\ exists l,
       time_convert datetime.Glibc (time_axis [0; 8760; 1933290.5]%float)
       = Ok l
       /\ (forall i j n n',
             nth_error [0; 8760; 1933290] i = Some n ->
             nth_error [0; 8760; 1933290] j = Some n' ->
             nth_error l i = nth_error l j -> n = n')
       /\ (NoDup [0; 8760; 1933290] -> NoDup l).
Proof.
  assert (Hhours : Forall2 whole_hours
                     (nc_time (time_axis [0; 8760; 1933290.5]%float))
                     [0; 8760; 1933290]).
  { repeat constructor; unfold first_hour, last_hour; lia. }
  split; [exact Hhours|].
  exact (@distinct_hours_distinct_strings unit unit datetime.Glibc
           (time_axis [0; 8760; 1933290.5]%float) [0; 8760; 1933290]
           Hhours).
Defined.

(** One hour before the epoch is 23:00:00 of the day before. *)
Lemma decoded_time_of_day_witness :
  time_convert datetime.Glibc (time_axis [-1; 1933290.5]%float)
  = Ok ["1799-12-31 23:00:00"; "2020-07-19 18:00:00"]%string
  /\ exists hours,
       Forall2 decodable (nc_time (time_axis [-1; 1933290.5]%float)) hours
       /\ Forall2
            (fun n s =>
               exists ymd,
                 s = (ymd ++ String " "
                        (datetime.zero_padded 2 (n mod 24) ":00:00"))%string)
            hours ["1799-12-31 23:00:00"; "2020-07-19 18:00:00"]%string.
Proof.
  assert (Hrun : time_convert datetime.Glibc
                   (time_axis [-1; 1933290.5]%float)
                 = Ok ["1799-12-31 23:00:00"; "2020-07-19 18:00:00"]%string)
    by (vm_compute; reflexivity).
  split; [exact Hrun|].
  exact (@decoded_time_of_day unit unit datetime.Glibc
           (time_axis [-1; 1933290.5]%float) _ Hrun).
Defined.

(** Half past and a quarter to the hour decode alike, and so do -0.5 and
    0.25. *)
Lemma fraction_of_an_hour_is_dropped_witness :
  Forall2 (fun x y => int x = int y)
    (nc_time (time_axis [1933290.5; -0.5]%float))
    (nc_time (time_axis [1933290.75; 0.25]%float))
  /\ time_convert datetime.Glibc (time_axis [1933290.5; -0.5]%float)
     = time_convert datetime.Glibc (time_axis [1933290.75; 0.25]%float).
Proof.
  assert (Hint : Forall2 (fun x y => int x = int y)
                   (nc_time (time_axis [1933290.5; -0.5]%float))
                   (nc_time (time_axis [1933290.75; 0.25]%float))).
  { repeat constructor. }
  split; [exact Hint|].
  exact (@fraction_of_an_hour_is_dropped unit unit unit unit datetime.Glibc
           (time_axis [1933290.5; -0.5]%float)
           (time_axis [1933290.75; 0.25]%float) Hint).
Defined.

(** On the example files the date of July 19th followed by three NULs
    stands for the text of the first analysis time only. *)
Lemma matching_date_is_unique_witness :
  (pressure_fs "uwnd.202007.nc" = Some (pressure_file "uwnd" 0.514)
   /\ Forall2 whole_hours (nc_time (pressure_file "uwnd" 0.514))
        [1933290; 1933293]
   /\ NoDup [1933290; 1933293]
   /\ hgt_july19_nuls = (Ok (field 5910, 0%nat), snd hgt_july19_nuls))
  /\ exists dh t n l,
       pressure_fs "hgt.202007.nc" = Some dh
       /\ nth_error [1933290; 1933293] t = Some n
       /\ stamp n = rstrip_nul july19_nuls
       /\ (forall j n',
             nth_error [1933290; 1933293] j = Some n' ->
             stamp n' = rstrip_nul july19_nuls -> j = t)
       /\ item4 dh "hgt" t l = Ok (field 5910).
Proof.
  assert (Hnd : NoDup [1933290; 1933293]).
  { constructor; [intros [Heq|[]]; discriminate Heq|].
    constructor; [intros []|constructor]. }
  split.
  - split; [reflexivity|]. split; [exact pressure_hours|].
    split; [exact Hnd | exact hgt_july19_nuls_returns].
  - exact (proj1 (matching_date_is_unique mpl_check datetime.Glibc)
             pressure_fs "uwnd.202007.nc"%string "vwnd.202007.nc"%string
             "hgt.202007.nc"%string 500 july19_nuls "Reds"%string
             "darkblue"%string (Some [-89.0; -85.0; 31.0; 36.0]%float)
             fresh (snd hgt_july19_nuls) (field 5910) 0%nat
             (pressure_file "uwnd" 0.514) [1933290; 1933293]
             eq_refl pressure_hours Hnd hgt_july19_nuls_returns).
Defined.

(** ** Conversion, subsampling and styling *)

Lemma every_other_map {X Y : Type} (f : X -> Y) (a : list X) :
  every_other (map f a) = map f (every_other a).
Proof.
  assert (Hn : forall n (a : list X), (List.length a <= n)%nat ->
               every_other (map f a) = map f (every_other a)).
  { induction n as [|n IH]; intros [|x [|y b]] Hb; try reflexivity;
      cbn [List.length] in Hb; try lia.
    cbn [every_other map]. f_equal. apply IH. lia. }
  exact (Hn (List.length a) a (le_n _)).
Qed.

Section Styling.

Context {A : Type} `{Sample A}.
Variable check : @call A -> option exn.
Variable libc : datetime.libc.

(** Converting and then taking every other sample is taking every other
    sample and then converting. *)
Lemma stride2_divide (a : grid A) c :
  stride2 (divide a c) = divide (stride2 a) c.
Proof.
  unfold stride2, divide. rewrite every_other_map, !map_map.
  apply map_ext. intros row. apply every_other_map.
Qed.

(** X18: the winds the barbs show are the knots of every other sample of
    the slices read: converting the whole slice and then keeping every other
    row and column, as the renderers do, gives what converting only the
    samples kept would give. *)
Theorem barbs_convert_the_samples_kept :
  (forall fs uwnd_file vwnd_file hgt_file level date cmap barb_color extent
          (s s' : @state A) r fig x y u v color width,
     weather_plot_hgt check libc fs uwnd_file vwnd_file hgt_file level date
       cmap barb_color extent s = (r, s') ->
     In (Draw fig (barbs x y u v color width)) (new_events s s') ->
     exists du dv dh ru rv rz,
       fs uwnd_file = Some du /\ fs vwnd_file = Some dv
       /\ fs hgt_file = Some dh
       /\ hgt_selected libc du dv dh level date ru rv rz
       /\ u = divide (stride2 ru) 0.514 /\ v = divide (stride2 rv) 0.514)
  /\ (forall fs uwnd_file vwnd_file dew_file date cmap barb_color extent
             (s s' : @state A) r fig x y u v color width,
        weather_plot_dew check libc fs uwnd_file vwnd_file dew_file date
          cmap barb_color extent s = (r, s') ->
        In (Draw fig (barbs x y u v color width)) (new_events s s') ->
        exists du dv dd ru rv rz,
          fs uwnd_file = Some du /\ fs vwnd_file = Some dv
          /\ fs dew_file = Some dd
          /\ dew_selected libc du dv dd date ru rv rz
          /\ u = divide (stride2 ru) 0.514
          /\ v = divide (stride2 rv) 0.514).
Proof.
  split.
  - intros fs uwnd_file vwnd_file hgt_file level date cmap barb_color extent
      s s' r fig x y u v color width Hrun Hin.
    eapply weather_plot_hgt_draws in Hin; [|exact Hrun].
    destruct Hin
      as (du & dv & dh & ru & rv & rz & Hu & Hv & Hh & Hsel & -> & Hc).
    apply barbs_in_plot_calls in Hc. destruct Hc as (-> & -> & -> & ->).
    exists du, dv, dh, ru, rv, rz.
    rewrite !stride2_divide. repeat split; assumption.
  - intros fs uwnd_file vwnd_file dew_file date cmap barb_color extent
      s s' r fig x y u v color width Hrun Hin.
    eapply weather_plot_dew_draws in Hin; [|exact Hrun].
    destruct Hin
      as (du & dv & dd & ru & rv & rz & Hu & Hv & Hd & Hsel & -> & Hc).
    apply barbs_in_plot_calls in Hc. destruct Hc as (-> & -> & -> & ->).
    exists du, dv, dd, ru, rv, rz.
    rewrite !stride2_divide. repeat split; assumption.
Qed.

(** X19: the colour map, the barb colour, the extent and the world decide
    nothing about the data: where one call returns a field, a call on the
    same files, level and date with any other styling, from any other
    world, gets past the lookup and closes its files, and either returns
    the same field or raises what the plotting library raised on one of its
    calls. *)
Theorem styling_does_not_change_the_field :
  (forall fs uwnd_file vwnd_file hgt_file level date cmap barb_color extent
          cmap' barb_color' extent' (s s1 s' s1' : @state A) hgt ax r,
     weather_plot_hgt check libc fs uwnd_file vwnd_file hgt_file level date
       cmap barb_color extent s = (Ok (hgt, ax), s1) ->
     weather_plot_hgt check libc fs uwnd_file vwnd_file hgt_file level date
       cmap' barb_color' extent' s' = (r, s1') ->
     handles s1' = handles s' ++ [false; false; false]
     /\ (r = Ok (hgt, List.length (figures s'))
         \/ exists e c, r = Raise e /\ check c = Some e))
  /\ (forall fs uwnd_file vwnd_file dew_file date cmap barb_color extent
             cmap' barb_color' extent' (s s1 s' s1' : @state A) dew ax r,
        weather_plot_dew check libc fs uwnd_file vwnd_file dew_file date
          cmap barb_color extent s = (Ok (dew, ax), s1) ->
        weather_plot_dew check libc fs uwnd_file vwnd_file dew_file date
          cmap' barb_color' extent' s' = (r, s1') ->
        handles s1' = handles s' ++ [false; false; false]
        /\ (r = Ok (dew, List.length (figures s'))
            \/ exists e c, r = Raise e /\ check c = Some e)).
Proof.
  split.
  - intros fs uwnd_file vwnd_file hgt_file level date cmap barb_color extent
      cmap' barb_color' extent' s s1 s' s1' hgt ax r Hrun Hrun'.
    apply weather_plot_hgt_returns in Hrun.
    destruct Hrun as (du & dv & dh & ru & rv & Hu & Hv & Hh & Hsel & _).
    assert (Hf : hgt_fields libc du dv dh level date
                 = Ok (nc_lon du, nc_lat du, hgt,
                       divide ru 0.514, divide rv 0.514)).
    { apply hgt_fields_Ok. exists ru, rv. now repeat split. }
    erewrite weather_plot_hgt_run in Hrun' by eassumption.
    rewrite Hf in Hrun'. cbv zeta in Hrun'.
    inversion Hrun' as [[Hr Hs]]. clear Hrun'.
    split; [reflexivity|].
    destruct (outcome check _) as [[]|e] eqn:Eo; [now left|].
    right. destruct (outcome_Raise _ _ Eo) as (done & c & rest & _ & Hc & _).
    now exists e, c.
  - intros fs uwnd_file vwnd_file dew_file date cmap barb_color extent
      cmap' barb_color' extent' s s1 s' s1' dew ax r Hrun Hrun'.
    apply weather_plot_dew_returns in Hrun.
    destruct Hrun as (du & dv & dd & ru & rv & Hu & Hv & Hd & Hsel & _).
    assert (Hf : dew_fields libc du dv dd date
                 = Ok (nc_lon du, nc_lat du, dew,
                       divide ru 0.514, divide rv 0.514)).
    { apply dew_fields_Ok. exists ru, rv. now repeat split. }
    erewrite weather_plot_dew_run in Hrun' by eassumption.
    rewrite Hf in Hrun'. cbv zeta in Hrun'.
    inversion Hrun' as [[Hr Hs]]. clear Hrun'.
    split; [reflexivity|].
    destruct (outcome check _) as [[]|e] eqn:Eo; [now left|].
    right. destruct (outcome_Raise _ _ Eo) as (done & c & rest & _ & Hc & _).
    now exists e, c.
Qed.

End Styling.

(** On the example files the barbs of the call of July 19th show the knots
    of every other sample of the wind slices. *)
Lemma barbs_convert_the_samples_kept_witness :
  (hgt_july19 = (Ok (field 5910, 0%nat), snd hgt_july19)
   /\ In (Draw 0%nat
            (barbs (stride2 narr_lon) (stride2 narr_lat)
               (stride2 (divide (field 10.514) 0.514))
               (stride2 (divide (field 12) 0.514))
               "darkblue" 2.0))
        (new_events fresh (snd hgt_july19)))
  /\ exists du dv dh ru rv rz,
       pressure_fs "uwnd.202007.nc" = Some du
       /\ pressure_fs "vwnd.202007.nc" = Some dv
       /\ pressure_fs "hgt.202007.nc" = Some dh
       /\ hgt_selected datetime.Glibc du dv dh 500 july19 ru rv rz
       /\ stride2 (divide (field 10.514) 0.514) = divide (stride2 ru) 0.514
       /\ stride2 (divide (field 12) 0.514) = divide (stride2 rv) 0.514.
Proof.
  assert (Hin : In (Draw 0%nat
                      (barbs (stride2 narr_lon) (stride2 narr_lat)
                         (stride2 (divide (field 10.514) 0.514))
                         (stride2 (divide (field 12) 0.514))
                         "darkblue" 2.0))
                  (new_events fresh (snd hgt_july19))).
  { apply (nth_error_In _ 9). vm_compute. reflexivity. }
  split; [split; [exact hgt_july19_returns | exact Hin]|].
  exact (proj1 (barbs_convert_the_samples_kept mpl_check datetime.Glibc)
           _ _ _ _ _ _ _ _ _ _ _ _ _ _ _ _ _ _ _
           hgt_july19_returns Hin).
Defined.

(** On the example files the call of July 19th in blue, with red barbs and
    no extent, in the world the first call left, gets the same field. *)
Lemma styling_does_not_change_the_field_witness :
  (hgt_july19 = (Ok (field 5910, 0%nat), snd hgt_july19)
   /\ weather_plot_hgt mpl_check datetime.Glibc pressure_fs
        "uwnd.202007.nc" "vwnd.202007.nc" "hgt.202007.nc" 500 july19
        "Blues" "red" None (snd hgt_july19)
      = (fst (weather_plot_hgt mpl_check datetime.Glibc pressure_fs
                "uwnd.202007.nc" "vwnd.202007.nc" "hgt.202007.nc" 500
                july19 "Blues" "red" None (snd hgt_july19)),
         snd (weather_plot_hgt mpl_check datetime.Glibc pressure_fs
                "uwnd.202007.nc" "vwnd.202007.nc" "hgt.202007.nc" 500
                july19 "Blues" "red" None (snd hgt_july19))))
  /\ handles
       (snd (weather_plot_hgt mpl_check datetime.Glibc pressure_fs
               "uwnd.202007.nc" "vwnd.202007.nc" "hgt.202007.nc" 500
               july19 "Blues" "red" None (snd hgt_july19)))
     = handles (snd hgt_july19) ++ [false; false; false]
  /\ (fst (weather_plot_hgt mpl_check datetime.Glibc pressure_fs
             "uwnd.202007.nc" "vwnd.202007.nc" "hgt.202007.nc" 500
             july19 "Blues" "red" None (snd hgt_july19))
      = Ok (field 5910, List.length (figures (snd hgt_july19)))
      \/ exists e c,
           fst (weather_plot_hgt mpl_check datetime.Glibc pressure_fs
                  "uwnd.202007.nc" "vwnd.202007.nc" "hgt.202007.nc" 500
                  july19 "Blues" "red" None (snd hgt_july19))
           = Raise e
           /\ mpl_check c = Some e).
Proof.
  assert (Hrun' :
            weather_plot_hgt mpl_check datetime.Glibc pressure_fs
              "uwnd.202007.nc" "vwnd.202007.nc" "hgt.202007.nc" 500 july19
              "Blues" "red" None (snd hgt_july19)
            = (fst (weather_plot_hgt mpl_check datetime.Glibc pressure_fs
                      "uwnd.202007.nc" "vwnd.202007.nc" "hgt.202007.nc" 500
                      july19 "Blues" "red" None (snd hgt_july19)),
               snd (weather_plot_hgt mpl_check datetime.Glibc pressure_fs
                      "uwnd.202007.nc" "vwnd.202007.nc" "hgt.202007.nc" 500
                      july19 "Blues" "red" None (snd hgt_july19))))
    by apply surjective_pairing.
  split; [split; [exact hgt_july19_returns | exact Hrun']|].
  exact (proj1 (styling_does_not_change_the_field mpl_check datetime.Glibc)
           _ _ _ _ _ _ _ _ _ _ _ _ _ _ _ _ _ _ _
           hgt_july19_returns Hrun').
Defined.

(** ** NULs after the date *)

Lemma where_first_ext {X : Type} (f g : X -> bool) (a : list X) :
  (forall x, f x = g x) -> where_first f a = where_first g a.
Proof.
  intros Hfg. induction a as [|x a IH]; [reflexivity|].
  cbn [where_first]. now rewrite Hfg, IH.
Qed.

Lemma rstrip_nul_padding date pad :
  all_nul pad = true -> rstrip_nul (date ++ pad) = rstrip_nul date.
Proof.
  intros Hpad. induction date as [|c date IH].
  - cbn [String.append rstrip_nul]. now apply numpy_facts.rstrip_nul_empty.
  - cbn [String.append rstrip_nul]. rewrite IH.
    replace (all_nul (date ++ pad)) with (all_nul date); [reflexivity|].
    clear IH. induction date as [|d date IH]; cbn [String.append all_nul].
    + now rewrite Hpad.
    + now rewrite IH.
Qed.

Lemma same_text_same_lookup (date date' : string) (time : list string) :
  rstrip_nul date = rstrip_nul date' ->
  where_first (fun x => np_equal x date) time
  = where_first (fun x => np_equal x date') time.
Proof.
  intros Htext. apply where_first_ext. intros x.
  now rewrite !numpy_facts.np_equal_rstrip, Htext.
Qed.

Section Padding.

Context {A : Type} `{Sample A}.
Variable check : @call A -> option exn.
Variable libc : datetime.libc.

(** X20: the lookup of the date is not an exact match: NULs at the end of
    the date do not count.  Two dates that are equal once the NULs at
    their ends are dropped give a renderer the same complete outcome
    (value or exception, and final world) on every file system and in
    every world; in particular a date followed by NULs does what the date
    does. *)
Theorem nuls_after_the_date_do_not_count :
  (forall fs uwnd_file vwnd_file hgt_file level date date' cmap barb_color
          extent (s : @state A),
     rstrip_nul date = rstrip_nul date' ->
     weather_plot_hgt check libc fs uwnd_file vwnd_file hgt_file level date
       cmap barb_color extent s
     = weather_plot_hgt check libc fs uwnd_file vwnd_file hgt_file level
         date' cmap barb_color extent s)
  /\ (forall fs uwnd_file vwnd_file dew_file date date' cmap barb_color
             extent (s : @state A),
        rstrip_nul date = rstrip_nul date' ->
        weather_plot_dew check libc fs uwnd_file vwnd_file dew_file date
          cmap barb_color extent s
        = weather_plot_dew check libc fs uwnd_file vwnd_file dew_file date'
            cmap barb_color extent s)
  /\ (forall date pad,
        all_nul pad = true ->
        rstrip_nul (date ++ pad)%string = rstrip_nul date).
Proof.
  split; [|split].
  - intros fs uwnd_file vwnd_file hgt_file level date date' cmap barb_color
      extent s Htext.
    destruct (weather_plot_hgt_missing_exact check libc fs uwnd_file
                vwnd_file hgt_file level date cmap barb_color extent s)
      as (H0 & H1 & H2).
    destruct (weather_plot_hgt_missing_exact check libc fs uwnd_file
                vwnd_file hgt_file level date' cmap barb_color extent s)
      as (H0' & H1' & H2').
    destruct (fs uwnd_file) as [du|] eqn:Eu;
      [|now rewrite (H0 eq_refl), (H0' eq_refl)].
    destruct (fs vwnd_file) as [dv|] eqn:Ev;
      [|rewrite H1, H1' by congruence; reflexivity].
    destruct (fs hgt_file) as [dh|] eqn:Eh;
      [|rewrite H2, H2' by congruence; reflexivity].
    do 2 (erewrite weather_plot_hgt_run by eassumption).
    unfold hgt_fields.
    destruct (time_convert libc du) as [time|e]; [|reflexivity].
    cbn [bind result_Monad].
    now rewrite (@same_text_same_lookup date date' time Htext).
  - intros fs uwnd_file vwnd_file dew_file date date' cmap barb_color
      extent s Htext.
    destruct (weather_plot_dew_missing_exact check libc fs uwnd_file
                vwnd_file dew_file date cmap barb_color extent s)
      as (H0 & H1 & H2).
    destruct (weather_plot_dew_missing_exact check libc fs uwnd_file
                vwnd_file dew_file date' cmap barb_color extent s)
      as (H0' & H1' & H2').
    destruct (fs uwnd_file) as [du|] eqn:Eu;
      [|now rewrite (H0 eq_refl), (H0' eq_refl)].
    destruct (fs vwnd_file) as [dv|] eqn:Ev;
      [|rewrite H1, H1' by congruence; reflexivity].
    destruct (fs dew_file) as [dd|] eqn:Ed;
      [|rewrite H2, H2' by congruence; reflexivity].
    do 2 (erewrite weather_plot_dew_run by eassumption).
    unfold dew_fields.
    destruct (time_convert libc du) as [time|e]; [|reflexivity].
    cbn [bind result_Monad].
    now rewrite (@same_text_same_lookup date date' time Htext).
  - exact rstrip_nul_padding.
Qed.

End Padding.

(** On the example files the call of July 19th with three NULs after its
    date is the call of July 19th. *)
Lemma nuls_after_the_date_do_not_count_witness :
  rstrip_nul july19_nuls = rstrip_nul july19
  /\ hgt_july19_nuls = hgt_july19.
Proof.
  assert (Htext : rstrip_nul july19_nuls = rstrip_nul july19)
    by reflexivity.
  split; [exact Htext|].
  exact (proj1 (nuls_after_the_date_do_not_count mpl_check datetime.Glibc)
           pressure_fs "uwnd.202007.nc"%string "vwnd.202007.nc"%string
           "hgt.202007.nc"%string 500 july19_nuls july19 "Reds"%string
           "darkblue"%string (Some [-89.0; -85.0; 31.0; 36.0]%float) fresh
           Htext).
Defined.
